(** * The persistent terminal session of [p1_terminal_mcp_server.py]

    A shallow embedding of the three tools [initiate_terminal],
    [execute_command] and [terminate_terminal], of the session manager
    ([_start_shell], [_stop_shell], [_ensure_shell]) and of the marker
    protocol ([_execute], [_read_until_done]).

    Python objects are modelled as follows.
    - [str] is [string]; a character is a code point below 256.
    - [float] is the kernel's binary64 [float], so that
      [time.time() - start > timeout_sec] is computed as Python computes it.
    - a result [dict] is a [gmap string value].
    - the child processes, the clock and [uuid4] are the environment: they
      live in the [State] that every function threads, next to the module's
      global [_session].
    - an exception is an [exn]; a call returns, raises, never returns
      because [readline] waits for a line that does not end, or is still
      inside the read loop when the modelled output of the child ends. *)

From Stdlib Require Import ZArith Floats Ascii String DecimalString DecimalPos DecimalN Lia.
From stdpp Require Import gmap strings list functions.

Local Open Scope Z_scope.

(** ** Python strings *)

Module Py.

Definition nl : string := String "010"%char EmptyString.
Definition dquote : string := String "034"%char EmptyString.

(** [str.isspace] on the code points below 256. *)
Definition isspace (c : ascii) : bool :=
  let n := Z.of_nat (nat_of_ascii c) in
  ((9 <=? n) && (n <=? 13)) || ((28 <=? n) && (n <=? 32))
  || (n =? 133) || (n =? 160).

Fixpoint lstrip (s : string) : string :=
  match s with
  | EmptyString => EmptyString
  | String c r => if isspace c then lstrip r else s
  end.

(** [s.rstrip()] and [s.rstrip(chars)]: [drop] says which characters go. *)
Fixpoint rstrip_with (drop : ascii -> bool) (s : string) : string :=
  match s with
  | EmptyString => EmptyString
  | String c r =>
      match rstrip_with drop r with
      | EmptyString => if drop c then EmptyString else String c EmptyString
      | r' => String c r'
      end
  end.

Definition rstrip : string -> string := rstrip_with isspace.
Definition strip (s : string) : string := rstrip (lstrip s).

Definition is_newline (c : ascii) : bool := Ascii.eqb c "010"%char.

(** [s.rstrip("\n")] *)
Definition rstrip_nl : string -> string := rstrip_with is_newline.

Definition len (s : string) : Z := Z.of_nat (String.length s).

Definition startswith (s p : string) : bool := String.prefix p s.

(** ["".join(lines)] *)
Definition join (lines : list string) : string := String.concat "" lines.

(** [s.split(":", 1)]: one piece when [s] has no colon, else the text before
    the first colon and the text after it. *)
Fixpoint split_colon (s : string) : list string :=
  match s with
  | EmptyString => [EmptyString]
  | String c r =>
      if Ascii.eqb c ":"%char then [EmptyString; r]
      else match split_colon r with
           | [] => []
           | h :: t => String c h :: t
           end
  end.

(** [int(s)] for a string: optional sign, then decimal digits, single
    underscores allowed between digits; blanks around are ignored; a
    literal of more than [int_max_str_digits] digits is refused.
    [None] stands for [ValueError]. *)
Inductive int_lexer := AtStart | AfterDigit | AfterUnderscore.

Definition digit_of (c : ascii) : option Z :=
  let n := Z.of_nat (nat_of_ascii c) in
  if (48 <=? n) && (n <=? 57) then Some (n - 48) else None.

Fixpoint int_digits (st : int_lexer) (acc : Z) (s : string) : option Z :=
  match s with
  | EmptyString => match st with AfterDigit => Some acc | _ => None end
  | String c r =>
      match digit_of c with
      | Some d => int_digits AfterDigit (acc * 10 + d) r
      | None =>
          if Ascii.eqb c "_"%char
          then match st with
               | AfterDigit => int_digits AfterUnderscore acc r
               | _ => None
               end
          else None
      end
  end.

(** [sys.int_max_str_digits], as the interpreter sets it when nothing
    configures it. *)
Definition int_max_str_digits : Z := 4300.

(** The digits of a literal; underscores and the sign do not count. *)
Fixpoint digit_count (s : string) : nat :=
  match s with
  | EmptyString => 0
  | String c r =>
      match digit_of c with
      | Some _ => S (digit_count r)
      | None => digit_count r
      end
  end.

Definition int_literal (s : string) : option Z :=
  if Z.of_nat (digit_count s) <=? int_max_str_digits
  then int_digits AtStart 0 s
  else None.

Definition int_of_str (s : string) : option Z :=
  match strip s with
  | String "+"%char r => int_literal r
  | String "-"%char r => Z.opp <$> int_literal r
  | t => int_literal t
  end.

End Py.

(** ** Python floats *)

Module PyFloat.

(** [a - b > t] *)
Definition exceeds (a b t : float) : bool := PrimFloat.ltb t (PrimFloat.sub a b).

Definition Zdigits (z : Z) : string := NilZero.string_of_uint (N.to_uint (Z.to_N z)).

(** The integer nearest to [n * 2^e], ties to the even one ([0 <= n]). *)
Definition round_half_even (n e : Z) : Z :=
  if 0 <=? e then n * 2 ^ e
  else
    let d := 2 ^ (- e) in
    let q := n / d in
    let r := n mod d in
    if 2 * r <? d then q
    else if d <? 2 * r then q + 1
    else if Z.even q then q else q + 1.

Definition sign_str (neg : bool) : string := if neg then "-" else "".

(** [f"{x:.1f}"] *)
Definition format_1f (x : float) : string :=
  match Prim2SF x with
  | S754_nan => "nan"
  | S754_infinity s => sign_str s +:+ "inf"
  | S754_zero s => sign_str s +:+ "0.0"
  | S754_finite s m e =>
      let t := round_half_even (10 * Z.pos m) e in
      sign_str s +:+ Zdigits (t / 10) +:+ "." +:+ Zdigits (t mod 10)
  end.

(** [int(x)]: truncation towards zero; [None] stands for the [ValueError]
    of a NaN and the [OverflowError] of an infinity. *)
Definition to_int (x : float) : option Z :=
  match Prim2SF x with
  | S754_nan | S754_infinity _ => None
  | S754_zero _ => Some 0
  | S754_finite s m e =>
      let a := if 0 <=? e then Z.pos m * 2 ^ e else Z.pos m / 2 ^ (- e) in
      Some (if s then - a else a)
  end.

End PyFloat.

(** ** Values, exceptions, outcomes *)

Inductive value :=
| VNone
| VBool (b : bool)
| VInt (z : Z)
| VStr (s : string).

Definition of_opt_int (o : option Z) : value :=
  match o with Some z => VInt z | None => VNone end.

Definition of_opt_str (o : option string) : value :=
  match o with Some s => VStr s | None => VNone end.

(** Truth value of an object, as [if x], [x or y] and [not x] take it. *)
Definition truthy (v : value) : bool :=
  match v with
  | VNone => false
  | VBool b => b
  | VInt z => negb (z =? 0)
  | VStr s => negb (String.eqb s "")
  end.

(** [x or y] *)
Definition py_or (x y : value) : value := if truthy x then x else y.

(** [d.get(k)] *)
Definition get (d : gmap string value) (k : string) : value :=
  default VNone (d !! k).

Inductive exn :=
| RuntimeError (msg : string)
| OSError
| BrokenPipeError
| TimeoutExpired
| IndexError
| AttributeError
| AssertionError
| ValueError
| OverflowError
| UnicodeDecodeError.

(** How a call ends: it returns, it raises, it never returns because
    [readline] is waiting for the end of a line that does not come, or it
    is still inside [_read_until_done] when the modelled output of the child
    is used up. *)
Inductive outcome (A : Type) :=
| Returned (a : A)
| Raised (e : exn)
| Blocked
| Reading.
Arguments Returned {A} a.
Arguments Raised {A} e.
Arguments Blocked {A}.
Arguments Reading {A}.

(** ** The environment and the module's global *)

(** The handle [subprocess.Popen] returns: the child it names and whether
    the two pipes were created. *)
Record Popen := { pid : nat; stdin : bool; stdout : bool }.

(** @dataclass class ShellSession *)
Record ShellSession := { proc : Popen }.

(** One iteration's view of the child's output: [select] finds nothing to
    read; [readline] delivers a line (the empty string at end of file);
    [readline] meets bytes that are no text in the encoding of the pipe and
    raises; or [select] finds the beginning of a line whose end never
    comes, and [readline] does not return. *)
Inductive Obs :=
| NotReady
| Line (s : string)
| Undecodable
| Unfinished.

Inductive signal := SIGTERM | SIGKILL.

(** A child process. [reaped] is the return code its handle holds once
    [poll()] or [wait()] has found the child ended, [received] what was
    written to its standard input, [feed] what the read loop will see on its
    output, [signals] what was sent to it. The rest is the environment's:
    [exits] tells whether the child has ended by itself (an [exit 3] typed
    into the shell, a crash) by the time its output has been read up to what
    [feed] still holds, and with what status; the four flags tell whether a
    write to its input, [terminate()], [wait(timeout=2)] and [kill()]
    raise. *)
Record Process := {
  reaped : option Z;
  exits : list Obs -> option Z;
  received : list string;
  feed : list Obs;
  signals : list signal;
  write_raises : bool;
  terminate_raises : bool;
  wait_raises : bool;
  kill_raises : bool
}.

(** What [poll()] reports: the return code the handle holds, else the
    status of a child that has ended by itself, else [None]. *)
Definition returncode (x : Process) : option Z :=
  match reaped x with
  | Some rc => Some rc
  | None => exits x (feed x)
  end.

(** What a call of [subprocess.Popen] does. *)
Inductive PopenResult :=
| PopenRaises
| PopenGives (has_stdin has_stdout : bool).

(** The program state: the global [_session]; the children by process id,
    those still to be created included; the number of [Popen] calls made and
    what each one does; the readings [time.time()] gives and how many were
    taken; the strings [uuid.uuid4().hex] gives and how many were taken. *)
Record State := {
  _session : option ShellSession;
  procs : nat -> Process;
  spawned : nat;
  popen : nat -> PopenResult;
  clock : nat -> float;
  clock_reads : nat;
  uuids : nat -> string;
  uuid_reads : nat
}.

Definition set_session (o : option ShellSession) (st : State) : State :=
  {| _session := o; procs := procs st; spawned := spawned st;
     popen := popen st; clock := clock st; clock_reads := clock_reads st;
     uuids := uuids st; uuid_reads := uuid_reads st |}.

Definition set_procs (f : nat -> Process) (st : State) : State :=
  {| _session := _session st; procs := f; spawned := spawned st;
     popen := popen st; clock := clock st; clock_reads := clock_reads st;
     uuids := uuids st; uuid_reads := uuid_reads st |}.

Definition set_spawned (n : nat) (st : State) : State :=
  {| _session := _session st; procs := procs st; spawned := n;
     popen := popen st; clock := clock st; clock_reads := clock_reads st;
     uuids := uuids st; uuid_reads := uuid_reads st |}.

Definition set_clock_reads (n : nat) (st : State) : State :=
  {| _session := _session st; procs := procs st; spawned := spawned st;
     popen := popen st; clock := clock st; clock_reads := n;
     uuids := uuids st; uuid_reads := uuid_reads st |}.

Definition set_uuid_reads (n : nat) (st : State) : State :=
  {| _session := _session st; procs := procs st; spawned := spawned st;
     popen := popen st; clock := clock st; clock_reads := clock_reads st;
     uuids := uuids st; uuid_reads := n |}.

Definition set_proc (p : nat) (x : Process) (st : State) : State :=
  set_procs (<[p := x]> (procs st)) st.

(** ** State and exception monad *)

Definition M (A : Type) : Type := State -> outcome A * State.

Definition ret {A} (a : A) : M A := fun st => (Returned a, st).

Definition raise {A} (e : exn) : M A := fun st => (Raised e, st).

Definition bind {A B} (m : M A) (f : A -> M B) : M B :=
  fun st =>
    match m st with
    | (Returned a, st') => f a st'
    | (Raised e, st') => (Raised e, st')
    | (Blocked, st') => (Blocked, st')
    | (Reading, st') => (Reading, st')
    end.

(** [try: m  except Exception: h] *)
Definition try_except {A} (m : M A) (h : M A) : M A :=
  fun st =>
    match m st with
    | (Raised _, st') => h st'
    | r => r
    end.

(** [try: m  finally: f] *)
Definition try_finally {A} (m : M A) (f : M unit) : M A :=
  fun st =>
    match m st with
    | (Blocked, st') => (Blocked, st')
    | (r, st') =>
        match f st' with
        | (Returned _, st'') => (r, st'')
        | (Raised e, st'') => (Raised e, st'')
        | (Blocked, st'') => (Blocked, st'')
        | (Reading, st'') => (Reading, st'')
        end
    end.

Notation "x <- m ;; k" := (bind m (fun x => k))
  (at level 100, m at next level, right associativity).
Notation "m >> k" := (bind m (fun _ => k))
  (at level 100, right associativity).

(** [assert b] *)
Definition assert (b : bool) : M unit :=
  if b then ret tt else raise AssertionError.

(** ** The library calls *)

(** [time.time()] *)
Definition time_time : M float :=
  fun st => (Returned (clock st (clock_reads st)),
             set_clock_reads (S (clock_reads st)) st).

(** [uuid.uuid4().hex] *)
Definition uuid4_hex : M string :=
  fun st => (Returned (uuids st (uuid_reads st)),
             set_uuid_reads (S (uuid_reads st)) st).

(** [subprocess.Popen(args, stdin=PIPE, stdout=PIPE, stderr=STDOUT, ...)] *)
Definition subprocess_Popen : M Popen :=
  fun st =>
    let n := spawned st in
    match popen st n with
    | PopenRaises => (Raised OSError, set_spawned (S n) st)
    | PopenGives i o =>
        (Returned {| pid := n; stdin := i; stdout := o |}, set_spawned (S n) st)
    end.

Definition with_received (l : list string) (x : Process) : Process :=
  {| reaped := reaped x; exits := exits x; received := l; feed := feed x;
     signals := signals x; write_raises := write_raises x;
     terminate_raises := terminate_raises x; wait_raises := wait_raises x;
     kill_raises := kill_raises x |}.

Definition with_feed (l : list Obs) (x : Process) : Process :=
  {| reaped := reaped x; exits := exits x; received := received x; feed := l;
     signals := signals x; write_raises := write_raises x;
     terminate_raises := terminate_raises x; wait_raises := wait_raises x;
     kill_raises := kill_raises x |}.

Definition with_signals (l : list signal) (x : Process) : Process :=
  {| reaped := reaped x; exits := exits x; received := received x;
     feed := feed x; signals := l; write_raises := write_raises x;
     terminate_raises := terminate_raises x; wait_raises := wait_raises x;
     kill_raises := kill_raises x |}.

(** The handle stores a return code. *)
Definition with_returncode (rc : option Z) (x : Process) : Process :=
  {| reaped := rc; exits := exits x; received := received x; feed := feed x;
     signals := signals x; write_raises := write_raises x;
     terminate_raises := terminate_raises x; wait_raises := wait_raises x;
     kill_raises := kill_raises x |}.

(** [p.stdin.write(s); p.stdin.flush()] *)
Definition stdin_write_flush (p : Popen) (s : string) : M unit :=
  fun st =>
    let x := procs st (pid p) in
    if write_raises x then (Raised BrokenPipeError, st)
    else (Returned tt, set_proc (pid p) (with_received (received x ++ [s]) x) st).

(** [p.poll()]: a child found ended is reaped, and its status is kept in
    the handle from then on. *)
Definition poll (p : Popen) : M (option Z) :=
  fun st =>
    let x := procs st (pid p) in
    match reaped x with
    | Some rc => (Returned (Some rc), st)
    | None =>
        match exits x (feed x) with
        | Some rc =>
            (Returned (Some rc), set_proc (pid p) (with_returncode (Some rc) x) st)
        | None => (Returned None, st)
        end
    end.

(** [p.terminate()]: nothing is sent to a child that has ended. *)
Definition terminate (p : Popen) : M unit :=
  fun st =>
    let x := procs st (pid p) in
    if terminate_raises x then (Raised OSError, st)
    else match returncode x with
         | Some _ => (Returned tt, st)
         | None => (Returned tt, set_proc (pid p) (with_signals (signals x ++ [SIGTERM]) x) st)
         end.

(** [p.wait(timeout=2)]: the child ends and is reaped, or the wait times
    out. *)
Definition wait (p : Popen) : M unit :=
  fun st =>
    let x := procs st (pid p) in
    if wait_raises x then (Raised TimeoutExpired, st)
    else match returncode x with
         | Some _ => (Returned tt, st)
         | None => (Returned tt, set_proc (pid p) (with_returncode (Some (-15)) x) st)
         end.

(** [p.kill()] *)
Definition kill (p : Popen) : M unit :=
  fun st =>
    let x := procs st (pid p) in
    if kill_raises x then (Raised OSError, st)
    else match returncode x with
         | Some _ => (Returned tt, st)
         | None => (Returned tt, set_proc (pid p) (with_signals (signals x ++ [SIGKILL]) x) st)
         end.

(** [int(x)] of a float *)
Definition int_of_float (x : float) : M Z :=
  match PyFloat.to_int x with
  | Some z => ret z
  | None => raise (if PrimFloat.is_nan x then ValueError else OverflowError)
  end.

(** [v.strip()]: only a [str] has the method. *)
Definition str_strip (v : value) : M string :=
  match v with
  | VStr s => ret (Py.strip s)
  | _ => raise AttributeError
  end.

(** [v == 0] *)
Definition eq_zero (v : value) : bool :=
  match v with
  | VInt z => z =? 0
  | VBool b => negb b
  | _ => false
  end.

Definition get_session : M (option ShellSession) :=
  fun st => (Returned (_session st), st).

Definition put_session (o : option ShellSession) : M unit :=
  fun st => (Returned tt, set_session o st).

(** ** The server *)

(** The local variables of [_read_until_done]. *)
Record Vars := {
  lines : list string;
  exit_code : option Z;
  cwd_after : option string;
  stored_chars : Z;
  stored_lines : Z;
  truncated : bool
}.

Definition vars0 : Vars :=
  {| lines := []; exit_code := None; cwd_after := None;
     stored_chars := 0; stored_lines := 0; truncated := false |}.

Definition with_cwd_after (c : option string) (v : Vars) : Vars :=
  {| lines := lines v; exit_code := exit_code v; cwd_after := c;
     stored_chars := stored_chars v; stored_lines := stored_lines v;
     truncated := truncated v |}.

Definition with_exit_code (c : option Z) (v : Vars) : Vars :=
  {| lines := lines v; exit_code := c; cwd_after := cwd_after v;
     stored_chars := stored_chars v; stored_lines := stored_lines v;
     truncated := truncated v |}.

Definition store_line (line : string) (v : Vars) : Vars :=
  {| lines := lines v ++ [line]; exit_code := exit_code v;
     cwd_after := cwd_after v;
     stored_chars := stored_chars v + Py.len line;
     stored_lines := stored_lines v + 1;
     truncated := truncated v |}.

Definition set_truncated (v : Vars) : Vars :=
  {| lines := lines v; exit_code := exit_code v; cwd_after := cwd_after v;
     stored_chars := stored_chars v; stored_lines := stored_lines v;
     truncated := true |}.

(** The three dictionaries [_read_until_done] returns. *)
Definition timeout_result (timeout_sec : float) (v : Vars) : gmap string value :=
  list_to_map
    [("ok", VBool false);
     ("error", VStr ("timeout after " +:+ PyFloat.format_1f timeout_sec +:+ "s"));
     ("stdout", VStr (Py.join (lines v)));
     ("exit_code", of_opt_int (exit_code v));
     ("cwd_after", of_opt_str (cwd_after v));
     ("truncated", VBool (truncated v))].

Definition closed_result (v : Vars) : gmap string value :=
  list_to_map
    [("ok", VBool false);
     ("error", VStr "shell session ended unexpectedly");
     ("stdout", VStr (Py.join (lines v)));
     ("exit_code", of_opt_int (exit_code v));
     ("cwd_after", of_opt_str (cwd_after v));
     ("truncated", VBool (truncated v))].

Definition done_result (v : Vars) : gmap string value :=
  list_to_map
    [("ok", VBool true);
     ("stdout", VStr (Py.join (lines v)));
     ("exit_code", of_opt_int (exit_code v));
     ("cwd_after", of_opt_str (cwd_after v));
     ("truncated", VBool (truncated v))].

(** What the body of the [while] does with the line it has read. *)
Inductive step :=
| Continue (v : Vars)
| Break (v : Vars)
| Return (r : gmap string value)
| Raise (e : exn).

Section Server.

(** The two caps, read from the process environment when the module loads
    (20000 and 800 when unset). *)
Variables MAX_OUTPUT_CHARS MAX_OUTPUT_LINES : Z.

Definition _start_shell : M ShellSession :=
  p <- subprocess_Popen ;;
  if negb (stdin p) || negb (stdout p)
  then raise (RuntimeError "Failed to start shell with pipes")
  else
    stdin_write_flush p ("export PS1=''" +:+ Py.nl) >>
    ret {| proc := p |}.

Definition _stop_shell : M unit :=
  s <- get_session ;;
  match s with
  | None => ret tt
  | Some s =>
      try_finally
        (try_except
           (terminate (proc s) >> wait (proc s))
           (try_except (kill (proc s)) (ret tt)))
        (put_session None)
  end.

Definition _ensure_shell : M Popen :=
  s <- get_session ;;
  (match s with
   | None => s' <- _start_shell ;; put_session (Some s')
   | Some _ => ret tt
   end) >>
  s <- get_session ;;
  match s with
  | None => raise AttributeError
  | Some s =>
      rc <- poll (proc s) ;;
      (match rc with
       | Some _ => s' <- _start_shell ;; put_session (Some s')
       | None => ret tt
       end) >>
      s <- get_session ;;
      match s with
      | None => raise AttributeError
      | Some s => ret (proc s)
      end
  end.

Definition on_line (cwd_marker done_marker : string) (v : Vars) (line : string) : step :=
  if String.eqb line "" then Return (closed_result v)
  else if Py.startswith line cwd_marker then
    match Py.split_colon line !! 1%nat with
    | Some t => Continue (with_cwd_after (Some (Py.strip t)) v)
    | None => Raise IndexError
    end
  else if Py.startswith line done_marker then
    Break (with_exit_code
             (match Py.split_colon line !! 1%nat with
              | Some t => Py.int_of_str (Py.strip t)
              | None => None
              end) v)
  else if negb (truncated v) && (stored_lines v <? MAX_OUTPUT_LINES)
          && (stored_chars v + Py.len line <=? MAX_OUTPUT_CHARS)
  then Continue (store_line line v)
  else Continue (set_truncated v).

(** The [while True] of [_read_until_done]: [n] counts the clock readings
    taken so far, [obs] is what the child's output still holds. The clock is
    read at the top of an iteration only: nothing bounds the time spent
    inside [readline]. *)
Fixpoint read_loop (cwd_marker done_marker : string) (timeout_sec start : float)
    (clk : nat -> float) (n : nat) (obs : list Obs) (v : Vars)
    : outcome (gmap string value) * nat * list Obs :=
  if PyFloat.exceeds (clk n) start timeout_sec
  then (Returned (timeout_result timeout_sec v), S n, obs)
  else
    match obs with
    | [] => (Reading, S n, [])
    | NotReady :: rest =>
        read_loop cwd_marker done_marker timeout_sec start clk (S n) rest v
    | Line line :: rest =>
        match on_line cwd_marker done_marker v line with
        | Continue v' =>
            read_loop cwd_marker done_marker timeout_sec start clk (S n) rest v'
        | Break v' => (Returned (done_result v'), S n, rest)
        | Return r => (Returned r, S n, rest)
        | Raise e => (Raised e, S n, rest)
        end
    | Undecodable :: rest => (Raised UnicodeDecodeError, S n, rest)
    | Unfinished :: rest => (Blocked, S n, rest)
    end.

Definition _read_until_done (proc : Popen) (cwd_marker done_marker : string)
    (timeout_sec : float) : M (gmap string value) :=
  assert (stdout proc) >>
  start <- time_time ;;
  fun st =>
    let x := procs st (pid proc) in
    match read_loop cwd_marker done_marker timeout_sec start
            (clock st) (clock_reads st) (feed x) vars0 with
    | (o, n, rest) =>
        (o, set_clock_reads n (set_proc (pid proc) (with_feed rest x) st))
    end.

Definition cwd_marker_of (uid : string) : string := "__MCP_CWD_" +:+ uid +:+ "__".
Definition done_marker_of (uid : string) : string := "__MCP_DONE_" +:+ uid +:+ "__".

Definition payload_of (cmd cwd_marker done_marker : string) : string :=
  Py.rstrip_nl cmd +:+ Py.nl
  +:+ "__mcp_ec=$?" +:+ Py.nl
  +:+ "printf " +:+ Py.dquote +:+ cwd_marker +:+ ":%s\n" +:+ Py.dquote
      +:+ " " +:+ Py.dquote +:+ "$PWD" +:+ Py.dquote +:+ Py.nl
  +:+ "printf " +:+ Py.dquote +:+ done_marker +:+ ":%s\n" +:+ Py.dquote
      +:+ " " +:+ Py.dquote +:+ "$__mcp_ec" +:+ Py.dquote +:+ Py.nl.

(** The calls run one at a time here, so [async with _lock] is not modelled. *)
Definition _execute (cmd : string) (timeout_sec : float) : M (gmap string value) :=
  proc <- _ensure_shell ;;
  assert (stdin proc) >>
  uid <- uuid4_hex ;;
  let cwd_marker := cwd_marker_of uid in
  let done_marker := done_marker_of uid in
  stdin_write_flush proc (payload_of cmd cwd_marker done_marker) >>
  _read_until_done proc cwd_marker done_marker timeout_sec.

Definition initiate_terminal : M (gmap string value) :=
  _stop_shell >>
  _ensure_shell >>
  res <- _execute "pwd" 8%float ;;
  out <- str_strip (py_or (get res "stdout") (VStr "")) ;;
  ret (list_to_map
         [("ok", VBool true);
          ("message", VStr "terminal session initiated");
          ("cwd", py_or (VStr out) (get res "cwd_after"))]).

Definition terminate_terminal : M (gmap string value) :=
  _stop_shell >>
  ret (list_to_map
         [("ok", VBool true);
          ("message", VStr "terminal session terminated")]).

Definition empty_command : gmap string value :=
  list_to_map
    [("ok", VBool false);
     ("error", VStr "empty command");
     ("stdout", VStr "");
     ("exit_code", VNone);
     ("cwd_after", VNone)].

(** [cmd] is [None] or a string; [str(cmd)] is then [cmd] itself. *)
Definition is_blank (cmd : option string) : bool :=
  match cmd with
  | None => true
  | Some c => String.eqb (Py.strip c) ""
  end.

Definition placeholder (res : gmap string value) : M (gmap string value) :=
  if truthy (get res "ok") && eq_zero (get res "exit_code")
  then
    out <- str_strip (py_or (get res "stdout") (VStr "")) ;;
    if String.eqb out "" then ret (<["stdout" := VStr ("(ok)" +:+ Py.nl)]> res)
    else ret res
  else ret res.

Definition execute_command (cmd : option string) (timeout_sec : float)
    : M (gmap string value) :=
  match cmd with
  | None => ret empty_command
  | Some c =>
      if is_blank cmd then ret empty_command
      else
        t0 <- time_time ;;
        res <- _execute c timeout_sec ;;
        let res := <["cmd" := VStr c]> res in
        t1 <- time_time ;;
        ms <- int_of_float (PrimFloat.mul (PrimFloat.sub t1 t0) 1000%float) ;;
        let res := <["duration_ms" := VInt ms]> res in
        placeholder res
  end.

End Server.

(** ** Notions the properties are stated with *)

(** Every character is white space: what [not str(cmd).strip()] tests. *)
Fixpoint all_space (s : string) : bool :=
  match s with
  | EmptyString => true
  | String c r => Py.isspace c && all_space r
  end.

(** The number of lines of a text: its newlines, and one more for a last
    line that has none. *)
Fixpoint line_count (s : string) : nat :=
  match s with
  | EmptyString => 0
  | String c r =>
      if Py.is_newline c then S (line_count r)
      else match r with
           | EmptyString => 1
           | _ => line_count r
           end
  end.

(** What [readline] can return: a newline only as the last character. *)
Fixpoint readline_shape (s : string) : bool :=
  match s with
  | EmptyString => true
  | String c r => if Py.is_newline c then String.eqb r "" else readline_shape r
  end.

Definition obs_shape (o : Obs) : Prop :=
  match o with
  | Line l => readline_shape l = true
  | _ => True
  end.

(** An ordinary line: not the end of file and neither marker in front. *)
Definition is_ordinary (cwd_marker done_marker line : string) : bool :=
  negb (String.eqb line "") && negb (Py.startswith line cwd_marker)
  && negb (Py.startswith line done_marker).

(** The ordinary lines among what was read. *)
Fixpoint ordinary (cwd_marker done_marker : string) (obs : list Obs) : list string :=
  match obs with
  | [] => []
  | Line l :: rest =>
      if is_ordinary cwd_marker done_marker l
      then l :: ordinary cwd_marker done_marker rest
      else ordinary cwd_marker done_marker rest
  | _ :: rest => ordinary cwd_marker done_marker rest
  end.

(** What [terminate], [wait] and [kill] leave alone: everything but the
    signals sent to the processes and their return codes. *)
Definition signals_only (st st' : State) : Prop :=
  _session st' = _session st /\
  spawned st' = spawned st /\ popen st' = popen st /\
  clock st' = clock st /\ clock_reads st' = clock_reads st /\
  uuids st' = uuids st /\ uuid_reads st' = uuid_reads st /\
  forall q,
    feed (procs st' q) = feed (procs st q) /\
    received (procs st' q) = received (procs st q) /\
    write_raises (procs st' q) = write_raises (procs st q) /\
    terminate_raises (procs st' q) = terminate_raises (procs st q) /\
    wait_raises (procs st' q) = wait_raises (procs st q) /\
    kill_raises (procs st' q) = kill_raises (procs st q).

(** A call of [Popen] that gives both pipes to a child whose input can be
    written to. *)
Definition spawn_ok (st : State) (k : nat) : Prop :=
  popen st k = PopenGives true true /\ write_raises (procs st k) = false.

(** The state [_start_shell] leaves when the spawn goes well. *)
Definition started (st : State) : State :=
  let k := spawned st in
  let x := procs st k in
  set_proc k (with_received (received x ++ ["export PS1=''" +:+ Py.nl]) x)
    (set_spawned (S k) st).

Definition new_handle (st : State) : Popen :=
  {| pid := spawned st; stdin := true; stdout := true |}.

(** The state [poll()] leaves. *)
Definition polled (p : Popen) (st : State) : State := snd (poll p st).

(** ** Concrete environments *)

(** A child that will show [out] on its output and does not end by
    itself. *)
Definition child (out : list Obs) : Process :=
  {| reaped := None; exits := fun _ => None; received := [];
     feed := out; signals := [];
     write_raises := false; terminate_raises := false;
     wait_raises := false; kill_raises := false |}.

(** A clock that stands still, and one that jumps by a hundred seconds
    after its reading number [k]. *)
Definition still_clock (n : nat) : float := 0%float.

Definition jump_after (k n : nat) : float :=
  if (n <=? k)%nat then 0%float else 100%float.

Definition uid0 : string := "0123456789abcdef0123456789abcdef".

(** No session yet; every [Popen] call does [po] and every child created
    shows [out]. *)
Definition world (po : PopenResult) (clk : nat -> float) (out : list Obs) : State :=
  {| _session := None; procs := fun _ => child out; spawned := 0;
     popen := fun _ => po; clock := clk; clock_reads := 0;
     uuids := fun _ => uid0; uuid_reads := 0 |}.

(** A session on the running child number 0. *)
Definition world_with_session (clk : nat -> float) (out : list Obs) : State :=
  {| _session := Some {| proc := {| pid := 0; stdin := true; stdout := true |} |};
     procs := fun _ => child out; spawned := 1;
     popen := fun _ => PopenGives true true; clock := clk; clock_reads := 0;
     uuids := fun _ => uid0; uuid_reads := 0 |}.

(** A child on which [terminate], [wait] and [kill] all raise. *)
Definition stubborn_child : Process :=
  {| reaped := None; exits := fun _ => None; received := [];
     feed := []; signals := [];
     write_raises := false; terminate_raises := true;
     wait_raises := true; kill_raises := true |}.

Definition stubborn_world : State :=
  {| _session := Some {| proc := {| pid := 0; stdin := true; stdout := true |} |};
     procs := fun _ => stubborn_child; spawned := 1;
     popen := fun _ => PopenGives true true; clock := still_clock;
     clock_reads := 0; uuids := fun _ => uid0; uuid_reads := 0 |}.

Definition handle0 : Popen := {| pid := 0; stdin := true; stdout := true |}.

(** Lines a shell could print for the execution with identifier [uid0]. *)
Definition cwd_line : string := cwd_marker_of uid0 +:+ ":/root" +:+ Py.nl.
Definition done_line : string := done_marker_of uid0 +:+ ":0" +:+ Py.nl.
Definition bare_cwd_line : string := cwd_marker_of uid0 +:+ Py.nl.

(** Output that overruns caps of five characters and two lines. *)
Definition long_output : list Obs :=
  [Line ("ab" +:+ Py.nl); Line ("cdef" +:+ Py.nl); NotReady;
   Line ("x" +:+ Py.nl); Line cwd_line; Line done_line].

(** The fields every returned dictionary has. *)
Definition common_fields (r : gmap string value) : Prop :=
  (exists b, r !! "ok" = Some (VBool b) /\ (is_Some (r !! "error") <-> b = false)) /\
  (exists s, r !! "stdout" = Some (VStr s)) /\
  (exists o, r !! "exit_code" = Some (of_opt_int o)) /\
  (exists o, r !! "cwd_after" = Some (of_opt_str o)).

(** The fields of a dictionary that went through an execution. *)
Definition execution_fields (cmd : string) (r : gmap string value) : Prop :=
  (exists b, r !! "truncated" = Some (VBool b)) /\
  r !! "cmd" = Some (VStr cmd) /\
  (exists ms, r !! "duration_ms" = Some (VInt ms)).

(** The clock shows times whose differences are numbers: [int] of a
    duration in milliseconds does not raise. *)
Definition clock_finite (st : State) : Prop :=
  forall a b,
    PyFloat.to_int
      (PrimFloat.mul (PrimFloat.sub (clock st a) (clock st b)) 1000%float)
    <> None.

(** [Popen] raises, or gives a process that lacks a pipe. *)
Definition spawn_fails (st : State) : Prop :=
  popen st (spawned st) = PopenRaises \/
  exists i o, popen st (spawned st) = PopenGives i o /\ i && o = false.

Section Reading.

Variables MAX_OUTPUT_CHARS MAX_OUTPUT_LINES : Z.
Variables cwd_marker done_marker : string.
Variables timeout_sec start : float.
Variable clk : nat -> float.

(** The line fits under both caps and nothing was dropped before. *)
Definition fits (v : Vars) (line : string) : bool :=
  negb (truncated v) && (stored_lines v <? MAX_OUTPUT_LINES)
  && (stored_chars v + Py.len line <=? MAX_OUTPUT_CHARS).

(** The loop is still reading after the observations [pre]: no clock check
    fired, no line made it leave and [readline] came back each time. The result is the number of clock
    readings taken and the local variables at the top of the next iteration. *)
Fixpoint still_reading (n : nat) (pre : list Obs) (v : Vars) : option (nat * Vars) :=
  match pre with
  | [] => Some (n, v)
  | o :: pre' =>
      if PyFloat.exceeds (clk n) start timeout_sec then None
      else match o with
           | NotReady => still_reading (S n) pre' v
           | Line l =>
               match on_line MAX_OUTPUT_CHARS MAX_OUTPUT_LINES
                       cwd_marker done_marker v l with
               | Continue v' => still_reading (S n) pre' v'
               | _ => None
               end
           | Undecodable | Unfinished => None
           end
  end.

(** The loop invariant: [seen] are the ordinary lines read so far. *)
Definition loop_inv (v : Vars) (seen : list string) : Prop :=
  (exists dropped,
      seen = lines v ++ dropped /\
      (truncated v = false -> dropped = []) /\
      (truncated v = true -> dropped <> []))
  /\ stored_chars v = Py.len (Py.join (lines v))
  /\ stored_lines v = Z.of_nat (length (lines v))
  /\ Py.len (Py.join (lines v)) <= MAX_OUTPUT_CHARS
  /\ Z.of_nat (length (lines v)) <= MAX_OUTPUT_LINES.

(** The result is one of the three dictionaries, built from [v]. *)
Definition result_of (r : gmap string value) (v : Vars) : Prop :=
  r = timeout_result timeout_sec v \/ r = closed_result v \/ r = done_result v.

End Reading.

(** ** Notions for the further properties *)

(** The string holds no colon. *)
Fixpoint no_colon (s : string) : bool :=
  match s with
  | EmptyString => true
  | String c r => negb (Ascii.eqb c ":"%char) && no_colon r
  end.

(** No character of the string is white space. *)
Fixpoint no_space (s : string) : bool :=
  match s with
  | EmptyString => true
  | String c r => negb (Py.isspace c) && no_space r
  end.

(** An observation that is no marker line and not the end of file. *)
Definition ordinary_obs (cwd_marker done_marker : string) (o : Obs) : Prop :=
  match o with
  | NotReady => True
  | Line l => is_ordinary cwd_marker done_marker l = true
  | Undecodable | Unfinished => False
  end.

(** The two lines the trailer of the payload makes the shell print. *)
Definition cwd_report (uid dir : string) : string :=
  cwd_marker_of uid +:+ ":" +:+ dir +:+ Py.nl.

Definition done_report (uid : string) (status : Z) : string :=
  done_marker_of uid +:+ ":" +:+ PyFloat.Zdigits status +:+ Py.nl.

(** The local variables after the lines [out] were stored one by one. *)
Definition store_all (out : list string) (v : Vars) : Vars :=
  fold_left (fun v l => store_line l v) out v.

(** What writing to a process, reading from it, polling it and creating
    processes leave alone: the environment's answers, and for every process
    the signals sent to it, when it ends by itself and its ways of
    failing. *)
Definition io_frame (st st' : State) : Prop :=
  popen st' = popen st /\ clock st' = clock st /\ uuids st' = uuids st /\
  forall q,
    signals (procs st' q) = signals (procs st q) /\
    exits (procs st' q) = exits (procs st q) /\
    write_raises (procs st' q) = write_raises (procs st q) /\
    terminate_raises (procs st' q) = terminate_raises (procs st q) /\
    wait_raises (procs st' q) = wait_raises (procs st q) /\
    kill_raises (procs st' q) = kill_raises (procs st q).

(** A stored session has both pipes and names a process that was created. *)
Definition session_ok (st : State) : Prop :=
  forall s, _session st = Some s ->
    stdin (proc s) = true /\ stdout (proc s) = true /\
    (pid (proc s) < spawned st)%nat.

(** The exceptions of a failed start of the shell. *)
Definition spawn_error (e : exn) : Prop :=
  e = OSError \/ e = RuntimeError "Failed to start shell with pipes" \/
  e = BrokenPipeError.

(** The exceptions that leave [_execute] when the stored session is sound:
    those of a failed start or a failed write, the [IndexError] of a cwd
    marker line without colon and the [UnicodeDecodeError] of [readline]. *)
Definition execute_error (e : exn) : Prop :=
  spawn_error e \/ e = IndexError \/ e = UnicodeDecodeError.

(** The exceptions that leave [execute_command] when the stored session is
    sound: those of [_execute], and those of [int] on a duration that is
    not a finite number. *)
Definition execute_command_error (e : exn) : Prop :=
  execute_error e \/ e = ValueError \/ e = OverflowError.

(** * The pointer tools of [p4_ui_mcp_server.py]

    The coordinate map is the value [json.load] gives, a dictionary being a
    list of its items in their order; [pyautogui] is the environment: a log
    of what was done to the pointer and the keyboard, and which of its
    calls raise. [str] of an exception is the interpreter's and is taken as
    given. *)

Module P4.

#[local] Unset Elimination Schemes.
Inductive json :=
| JNull
| JBool (b : bool)
| JInt (z : Z)
| JFloat (x : float)
| JStr (s : string)
| JList (l : list json)
| JDict (items : list (string * json)).
#[local] Set Elimination Schemes.

(** The exceptions, with the argument they are raised with. [InvalidLiteral]
    is the [ValueError] of [int] on a string it does not take for a
    number. *)
Inductive exn :=
| FileNotFoundError (msg : string)
| ValueError (msg : string)
| InvalidLiteral (s : string)
| KeyError (msg : string)
| TypeError
| OverflowError (msg : string)
| LibraryError (msg : string).

Inductive result (A : Type) :=
| Ok (a : A)
| Err (e : exn).
Arguments Ok {A} a.
Arguments Err {A} e.

(** [d.get(k)] on the items of a dictionary; [None] when [k not in d]. *)
Fixpoint lookup (d : list (string * json)) (k : string) : option json :=
  match d with
  | [] => None
  | (k', v) :: rest => if String.eqb k' k then Some v else lookup rest k
  end.

(** [isinstance(j, (int, float))]: a [bool] is an [int]. *)
Definition is_number (j : json) : bool :=
  match j with
  | JBool _ | JInt _ | JFloat _ => true
  | _ => false
  end.

(** [j[k]] for a string [k] *)
Definition item (j : json) (k : string) : result json :=
  match j with
  | JDict m =>
      match lookup m k with
      | Some v => Ok v
      | None => Err (KeyError k)
      end
  | _ => Err TypeError
  end.

(** [int(j)] *)
Definition int (j : json) : result Z :=
  match j with
  | JBool b => Ok (if b then 1 else 0)
  | JInt z => Ok z
  | JFloat x =>
      match PyFloat.to_int x with
      | Some z => Ok z
      | None =>
          if PrimFloat.is_nan x
          then Err (ValueError "cannot convert float NaN to integer")
          else Err (OverflowError "cannot convert float infinity to integer")
      end
  | JStr s =>
      match Py.int_of_str s with
      | Some z => Ok z
      | None => Err (InvalidLiteral s)
      end
  | _ => Err TypeError
  end.

(** What opening and parsing the file gives: no such file, an exception of
    [open] or [json.load], or the parsed value. *)
Inductive file :=
| Missing
| Broken (e : exn)
| Parsed (data : json).

(** The [for name, xy in data.items()] of [_load_coords]. *)
Fixpoint check_entries (items : list (string * json)) : result unit :=
  match items with
  | [] => Ok tt
  | (name, xy) :: rest =>
      let shape :=
        Err (ValueError ("Invalid mapping for '" +:+ name
                         +:+ "'. Expected {'x': number, 'y': number}.")) in
      match xy with
      | JDict m =>
          match lookup m "x", lookup m "y" with
          | Some x, Some y =>
              if is_number x && is_number y then check_entries rest
              else Err (ValueError ("Invalid x/y types for '" +:+ name
                                    +:+ "'. x and y must be numbers."))
          | _, _ => shape
          end
      | _ => shape
      end
  end.

Definition _load_coords (f : file) (path : string)
    : result (list (string * json)) :=
  match f with
  | Missing =>
      Err (FileNotFoundError
             ("Coordinate map not found: " +:+ path
              +:+ ". Create coordinate_map.json in the same folder."))
  | Broken e => Err e
  | Parsed (JDict items) =>
      match check_entries items with
      | Ok _ => Ok items
      | Err e => Err e
      end
  | Parsed _ =>
      Err (ValueError
             "coordinate_map.json must be a JSON object {name: {x:..., y:...}}")
  end.

(** What [pyautogui] was asked to do. *)
Inductive action :=
| MoveTo (x y : Z)
| Click
| Write (text : string).

(** The desktop: the actions done so far, where the pointer is, how many
    [pyautogui] calls were made and which of them raise (the fail-safe, for
    one) and with what message. *)
Record Gui := {
  done : list action;
  pointer : Z * Z;
  calls : nat;
  fails : nat -> option string
}.

Definition G (A : Type) : Type := Gui -> result A * Gui.

Definition after_call (g : Gui) : Gui :=
  {| done := done g; pointer := pointer g; calls := S (calls g);
     fails := fails g |}.

Definition perform (a : action) (g : Gui) : Gui :=
  {| done := done g ++ [a];
     pointer := match a with MoveTo x y => (x, y) | _ => pointer g end;
     calls := S (calls g); fails := fails g |}.

(** [pyautogui.moveTo], [click] and [write] *)
Definition act (a : action) : G unit :=
  fun g =>
    match fails g (calls g) with
    | Some msg => (Err (LibraryError msg), after_call g)
    | None => (Ok tt, perform a g)
    end.

(** [pyautogui.position()] *)
Definition position : G (Z * Z) :=
  fun g =>
    match fails g (calls g) with
    | Some msg => (Err (LibraryError msg), after_call g)
    | None => (Ok (pointer g), after_call g)
    end.

Section Tools.

(** The file name of the environment ([coordinate_map.json] when unset),
    and [str] on exceptions. *)
Variable DEFAULT_COORDS_FILE : string.
Variable str : exn -> string.

Definition _get_xy (coords : list (string * json)) (element_name : string)
    : result (Z * Z) :=
  match lookup coords element_name with
  | None =>
      Err (KeyError ("Unknown element '" +:+ element_name +:+ "'. Add it to "
                     +:+ DEFAULT_COORDS_FILE +:+ "."))
  | Some entry =>
      match item entry "x" with
      | Err e => Err e
      | Ok jx =>
          match int jx with
          | Err e => Err e
          | Ok x =>
              match item entry "y" with
              | Err e => Err e
              | Ok jy =>
                  match int jy with
                  | Err e => Err e
                  | Ok y => Ok (x, y)
                  end
              end
          end
      end
  end.

Definition failure (element_name : string) (e : exn) : gmap string value :=
  list_to_map
    [("ok", VBool false); ("success", VBool false);
     ("element", VStr element_name); ("error", VStr (str e))].

Definition ui_get_mouse_position : G (gmap string value) :=
  fun g =>
    match position g with
    | (Ok (x, y), g') =>
        (Ok (list_to_map [("ok", VBool true); ("x", VInt x); ("y", VInt y)]), g')
    | (Err e, g') => (Err e, g')
    end.

Definition ui_click (coords : list (string * json)) (element_name : string)
    : Gui -> gmap string value * Gui :=
  fun g =>
    match _get_xy coords element_name with
    | Err e => (failure element_name e, g)
    | Ok (x, y) =>
        match act (MoveTo x y) g with
        | (Err e, g1) => (failure element_name e, g1)
        | (Ok _, g1) =>
            match act Click g1 with
            | (Err e, g2) => (failure element_name e, g2)
            | (Ok _, g2) =>
                (list_to_map
                   [("ok", VBool true); ("success", VBool true);
                    ("element", VStr element_name);
                    ("x", VInt x); ("y", VInt y)], g2)
            end
        end
    end.

Definition ui_type (coords : list (string * json)) (element_name text : string)
    : Gui -> gmap string value * Gui :=
  fun g =>
    match _get_xy coords element_name with
    | Err e => (failure element_name e, g)
    | Ok (x, y) =>
        match act (MoveTo x y) g with
        | (Err e, g1) => (failure element_name e, g1)
        | (Ok _, g1) =>
            match act Click g1 with
            | (Err e, g2) => (failure element_name e, g2)
            | (Ok _, g2) =>
                match act (Write text) g2 with
                | (Err e, g3) => (failure element_name e, g3)
                | (Ok _, g3) =>
                    (list_to_map
                       [("ok", VBool true); ("success", VBool true);
                        ("element", VStr element_name);
                        ("x", VInt x); ("y", VInt y);
                        ("typed_chars", VInt (Py.len text))], g3)
                end
            end
        end
    end.

End Tools.

(** A number that [int] can convert: not a NaN, not an infinity. *)
Definition finite (j : json) : bool :=
  match j with
  | JBool _ | JInt _ => true
  | JFloat x => match PyFloat.to_int x with Some _ => true | None => false end
  | _ => false
  end.

(** The integer [int] gives for a number. *)
Definition trunc (j : json) : Z :=
  match j with
  | JBool b => if b then 1 else 0
  | JInt z => z
  | JFloat x => default 0 (PyFloat.to_int x)
  | _ => 0
  end.

(** An entry [_load_coords] lets through: a dictionary whose [x] and [y]
    are numbers. *)
Definition entry_ok (xy : json) : bool :=
  match xy with
  | JDict m =>
      match lookup m "x", lookup m "y" with
      | Some x, Some y => is_number x && is_number y
      | _, _ => false
      end
  | _ => false
  end.

End P4.

(** ** Concrete inputs for the further properties *)

Definition uid1 : string := "fedcba9876543210fedcba9876543210".

(** A shell that prints two lines, then the two reports of an execution
    that left with status 127 in [/tmp], then something more. *)
Definition full_answer : list Obs :=
  [Line ("a" +:+ Py.nl); NotReady; Line ("b" +:+ Py.nl);
   Line (cwd_report uid0 "/tmp"); Line (done_report uid0 127);
   Line ("later" +:+ Py.nl)].

(** A shell that prints a long line and leaves with status 0. *)
Definition quiet_success : list Obs :=
  [Line ("abcdef" +:+ Py.nl); Line cwd_line; Line done_line].

(** A session whose process does not exit within the wait. *)
Definition slow_child : Process :=
  {| reaped := None; exits := fun _ => None; received := [];
     feed := []; signals := [];
     write_raises := false; terminate_raises := false;
     wait_raises := true; kill_raises := false |}.

Definition slow_world : State :=
  {| _session := Some {| proc := handle0 |};
     procs := fun _ => slow_child; spawned := 1;
     popen := fun _ => PopenGives true true; clock := still_clock;
     clock_reads := 0; uuids := fun _ => uid0; uuid_reads := 0 |}.

(** A shell that was told to exit: its output ends, and once the end has
    been read the child is found ended with status 3. *)
Definition leaving_child : Process :=
  {| reaped := None;
     exits := fun left => match left with [] => Some 3 | _ => None end;
     received := []; feed := [Line ""]; signals := [];
     write_raises := false; terminate_raises := false;
     wait_raises := false; kill_raises := false |}.

(** A session on such a shell; the shells started later answer [pwd]. *)
Definition leaving_world : State :=
  {| _session := Some {| proc := handle0 |};
     procs := fun q =>
       match q with
       | O => leaving_child
       | _ => child [Line ("/root" +:+ Py.nl); Line cwd_line; Line done_line]
       end;
     spawned := 1;
     popen := fun _ => PopenGives true true; clock := still_clock;
     clock_reads := 0; uuids := fun _ => uid0; uuid_reads := 0 |}.

(** A coordinate map with one element. *)
Definition one_element : list (string * P4.json) :=
  [("search_box"%string,
    P4.JDict [("x"%string, P4.JFloat 10.5%float); ("y"%string, P4.JInt 20)])].

(** * Properties *)

(** ** Python strings and floats on examples *)

Example format_1f_8 : PyFloat.format_1f 8%float = "8.0"%string.
Proof. vm_compute. reflexivity. Qed.

Example format_1f_quarter : PyFloat.format_1f 0.25%float = "0.2"%string.
Proof. vm_compute. reflexivity. Qed.

Example format_1f_neg : PyFloat.format_1f (-12.375)%float = "-12.4"%string.
Proof. vm_compute. reflexivity. Qed.

Example to_int_trunc : PyFloat.to_int (-1234.5)%float = Some (-1234).
Proof. vm_compute. reflexivity. Qed.

Example int_of_str_ok : Py.int_of_str " -1_27 " = Some (-127).
Proof. vm_compute. reflexivity. Qed.

Example int_of_str_bad : Py.int_of_str "12a" = None.
Proof. vm_compute. reflexivity. Qed.

Example split_colon_two : Py.split_colon "a:b:c" = ["a"; "b:c"]%string.
Proof. reflexivity. Qed.

Example split_colon_one : Py.split_colon "abc" = ["abc"]%string.
Proof. reflexivity. Qed.

Example strip_both : Py.strip (" a b " +:+ Py.nl) = "a b"%string.
Proof. reflexivity. Qed.

(** ** Strings *)

Lemma append_cons (c : ascii) (s t : string) :
  String c s +:+ t = String c (s +:+ t).
Proof. reflexivity. Qed.

Lemma append_empty_l (s : string) : "" +:+ s = s.
Proof. reflexivity. Qed.

Lemma append_empty_r (s : string) : s +:+ "" = s.
Proof.
  induction s as [|c s IH]; [reflexivity|]. now rewrite append_cons, IH.
Qed.

Lemma append_assoc (a b c : string) : (a +:+ b) +:+ c = a +:+ (b +:+ c).
Proof.
  induction a as [|x a IH]; [reflexivity|]. now rewrite !append_cons, IH.
Qed.

Lemma length_append (a b : string) :
  String.length (a +:+ b) = (String.length a + String.length b)%nat.
Proof.
  induction a as [|x a IH]; [reflexivity|]. rewrite append_cons. simpl.
  now rewrite IH.
Qed.

Lemma join_cons (l : string) (ls : list string) :
  Py.join (l :: ls) = l +:+ Py.join ls.
Proof.
  unfold Py.join. destruct ls as [|l' ls]; simpl.
  - symmetry. apply append_empty_r.
  - reflexivity.
Qed.

Lemma join_app (xs ys : list string) :
  Py.join (xs ++ ys) = Py.join xs +:+ Py.join ys.
Proof.
  induction xs as [|x xs IH].
  - reflexivity.
  - rewrite <- app_comm_cons, !join_cons, IH, append_assoc. reflexivity.
Qed.

Lemma join_snoc (xs : list string) (l : string) :
  Py.join (xs ++ [l]) = Py.join xs +:+ l.
Proof. rewrite join_app, join_cons. now rewrite append_empty_r. Qed.

Lemma len_append (a b : string) : Py.len (a +:+ b) = Py.len a + Py.len b.
Proof. unfold Py.len. rewrite length_append. lia. Qed.

Lemma len_nonneg (s : string) : 0 <= Py.len s.
Proof. unfold Py.len. lia. Qed.

Lemma line_count_append (l s : string) :
  readline_shape l = true -> (line_count (l +:+ s) <= S (line_count s))%nat.
Proof.
  induction l as [|c l IH]; intros H.
  - rewrite append_empty_l. lia.
  - rewrite append_cons. simpl in *. destruct (Py.is_newline c).
    + apply String.eqb_eq in H. subst l. rewrite append_empty_l. lia.
    + specialize (IH H). destruct (l +:+ s); lia.
Qed.

Lemma line_count_join (ls : list string) :
  Forall (fun l => readline_shape l = true) ls ->
  (line_count (Py.join ls) <= length ls)%nat.
Proof.
  induction 1 as [|l ls Hl _ IH].
  - simpl. lia.
  - rewrite join_cons. pose proof (line_count_append l (Py.join ls) Hl).
    simpl. lia.
Qed.

Lemma lstrip_empty (s : string) : Py.lstrip s = ""%string <-> all_space s = true.
Proof.
  induction s as [|c s IH]; simpl; [tauto|].
  destruct (Py.isspace c); simpl; [exact IH|]. split; discriminate.
Qed.

Lemma rstrip_with_empty (s : string) :
  Py.rstrip_with Py.isspace s = ""%string <-> all_space s = true.
Proof.
  induction s as [|c s IH]; simpl; [tauto|].
  destruct (Py.rstrip_with Py.isspace s) eqn:E.
  - destruct (Py.isspace c); simpl; [tauto|]. split; discriminate.
  - split; [discriminate|]. intros H. apply andb_prop in H as [_ H].
    apply IH in H. discriminate.
Qed.

Lemma lstrip_head (s : string) :
  Py.lstrip s = ""%string \/ all_space (Py.lstrip s) = false.
Proof.
  induction s as [|c s IH]; simpl; [now left|].
  destruct (Py.isspace c) eqn:E; [exact IH|]. right. simpl. now rewrite E.
Qed.

(** [s.strip()] is empty exactly when [s] holds white space only. *)
Lemma strip_empty (s : string) : Py.strip s = ""%string <-> all_space s = true.
Proof.
  unfold Py.strip, Py.rstrip. rewrite rstrip_with_empty. split.
  - intros H. destruct (lstrip_head s) as [E|E]; [|congruence].
    now apply lstrip_empty.
  - intros H. apply lstrip_empty in H. now rewrite H.
Qed.

(** ** The read loop *)

Section ReadLoop.

Variables MAX_OUTPUT_CHARS MAX_OUTPUT_LINES : Z.
Variables cwd_marker done_marker : string.
Variables timeout_sec start : float.
Variable clk : nat -> float.

Local Abbreviation on_line' := (on_line MAX_OUTPUT_CHARS MAX_OUTPUT_LINES cwd_marker done_marker).
Local Abbreviation loop := (read_loop MAX_OUTPUT_CHARS MAX_OUTPUT_LINES
                    cwd_marker done_marker timeout_sec start clk).
Local Abbreviation reading := (still_reading MAX_OUTPUT_CHARS MAX_OUTPUT_LINES
                       cwd_marker done_marker timeout_sec start clk).
Local Abbreviation inv := (loop_inv MAX_OUTPUT_CHARS MAX_OUTPUT_LINES).
Local Abbreviation ord := (ordinary cwd_marker done_marker).
Local Abbreviation fits' := (fits MAX_OUTPUT_CHARS MAX_OUTPUT_LINES).

Lemma on_line_Return v line r :
  on_line' v line = Return r -> line = ""%string /\ r = closed_result v.
Proof.
  unfold on_line. destruct (String.eqb_spec line "") as [->|_].
  - intros [= <-]. split; reflexivity.
  - destruct (Py.startswith line cwd_marker).
    + destruct (Py.split_colon line !! 1%nat); discriminate.
    + destruct (Py.startswith line done_marker); [discriminate|].
      match goal with |- context [if ?b then _ else _] => destruct b end;
        discriminate.
Qed.

Lemma on_line_Raise v line e :
  on_line' v line = Raise e ->
  line <> ""%string /\ Py.startswith line cwd_marker = true /\
  Py.split_colon line !! 1%nat = None /\ e = IndexError.
Proof.
  unfold on_line. destruct (String.eqb_spec line "") as [->|Hne]; [discriminate|].
  destruct (Py.startswith line cwd_marker).
  - destruct (Py.split_colon line !! 1%nat); [discriminate|].
    intros [= <-]. repeat split; assumption.
  - destruct (Py.startswith line done_marker); [discriminate|].
    match goal with |- context [if ?b then _ else _] => destruct b end;
      discriminate.
Qed.

Lemma on_line_Break v line v' :
  on_line' v line = Break v' ->
  line <> ""%string /\ Py.startswith line cwd_marker = false /\
  Py.startswith line done_marker = true /\
  v' = with_exit_code
         (match Py.split_colon line !! 1%nat with
          | Some t => Py.int_of_str (Py.strip t)
          | None => None
          end) v.
Proof.
  unfold on_line. destruct (String.eqb_spec line "") as [->|Hne]; [discriminate|].
  destruct (Py.startswith line cwd_marker).
  - destruct (Py.split_colon line !! 1%nat); discriminate.
  - destruct (Py.startswith line done_marker).
    + intros [= <-]. repeat split; assumption.
    + match goal with |- context [if ?b then _ else _] => destruct b end;
        discriminate.
Qed.

Lemma on_line_Continue v line v' :
  on_line' v line = Continue v' ->
  (line <> ""%string /\ Py.startswith line cwd_marker = true /\
   exists t, Py.split_colon line !! 1%nat = Some t /\
             v' = with_cwd_after (Some (Py.strip t)) v)
  \/ (is_ordinary cwd_marker done_marker line = true /\
      v' = if fits' v line then store_line line v else set_truncated v).
Proof.
  unfold on_line, is_ordinary, fits.
  destruct (String.eqb_spec line "") as [->|Hne]; [discriminate|].
  destruct (Py.startswith line cwd_marker).
  - destruct (Py.split_colon line !! 1%nat) as [t|]; [|discriminate].
    intros [= <-]. left. eauto.
  - destruct (Py.startswith line done_marker); [discriminate|].
    right. split; [reflexivity|].
    match goal with |- context [if ?b then _ else _] => destruct b end;
      congruence.
Qed.

Lemma ordinary_app (a b : list Obs) : ord (a ++ b) = ord a ++ ord b.
Proof.
  induction a as [|[|l| |] a IH]; simpl; try reflexivity; try exact IH.
  destruct (is_ordinary cwd_marker done_marker l); simpl; now rewrite IH.
Qed.

Lemma loop_inv_start :
  0 <= MAX_OUTPUT_CHARS -> 0 <= MAX_OUTPUT_LINES -> inv vars0 [].
Proof.
  intros Hc Hl. unfold loop_inv. simpl. split.
  - exists []. split; [reflexivity|]. split; [reflexivity | discriminate].
  - repeat split; try reflexivity; assumption.
Qed.

Lemma loop_inv_store v seen line :
  inv v seen -> fits' v line = true -> inv (store_line line v) (seen ++ [line]).
Proof.
  intros ([dropped (Hseen & Hkeep & _)] & Hch & Hln & Hc & Hl) Hfit.
  unfold fits in Hfit.
  apply andb_prop in Hfit as [Hfit Hchars]. apply andb_prop in Hfit as [Ht Hlines].
  apply negb_true_iff in Ht. apply Z.ltb_lt in Hlines. apply Z.leb_le in Hchars.
  specialize (Hkeep Ht). subst dropped. rewrite app_nil_r in Hseen. subst seen.
  split; [|repeat split]; simpl.
  - exists []. rewrite app_nil_r. split; [reflexivity|].
    split; [reflexivity | congruence].
  - rewrite join_snoc, len_append. lia.
  - rewrite length_app. simpl. lia.
  - rewrite join_snoc, len_append. lia.
  - rewrite length_app. simpl. lia.
Qed.

Lemma loop_inv_drop v seen line :
  inv v seen -> inv (set_truncated v) (seen ++ [line]).
Proof.
  intros ([dropped (Hseen & _ & _)] & Hrest).
  split; [|exact Hrest]. simpl.
  exists (dropped ++ [line]). rewrite Hseen, app_assoc.
  split; [reflexivity|]. split; [discriminate|].
  intros _. destruct dropped; discriminate.
Qed.

Lemma on_line_Continue_inv v seen line v' :
  inv v seen -> on_line' v line = Continue v' ->
  inv v' (seen ++ ord [Line line]) /\ exit_code v' = exit_code v.
Proof.
  intros Hinv H. apply on_line_Continue in H as [(Hne & Hcwd & t & _ & ->)|[Hord ->]].
  - simpl. unfold is_ordinary. rewrite Hcwd.
    rewrite andb_false_r. simpl. rewrite app_nil_r. split; [exact Hinv|reflexivity].
  - simpl. rewrite Hord. destruct (fits' v line) eqn:Hfit.
    + split; [now apply loop_inv_store | reflexivity].
    + split; [now apply loop_inv_drop | reflexivity].
Qed.

(** Whatever the loop gives back, it read a prefix of the output and left
    the rest; a returned dictionary is built from local variables that
    satisfy the invariant for the ordinary lines of that prefix. *)
Lemma read_loop_sound obs : forall n v seen o n' rest,
  inv v seen -> loop n obs v = (o, n', rest) ->
  exists consumed,
    obs = consumed ++ rest /\
    forall r, o = Returned r ->
      exists v', result_of timeout_sec r v' /\ inv v' (seen ++ ord consumed).
Proof.
  induction obs as [|ob obs IH]; intros n v seen o n' rest Hinv; simpl.
  - destruct (PyFloat.exceeds (clk n) start timeout_sec); intros [= <- <- <-];
      exists []; split; try reflexivity; intros r [= <-].
    exists v. rewrite app_nil_r. split; [now left | exact Hinv].
  - destruct (PyFloat.exceeds (clk n) start timeout_sec).
    { intros [= <- <- <-]. exists []. split; [reflexivity|]. intros r [= <-].
      exists v. rewrite app_nil_r. split; [now left | exact Hinv]. }
    destruct ob as [|line| |].
    { intros H. destruct (IH _ _ _ _ _ _ Hinv H) as (c & -> & Hc).
      exists (NotReady :: c). split; [reflexivity|]. exact Hc. }
    2:{ intros [= <- <- <-]. exists [Undecodable]. split; [reflexivity|].
        intros r [=]. }
    2:{ intros [= <- <- <-]. exists [Unfinished]. split; [reflexivity|].
        intros r [=]. }
    destruct (on_line' v line) as [v'|v'|r0|e] eqn:Hstep.
    + intros H. destruct (on_line_Continue_inv _ _ _ _ Hinv Hstep) as [Hinv' _].
      destruct (IH _ _ _ _ _ _ Hinv' H) as (c & -> & Hc).
      exists (Line line :: c). split; [reflexivity|]. intros r Hr.
      destruct (Hc r Hr) as (v2 & Hres & Hinv2). exists v2. split; [exact Hres|].
      change (Line line :: c) with ([Line line] ++ c).
      rewrite ordinary_app, app_assoc. exact Hinv2.
    + intros [= <- <- <-]. exists [Line line]. split; [reflexivity|].
      intros r [= <-]. exists v'. split; [right; now right|].
      apply on_line_Break in Hstep as (Hne & Hcwd & Hdone & ->).
      simpl. unfold is_ordinary. rewrite Hdone, andb_false_r. simpl.
      rewrite app_nil_r. exact Hinv.
    + intros [= <- <- <-]. exists [Line line]. split; [reflexivity|].
      intros r [= <-]. apply on_line_Return in Hstep as [-> ->].
      exists v. split; [right; now left|]. simpl. rewrite app_nil_r. exact Hinv.
    + intros [= <- <- <-]. exists [Line line]. split; [reflexivity|].
      intros r [=].
Qed.

(** Reading on after a prefix that kept the loop going. *)
Lemma read_loop_app pre : forall n v n' v' rest,
  reading n pre v = Some (n', v') ->
  loop n (pre ++ rest) v = loop n' rest v'.
Proof.
  induction pre as [|ob pre IH]; intros n v n' v' rest; simpl.
  - intros [= <- <-]. reflexivity.
  - destruct (PyFloat.exceeds (clk n) start timeout_sec); [discriminate|].
    destruct ob as [|line| |]; [apply IH| |discriminate..].
    destruct (on_line' v line); try discriminate. apply IH.
Qed.

(** While the loop keeps going no exit code is set. *)
Lemma still_reading_exit_code pre : forall n v n' v',
  reading n pre v = Some (n', v') -> exit_code v' = exit_code v.
Proof.
  induction pre as [|ob pre IH]; intros n v n' v'; simpl.
  - intros [= <- <-]. reflexivity.
  - destruct (PyFloat.exceeds (clk n) start timeout_sec); [discriminate|].
    destruct ob as [|line| |]; [apply IH| |discriminate..].
    destruct (on_line' v line) as [v1| | |] eqn:Hstep; try discriminate.
    intros H. rewrite (IH _ _ _ _ H).
    apply on_line_Continue in Hstep as [(_ & _ & t & _ & ->)|[_ ->]];
      [reflexivity|]. now destruct (fits' v line).
Qed.

End ReadLoop.

(** ** Fields of the three dictionaries *)

Lemma result_of_stdout t r v :
  result_of t r v -> r !! "stdout" = Some (VStr (Py.join (lines v))).
Proof. intros [->|[->| ->]]; reflexivity. Qed.

Lemma result_of_truncated t r v :
  result_of t r v -> r !! "truncated" = Some (VBool (truncated v)).
Proof. intros [->|[->| ->]]; reflexivity. Qed.

Lemma result_of_exit_code t r v :
  result_of t r v -> r !! "exit_code" = Some (of_opt_int (exit_code v)).
Proof. intros [->|[->| ->]]; reflexivity. Qed.

Lemma result_of_cwd_after t r v :
  result_of t r v -> r !! "cwd_after" = Some (of_opt_str (cwd_after v)).
Proof. intros [->|[->| ->]]; reflexivity. Qed.

Lemma result_of_ok t r v :
  result_of t r v ->
  exists b, r !! "ok" = Some (VBool b) /\
            (b = false <-> is_Some (r !! "error")).
Proof.
  intros [->|[->| ->]].
  - exists false. split; [reflexivity|]. split; [eexists; reflexivity | reflexivity].
  - exists false. split; [reflexivity|]. split; [eexists; reflexivity | reflexivity].
  - exists true. split; [reflexivity|]. split; [discriminate|].
    intros [x Hx]. discriminate Hx.
Qed.

(** ** [_read_until_done] as the loop over the child's output *)

Lemma read_until_done_unfold mc ml p cm dm t st :
  stdout p = true ->
  _read_until_done mc ml p cm dm t st =
    let x := procs st (pid p) in
    match read_loop mc ml cm dm t (clock st (clock_reads st))
            (clock st) (S (clock_reads st)) (feed x) vars0 with
    | (o, n, rest) =>
        (o, set_clock_reads n
              (set_proc (pid p) (with_feed rest x)
                 (set_clock_reads (S (clock_reads st)) st)))
    end.
Proof.
  intros H. unfold _read_until_done, bind, assert. rewrite H. reflexivity.
Qed.

Lemma read_until_done_stdout mc ml p cm dm t st r st' :
  _read_until_done mc ml p cm dm t st = (Returned r, st') -> stdout p = true.
Proof.
  destruct (stdout p) eqn:E; [reflexivity|].
  unfold _read_until_done, bind, assert. rewrite E. discriminate.
Qed.

Lemma feed_after_read n p rest x st :
  feed (procs (set_clock_reads n (set_proc (pid p) (with_feed rest x) st)) (pid p))
  = rest.
Proof. simpl. rewrite fn_lookup_insert. reflexivity. Qed.

Lemma read_until_done_split mc ml p cm dm t st pre rest n v :
  stdout p = true ->
  feed (procs st (pid p)) = pre ++ rest ->
  still_reading mc ml cm dm t (clock st (clock_reads st)) (clock st)
    (S (clock_reads st)) pre vars0 = Some (n, v) ->
  _read_until_done mc ml p cm dm t st =
    match read_loop mc ml cm dm t (clock st (clock_reads st))
            (clock st) n rest v with
    | (o, n', rest') =>
        (o, set_clock_reads n'
              (set_proc (pid p) (with_feed rest' (procs st (pid p)))
                 (set_clock_reads (S (clock_reads st)) st)))
    end.
Proof.
  intros Hout Hfeed Hread. rewrite read_until_done_unfold by exact Hout.
  cbv zeta. rewrite Hfeed.
  rewrite (read_loop_app _ _ _ _ _ _ _ _ _ _ _ _ rest Hread). reflexivity.
Qed.

(** One iteration, by what it reads. *)
Lemma read_loop_late mc ml cm dm t start clk n obs v :
  PyFloat.exceeds (clk n) start t = true ->
  read_loop mc ml cm dm t start clk n obs v
  = (Returned (timeout_result t v), S n, obs).
Proof. intros H. destruct obs; simpl; rewrite H; reflexivity. Qed.

Lemma read_loop_line mc ml cm dm t start clk n line rest v :
  PyFloat.exceeds (clk n) start t = false ->
  read_loop mc ml cm dm t start clk n (Line line :: rest) v
  = match on_line mc ml cm dm v line with
    | Continue v' => read_loop mc ml cm dm t start clk (S n) rest v'
    | Break v' => (Returned (done_result v'), S n, rest)
    | Return r => (Returned r, S n, rest)
    | Raise e => (Raised e, S n, rest)
    end.
Proof. intros H. simpl. rewrite H. reflexivity. Qed.

(** A line that starts with the cwd marker and has a colon sets
    [cwd_after] and is not stored. *)
Lemma cwd_line_with_colon mc ml cm dm v line t :
  line <> ""%string -> Py.startswith line cm = true ->
  Py.split_colon line !! 1%nat = Some t ->
  on_line mc ml cm dm v line = Continue (with_cwd_after (Some (Py.strip t)) v).
Proof.
  intros Hne Hcwd Hsplit. unfold on_line.
  destruct (String.eqb_spec line "") as [->|_]; [congruence|].
  rewrite Hcwd, Hsplit. reflexivity.
Qed.

(** A line that starts with the cwd marker and has no colon raises. *)
Lemma cwd_line_without_colon mc ml cm dm v line :
  line <> ""%string -> Py.startswith line cm = true ->
  Py.split_colon line !! 1%nat = None ->
  on_line mc ml cm dm v line = Raise IndexError.
Proof.
  intros Hne Hcwd Hsplit. unfold on_line.
  destruct (String.eqb_spec line "") as [->|_]; [congruence|].
  rewrite Hcwd, Hsplit. reflexivity.
Qed.

(** A line that starts with the done marker (and not with the cwd marker)
    leaves the loop with the exit code parsed, or none when there is no
    colon or no integer after it. *)
Lemma done_line_breaks mc ml cm dm v line :
  line <> ""%string -> Py.startswith line cm = false ->
  Py.startswith line dm = true ->
  on_line mc ml cm dm v line
  = Break (with_exit_code
             (match Py.split_colon line !! 1%nat with
              | Some t => Py.int_of_str (Py.strip t)
              | None => None
              end) v).
Proof.
  intros Hne Hcwd Hdone. unfold on_line.
  destruct (String.eqb_spec line "") as [->|_]; [congruence|].
  rewrite Hcwd, Hdone. reflexivity.
Qed.

(** * The claims *)

(** C1. Whatever [_read_until_done] returns, the captured text is the
    concatenation of a prefix of the ordinary lines read: the lines after
    the first dropped one are all dropped. The text is at most
    [MAX_OUTPUT_CHARS] characters long and made of at most
    [MAX_OUTPUT_LINES] lines read (so of at most that many lines when each
    line read ends at its newline); [truncated] tells whether a line was
    dropped, and it is true whenever the ordinary lines together exceed the
    character cap or outnumber the line cap. The caps are taken not to be
    negative. *)
Theorem C1_output_within_caps
    (MAX_OUTPUT_CHARS MAX_OUTPUT_LINES : Z) (p : Popen)
    (cwd_marker done_marker : string) (timeout_sec : float)
    (st st' : State) (r : gmap string value) :
  0 <= MAX_OUTPUT_CHARS -> 0 <= MAX_OUTPUT_LINES ->
  _read_until_done MAX_OUTPUT_CHARS MAX_OUTPUT_LINES p cwd_marker done_marker
    timeout_sec st = (Returned r, st') ->
  exists consumed kept dropped,
    feed (procs st (pid p)) = consumed ++ feed (procs st' (pid p)) /\
    ordinary cwd_marker done_marker consumed = kept ++ dropped /\
    r !! "stdout" = Some (VStr (Py.join kept)) /\
    r !! "truncated" = Some (VBool (bool_decide (dropped <> []))) /\
    Py.len (Py.join kept) <= MAX_OUTPUT_CHARS /\
    Z.of_nat (length kept) <= MAX_OUTPUT_LINES /\
    (Forall obs_shape consumed ->
     Z.of_nat (line_count (Py.join kept)) <= MAX_OUTPUT_LINES) /\
    (MAX_OUTPUT_CHARS
       < Py.len (Py.join (ordinary cwd_marker done_marker consumed))
     \/ MAX_OUTPUT_LINES
          < Z.of_nat (length (ordinary cwd_marker done_marker consumed)) ->
     r !! "truncated" = Some (VBool true)).
Proof.
  intros Hc Hl H. pose proof (read_until_done_stdout _ _ _ _ _ _ _ _ _ H) as Hout.
  rewrite read_until_done_unfold in H by exact Hout. cbv zeta in H.
  destruct (read_loop _ _ _ _ _ _ _ _ _ _) as [[o n] rest] eqn:Hloop.
  injection H as -> <-.
  destruct (read_loop_sound _ _ _ _ _ _ _ _ _ _ [] _ _ _
              (loop_inv_start _ _ Hc Hl) Hloop) as (consumed & Hfeed & Hres).
  destruct (Hres r eq_refl)
    as (v & Hr & (dropped & Hseen & Hkeep & Hdrop) & _ & _ & Hchars & Hlines).
  simpl in Hseen.
  assert (Htr : r !! "truncated" = Some (VBool (bool_decide (dropped <> [])))).
  { rewrite (result_of_truncated _ _ _ Hr). do 2 f_equal.
    destruct (truncated v).
    - symmetry. apply bool_decide_eq_true. now apply Hdrop.
    - symmetry. apply bool_decide_eq_false. rewrite Hkeep by reflexivity. tauto. }
  exists consumed, (lines v), dropped. rewrite feed_after_read.
  split; [exact Hfeed|]. split; [exact Hseen|].
  split; [exact (result_of_stdout _ _ _ Hr)|]. split; [exact Htr|].
  split; [exact Hchars|]. split; [exact Hlines|]. split.
  - intros Hshape.
    assert (Hall : Forall (fun l => readline_shape l = true)
                     (ordinary cwd_marker done_marker consumed)).
    { clear -Hshape. induction Hshape as [|[|l| |] c Ho _ IH]; simpl; auto.
      destruct (is_ordinary cwd_marker done_marker l); auto. }
    rewrite Hseen in Hall. apply Forall_app in Hall as [Hall _].
    pose proof (line_count_join _ Hall). lia.
  - intros Hex. rewrite Htr. do 2 f_equal. apply bool_decide_eq_true.
    intros ->. rewrite app_nil_r in Hseen. rewrite Hseen in Hex. lia.
Qed.

(** ** [_execute] once the session is there *)

Lemma execute_after_ensure mc ml cmd t st st1 p :
  _ensure_shell st = (Returned p, st1) ->
  stdin p = true ->
  write_raises (procs st1 (pid p)) = false ->
  let uid := uuids st1 (uuid_reads st1) in
  let x := procs st1 (pid p) in
  _execute mc ml cmd t st =
    _read_until_done mc ml p (cwd_marker_of uid) (done_marker_of uid) t
      (set_proc (pid p)
         (with_received
            (received x
             ++ [payload_of cmd (cwd_marker_of uid) (done_marker_of uid)]) x)
         (set_uuid_reads (S (uuid_reads st1)) st1)).
Proof.
  intros Hens Hin Hwr uid x.
  unfold _execute, bind, assert, uuid4_hex, stdin_write_flush, ret.
  rewrite Hens, Hin. cbn [procs set_uuid_reads]. rewrite Hwr. reflexivity.
Qed.

(** [_execute] when a clock check of the loop finds the bound exceeded, the
    loop still reading after the observations [pre]. *)
Lemma execute_times_out mc ml cmd t st st1 p pre rest n v :
  let uid := uuids st1 (uuid_reads st1) in
  let start := clock st1 (clock_reads st1) in
  _ensure_shell st = (Returned p, st1) ->
  stdin p = true -> stdout p = true ->
  write_raises (procs st1 (pid p)) = false ->
  feed (procs st1 (pid p)) = pre ++ rest ->
  still_reading mc ml (cwd_marker_of uid) (done_marker_of uid) t start
    (clock st1) (S (clock_reads st1)) pre vars0 = Some (n, v) ->
  PyFloat.exceeds (clock st1 n) start t = true ->
  exists st',
    _execute mc ml cmd t st = (Returned (timeout_result t v), st') /\
    exit_code v = None /\
    _session st' = _session st1 /\ spawned st' = spawned st1 /\
    clock st' = clock st1 /\ clock_reads st' = S n /\
    forall q, signals (procs st' q) = signals (procs st1 q).
Proof.
  intros uid start Hens Hin Hout Hwr Hfeed Hread Hlate.
  pose proof (still_reading_exit_code _ _ _ _ _ _ _ _ _ _ _ _ Hread) as Hec.
  simpl in Hec.
  rewrite (execute_after_ensure _ _ _ _ _ _ _ Hens Hin Hwr).
  erewrite read_until_done_split; [|exact Hout| |].
  2:{ cbn [procs set_proc set_procs set_uuid_reads]. rewrite fn_lookup_insert.
      cbn [feed with_received]. exact Hfeed. }
  2:{ exact Hread. }
  cbn [clock clock_reads set_proc set_procs set_uuid_reads].
  fold uid start. rewrite read_loop_late by exact Hlate.
  eexists. split; [reflexivity|]. split; [exact Hec|].
  split; [reflexivity|]. split; [reflexivity|]. split; [reflexivity|].
  split; [reflexivity|].
  intros q. cbn [procs set_clock_reads set_proc set_procs set_uuid_reads].
  destruct (decide (pid p = q)) as [<-|Hne].
  - rewrite !fn_lookup_insert. reflexivity.
  - rewrite !fn_lookup_insert_ne by exact Hne. reflexivity.
Qed.

(** [_execute] when [readline] gives the empty string, the loop still
    reading after the observations [pre]. *)
Lemma execute_stream_closed mc ml cmd t st st1 p pre rest n v :
  let uid := uuids st1 (uuid_reads st1) in
  let start := clock st1 (clock_reads st1) in
  _ensure_shell st = (Returned p, st1) ->
  stdin p = true -> stdout p = true ->
  write_raises (procs st1 (pid p)) = false ->
  feed (procs st1 (pid p)) = pre ++ Line "" :: rest ->
  still_reading mc ml (cwd_marker_of uid) (done_marker_of uid) t start
    (clock st1) (S (clock_reads st1)) pre vars0 = Some (n, v) ->
  PyFloat.exceeds (clock st1 n) start t = false ->
  exists st',
    _execute mc ml cmd t st = (Returned (closed_result v), st') /\
    clock st' = clock st1 /\ clock_reads st' = S n.
Proof.
  intros uid start Hens Hin Hout Hwr Hfeed Hread Hok.
  rewrite (execute_after_ensure _ _ _ _ _ _ _ Hens Hin Hwr).
  erewrite read_until_done_split; [|exact Hout| |].
  2:{ cbn [procs set_proc set_procs set_uuid_reads]. rewrite fn_lookup_insert.
      cbn [feed with_received]. exact Hfeed. }
  2:{ exact Hread. }
  cbn [clock clock_reads set_proc set_procs set_uuid_reads].
  fold uid start. rewrite read_loop_line by exact Hok.
  change (on_line mc ml (cwd_marker_of uid) (done_marker_of uid) v "")
    with (Return (closed_result v)).
  eexists. split; [reflexivity|]. split; reflexivity.
Qed.

(** C2, the claim is right and the code misses a case. The loop asks
    [select] for at most a tenth of a second so as to come back to its clock
    check, but [readline] then waits for the end of the line. With a command
    that prints an [x] without newline and sleeps for ever, [select] finds
    data, [readline] does not return and the clock is not read again:
    whatever time passes (the clock shows a hundred seconds from its fourth
    reading on, the bound is two seconds), nothing is returned. *)
Theorem C2_unfinished_line_outlasts_the_timeout :
  let st := world_with_session (jump_after 2) [Unfinished] in
  PyFloat.exceeds (clock st 3) (clock st 1) 2%float = true /\
  fst (execute_command 20000 800 (Some "printf x; sleep infinity"%string)
         2%float st) = Blocked.
Proof. split; vm_compute; reflexivity. Qed.

(** C6. When the loop, still reading after the observations [pre] with local
    variables [v], passes its clock check and [readline] gives the empty
    string, [_read_until_done] returns at once: [ok] false, the error text
    of an ended session, the text captured so far and no exit code; what
    follows in the output is left unread. *)
Theorem C6_stream_closed
    (MAX_OUTPUT_CHARS MAX_OUTPUT_LINES : Z) (p : Popen)
    (cwd_marker done_marker : string) (timeout_sec : float)
    (st : State) (pre rest : list Obs) (n : nat) (v : Vars) :
  let start := clock st (clock_reads st) in
  stdout p = true ->
  feed (procs st (pid p)) = pre ++ Line "" :: rest ->
  still_reading MAX_OUTPUT_CHARS MAX_OUTPUT_LINES cwd_marker done_marker
    timeout_sec start (clock st) (S (clock_reads st)) pre vars0 = Some (n, v) ->
  PyFloat.exceeds (clock st n) start timeout_sec = false ->
  exists r st',
    _read_until_done MAX_OUTPUT_CHARS MAX_OUTPUT_LINES p cwd_marker done_marker
      timeout_sec st = (Returned r, st') /\
    r !! "ok" = Some (VBool false) /\
    r !! "error" = Some (VStr "shell session ended unexpectedly") /\
    r !! "stdout" = Some (VStr (Py.join (lines v))) /\
    r !! "exit_code" = Some VNone /\
    feed (procs st' (pid p)) = rest.
Proof.
  intros start Hout Hfeed Hread Hok.
  pose proof (still_reading_exit_code _ _ _ _ _ _ _ _ _ _ _ _ Hread) as Hec.
  simpl in Hec.
  rewrite (read_until_done_split _ _ _ _ _ _ _ _ _ _ _ Hout Hfeed Hread).
  fold start. rewrite read_loop_line by exact Hok.
  change (on_line MAX_OUTPUT_CHARS MAX_OUTPUT_LINES cwd_marker done_marker v "")
    with (Return (closed_result v)).
  eexists _, _. split; [reflexivity|].
  split; [reflexivity|]. split; [reflexivity|]. split; [reflexivity|].
  split.
  - rewrite (result_of_exit_code timeout_sec _ v) by (right; now left).
    rewrite Hec. reflexivity.
  - apply feed_after_read.
Qed.

(** C7. For a command that is [None], empty or made of white space only,
    [execute_command] returns a dictionary with [ok] false and leaves the
    whole state as it was: the session reference, every process (nothing
    written, nothing signalled), the number of processes created. *)
Theorem C7_blank_command_rejected
    (MAX_OUTPUT_CHARS MAX_OUTPUT_LINES : Z) (cmd : option string)
    (timeout_sec : float) (st : State) :
  cmd = None \/ (exists c, cmd = Some c /\ all_space c = true) ->
  exists r,
    execute_command MAX_OUTPUT_CHARS MAX_OUTPUT_LINES cmd timeout_sec st
      = (Returned r, st) /\
    r !! "ok" = Some (VBool false).
Proof.
  intros [->|(c & -> & Hc)].
  - exists empty_command. split; reflexivity.
  - exists empty_command. split; [|reflexivity].
    unfold execute_command, is_blank.
    apply strip_empty in Hc. rewrite Hc. reflexivity.
Qed.

(** ** The session manager *)

Lemma signals_only_refl st : signals_only st st.
Proof. unfold signals_only. repeat split; reflexivity. Qed.

Lemma signals_only_trans st1 st2 st3 :
  signals_only st1 st2 -> signals_only st2 st3 -> signals_only st1 st3.
Proof.
  intros (A1 & A2 & A3 & A4 & A5 & A6 & A7 & A8)
         (B1 & B2 & B3 & B4 & B5 & B6 & B7 & B8).
  unfold signals_only.
  repeat split; try congruence;
    destruct (A8 q) as (? & ? & ? & ? & ? & ?);
    destruct (B8 q) as (? & ? & ? & ? & ? & ?); congruence.
Qed.

Lemma signals_only_set_proc st k y :
  feed y = feed (procs st k) -> received y = received (procs st k) ->
  write_raises y = write_raises (procs st k) ->
  terminate_raises y = terminate_raises (procs st k) ->
  wait_raises y = wait_raises (procs st k) ->
  kill_raises y = kill_raises (procs st k) ->
  signals_only st (set_proc k y st).
Proof.
  intros. unfold signals_only. cbn. repeat split; try reflexivity;
    (destruct (decide (k = q)) as [<-|Hne];
     [rewrite fn_lookup_insert; assumption
     |rewrite fn_lookup_insert_ne by exact Hne; reflexivity]).
Qed.

Lemma terminate_spec p st :
  exists st', signals_only st st' /\
    (terminate p st = (Returned tt, st') \/ terminate p st = (Raised OSError, st')).
Proof.
  unfold terminate. destruct (terminate_raises (procs st (pid p))).
  - exists st. split; [apply signals_only_refl | now right].
  - destruct (returncode (procs st (pid p))).
    + exists st. split; [apply signals_only_refl | now left].
    + eexists. split; [|left; reflexivity].
      apply signals_only_set_proc; reflexivity.
Qed.

Lemma wait_spec p st :
  exists st', signals_only st st' /\
    (wait p st = (Returned tt, st') \/ wait p st = (Raised TimeoutExpired, st')).
Proof.
  unfold wait. destruct (wait_raises (procs st (pid p))).
  - exists st. split; [apply signals_only_refl | now right].
  - destruct (returncode (procs st (pid p))).
    + exists st. split; [apply signals_only_refl | now left].
    + eexists. split; [|left; reflexivity].
      apply signals_only_set_proc; reflexivity.
Qed.

Lemma kill_spec p st :
  exists st', signals_only st st' /\
    (kill p st = (Returned tt, st') \/ kill p st = (Raised OSError, st')).
Proof.
  unfold kill. destruct (kill_raises (procs st (pid p))).
  - exists st. split; [apply signals_only_refl | now right].
  - destruct (returncode (procs st (pid p))).
    + exists st. split; [apply signals_only_refl | now left].
    + eexists. split; [|left; reflexivity].
      apply signals_only_set_proc; reflexivity.
Qed.

(** [_stop_shell] returns, whatever [terminate], [wait] and [kill] do; the
    reference is cleared; with no session nothing changes at all. *)
Lemma stop_shell_returns st :
  exists st1,
    _stop_shell st = (Returned tt, set_session None st1) /\
    signals_only st st1 /\
    (_session st = None -> set_session None st1 = st).
Proof.
  unfold _stop_shell, bind, get_session. destruct (_session st) as [s|] eqn:Hs.
  - unfold try_finally, try_except, bind, put_session, ret.
    destruct (terminate_spec (proc s) st) as (st1 & F1 & [E1|E1]); rewrite E1;
      cbn beta iota.
    + destruct (wait_spec (proc s) st1) as (st2 & F2 & [E2|E2]); rewrite E2;
        cbn beta iota.
      * exists st2. split; [reflexivity|].
        split; [eapply signals_only_trans; eassumption | discriminate].
      * destruct (kill_spec (proc s) st2) as (st3 & F3 & [E3|E3]); rewrite E3;
          cbn beta iota; exists st3; (split; [reflexivity|]);
          (split; [|discriminate]);
          (eapply signals_only_trans; [|exact F3]);
          eapply signals_only_trans; eassumption.
    + destruct (kill_spec (proc s) st1) as (st3 & F3 & [E3|E3]); rewrite E3;
        cbn beta iota; exists st3; (split; [reflexivity|]);
        (split; [|discriminate]); eapply signals_only_trans; eassumption.
  - exists st. split; [|split; [apply signals_only_refl|]].
    + unfold ret. f_equal. destruct st; cbn in *. now subst.
    + intros _. destruct st; cbn in *. now subst.
Qed.

Lemma start_shell_ok st :
  spawn_ok st (spawned st) ->
  _start_shell st = (Returned {| proc := new_handle st |}, started st).
Proof.
  intros [Hp Hw]. unfold _start_shell, bind, subprocess_Popen. rewrite Hp.
  cbn [stdin stdout negb orb]. unfold stdin_write_flush.
  cbn [procs set_spawned pid]. rewrite Hw. reflexivity.
Qed.

Lemma start_shell_raises st :
  popen st (spawned st) = PopenRaises ->
  _start_shell st = (Raised OSError, set_spawned (S (spawned st)) st).
Proof.
  intros Hp. unfold _start_shell, bind, subprocess_Popen. rewrite Hp. reflexivity.
Qed.

Lemma start_shell_no_pipes st i o :
  popen st (spawned st) = PopenGives i o -> i && o = false ->
  _start_shell st
  = (Raised (RuntimeError "Failed to start shell with pipes"),
     set_spawned (S (spawned st)) st).
Proof.
  intros Hp Hio. unfold _start_shell, bind, subprocess_Popen. rewrite Hp.
  cbn [stdin stdout]. destruct i, o; try discriminate; reflexivity.
Qed.

Lemma spawn_ok_started st k :
  spawn_ok st k -> k <> spawned st -> spawn_ok (started st) k.
Proof.
  intros [Hp Hw] Hne. unfold spawn_ok, started. cbn.
  rewrite fn_lookup_insert_ne by congruence. split; assumption.
Qed.

(** [poll()] reports the return code and changes nothing but the handle
    of a child it finds ended. *)
Lemma poll_spec p st :
  poll p st = (Returned (returncode (procs st (pid p))), polled p st).
Proof.
  unfold polled, poll, returncode.
  destruct (reaped (procs st (pid p))); [reflexivity|].
  destruct (exits _ _); reflexivity.
Qed.

Lemma polled_cases p st :
  polled p st = st \/
  exists rc, returncode (procs st (pid p)) = Some rc /\
             polled p st
             = set_proc (pid p) (with_returncode (Some rc) (procs st (pid p))) st.
Proof.
  unfold polled, poll, returncode.
  destruct (reaped (procs st (pid p))); [now left|].
  destruct (exits _ _) as [rc|]; [|now left].
  right. exists rc. split; reflexivity.
Qed.

Lemma polled_running p st :
  returncode (procs st (pid p)) = None -> polled p st = st.
Proof.
  intros H. destruct (polled_cases p st) as [E|(rc & Hrc & _)]; [exact E|].
  congruence.
Qed.

Lemma polled_fields p st :
  _session (polled p st) = _session st /\
  spawned (polled p st) = spawned st /\ popen (polled p st) = popen st /\
  forall q,
    write_raises (procs (polled p st) q) = write_raises (procs st q) /\
    feed (procs (polled p st) q) = feed (procs st q) /\
    returncode (procs (polled p st) q) = returncode (procs st q).
Proof.
  destruct (polled_cases p st) as [->|(rc & Hrc & ->)].
  { repeat split; reflexivity. }
  split; [reflexivity|]. split; [reflexivity|]. split; [reflexivity|].
  intros q. cbn [procs set_proc set_procs].
  destruct (decide (pid p = q)) as [<-|Hne].
  - rewrite !fn_lookup_insert. split; [reflexivity|]. split; [reflexivity|].
    rewrite Hrc. reflexivity.
  - rewrite !fn_lookup_insert_ne by exact Hne. repeat split; reflexivity.
Qed.

Lemma signals_only_polled p st : signals_only st (polled p st).
Proof.
  destruct (polled_cases p st) as [->|(rc & _ & ->)];
    [apply signals_only_refl|].
  apply signals_only_set_proc; reflexivity.
Qed.

Lemma spawn_ok_polled p st k : spawn_ok st k -> spawn_ok (polled p st) k.
Proof.
  intros [Hp Hw]. destruct (polled_fields p st) as (_ & _ & Hpo & Hq).
  destruct (Hq k) as (Hwr & _). split; congruence.
Qed.

(** A running session is returned as it is. *)
Lemma ensure_shell_running st s :
  _session st = Some s -> returncode (procs st (pid (proc s))) = None ->
  _ensure_shell st = (Returned (proc s), st).
Proof.
  intros Hs Hrc. unfold _ensure_shell, bind, get_session, ret.
  rewrite Hs. cbn beta iota. rewrite Hs. cbn beta iota.
  rewrite poll_spec, Hrc, (polled_running _ _ Hrc).
  cbn beta iota. rewrite Hs. reflexivity.
Qed.

(** With no session, or with one whose process has ended, a shell is
    spawned (twice when the first one is found ended at once). *)
Lemma ensure_shell_spawns st :
  (_session st = None \/
   exists s rc, _session st = Some s /\
                returncode (procs st (pid (proc s))) = Some rc) ->
  (forall k, (spawned st <= k)%nat -> spawn_ok st k) ->
  exists p st',
    _ensure_shell st = (Returned p, st') /\
    (spawned st <= pid p < spawned st')%nat /\
    stdin p = true /\ stdout p = true /\
    _session st' = Some {| proc := p |} /\
    (_session st = None -> returncode (procs st (spawned st)) = None ->
     p = new_handle st /\ st' = set_session (Some {| proc := p |}) (started st)).
Proof.
  intros Hcase Hspawn.
  assert (H0 : spawn_ok st (spawned st)) by (apply Hspawn; lia).
  unfold _ensure_shell, bind, get_session, put_session, ret.
  destruct Hcase as [Hs|(s & rc & Hs & Hrc)]; rewrite Hs; cbn beta iota.
  - rewrite (start_shell_ok st H0). cbn beta iota.
    cbn [_session set_session proc].
    set (st1 := set_session (Some {| proc := new_handle st |}) (started st)).
    assert (Hrc0 : returncode (procs st1 (pid (new_handle st)))
                   = returncode (procs st (spawned st))).
    { unfold st1, started. cbn [procs set_session set_proc set_procs pid new_handle].
      rewrite fn_lookup_insert. reflexivity. }
    rewrite poll_spec, Hrc0.
    destruct (returncode (procs st (spawned st))) as [rc|] eqn:Hrc;
      cbn beta iota.
    + assert (H1 : spawn_ok (polled (new_handle st) st1)
                     (spawned (polled (new_handle st) st1))).
      { apply spawn_ok_polled.
        destruct (polled_fields (new_handle st) st1) as (_ & -> & _).
        change (spawn_ok (started st) (S (spawned st))).
        apply spawn_ok_started; [apply Hspawn|]; lia. }
      rewrite (start_shell_ok _ H1). cbn beta iota. cbn [_session set_session proc].
      eexists _, _. split; [reflexivity|].
      destruct (polled_fields (new_handle st) st1) as (_ & Hsp & _).
      cbn [pid new_handle spawned set_session started set_proc set_procs set_spawned].
      rewrite Hsp. unfold st1.
      cbn [spawned set_session started set_proc set_procs set_spawned].
      split; [lia|]. split; [reflexivity|]. split; [reflexivity|].
      split; [reflexivity|]. intros _ H. discriminate H.
    + rewrite polled_running by exact Hrc0.
      unfold st1. cbn [_session set_session].
      eexists _, _. split; [reflexivity|]. cbn.
      split; [lia|]. split; [reflexivity|]. split; [reflexivity|].
      split; [reflexivity|]. intros _ _. split; reflexivity.
  - rewrite Hs. cbn beta iota. rewrite poll_spec, Hrc. cbn beta iota.
    assert (H1 : spawn_ok (polled (proc s) st) (spawned (polled (proc s) st))).
    { apply spawn_ok_polled.
      destruct (polled_fields (proc s) st) as (_ & -> & _). exact H0. }
    rewrite (start_shell_ok _ H1). cbn beta iota. cbn [_session set_session proc].
    eexists _, _. split; [reflexivity|].
    destruct (polled_fields (proc s) st) as (_ & Hsp & _).
    cbn [pid new_handle spawned set_session started set_proc set_procs set_spawned].
    rewrite Hsp.
    split; [lia|]. split; [reflexivity|]. split; [reflexivity|].
    split; [reflexivity|]. intros H. congruence.
Qed.

(** ** The two markers *)

Lemma prefix_cons_inv a s1 s2 :
  String.prefix (String a s1) s2 = true ->
  exists s2', s2 = String a s2' /\ String.prefix s1 s2' = true.
Proof.
  destruct s2 as [|b s2]; cbn [String.prefix]; [discriminate|].
  destruct (ascii_dec a b) as [->|]; [eauto | discriminate].
Qed.

(** A line that starts with the done marker of an execution is not empty and
    does not start with its cwd marker. *)
Lemma markers_apart uid line :
  Py.startswith line (done_marker_of uid) = true ->
  line <> ""%string /\ Py.startswith line (cwd_marker_of uid) = false.
Proof.
  unfold Py.startswith, done_marker_of, cwd_marker_of. intros H.
  rewrite !append_cons in H.
  do 7 (apply prefix_cons_inv in H as (? & -> & H)).
  split; [discriminate|]. reflexivity.
Qed.

(** [_execute] when the done marker is read. *)
Lemma execute_finds_done mc ml cmd t st st1 p pre rest line n v :
  let uid := uuids st1 (uuid_reads st1) in
  let start := clock st1 (clock_reads st1) in
  _ensure_shell st = (Returned p, st1) ->
  stdin p = true -> stdout p = true ->
  write_raises (procs st1 (pid p)) = false ->
  feed (procs st1 (pid p)) = pre ++ Line line :: rest ->
  still_reading mc ml (cwd_marker_of uid) (done_marker_of uid) t start
    (clock st1) (S (clock_reads st1)) pre vars0 = Some (n, v) ->
  PyFloat.exceeds (clock st1 n) start t = false ->
  Py.startswith line (done_marker_of uid) = true ->
  exists st',
    _execute mc ml cmd t st
    = (Returned
         (done_result
            (with_exit_code
               (match Py.split_colon line !! 1%nat with
                | Some c => Py.int_of_str (Py.strip c)
                | None => None
                end) v)), st') /\
    _session st' = _session st1 /\ spawned st' = spawned st1.
Proof.
  intros uid start Hens Hin Hout Hwr Hfeed Hread Hok Hdone.
  destruct (markers_apart _ _ Hdone) as [Hne Hcwd].
  rewrite (execute_after_ensure _ _ _ _ _ _ _ Hens Hin Hwr).
  erewrite read_until_done_split; [|exact Hout| |].
  2:{ cbn [procs set_proc set_procs set_uuid_reads]. rewrite fn_lookup_insert.
      cbn [feed with_received]. exact Hfeed. }
  2:{ exact Hread. }
  cbn [clock clock_reads set_proc set_procs set_uuid_reads].
  fold uid start. rewrite read_loop_line by exact Hok.
  rewrite (done_line_breaks _ _ _ _ _ _ Hne Hcwd Hdone).
  eexists. split; [reflexivity|]. split; reflexivity.
Qed.

(** C9. [terminate_terminal] returns its dictionary with [ok] true from
    every state, whichever of [terminate], [wait] and [kill] raise; no
    session reference is left; with no session the state is unchanged. *)
Theorem C9_terminate_always_ok (st : State) :
  exists st',
    terminate_terminal st
      = (Returned (list_to_map
                     [("ok", VBool true);
                      ("message", VStr "terminal session terminated")]), st') /\
    _session st' = None /\
    (_session st = None -> st' = st).
Proof.
  destruct (stop_shell_returns st) as (st1 & E & _ & Hnone).
  exists (set_session None st1). unfold terminate_terminal, bind.
  rewrite E. split; [reflexivity|]. split; [reflexivity | exact Hnone].
Qed.

(** C4. [_ensure_shell] returns a running session's process and changes
    nothing. With no session, or with one whose process has exited, and
    [Popen] giving working pipes, it creates a process, stores it as the
    session and returns its handle. So after [terminate_terminal], with no
    [initiate_terminal] in between, [_execute] starts a shell by itself and,
    when that shell prints the done marker in time, returns [ok] true. *)
Theorem C4_ensure_shell
    (MAX_OUTPUT_CHARS MAX_OUTPUT_LINES : Z) (st : State) :
  (forall s,
      _session st = Some s ->
      returncode (procs st (pid (proc s))) = None ->
      _ensure_shell st = (Returned (proc s), st))
  /\
  ((_session st = None \/
    exists s rc, _session st = Some s /\
                 returncode (procs st (pid (proc s))) = Some rc) ->
   (forall k, (spawned st <= k)%nat -> spawn_ok st k) ->
   exists p st',
     _ensure_shell st = (Returned p, st') /\
     (spawned st <= pid p < spawned st')%nat /\
     stdin p = true /\ stdout p = true /\
     _session st' = Some {| proc := p |})
  /\
  (forall r0 st0 cmd timeout_sec pre line rest n v,
      terminate_terminal st = (Returned r0, st0) ->
      let k := spawned st0 in
      let uid := uuids st0 (uuid_reads st0) in
      let start := clock st0 (clock_reads st0) in
      (forall j, (k <= j)%nat -> spawn_ok st0 j) ->
      returncode (procs st0 k) = None ->
      feed (procs st0 k) = pre ++ Line line :: rest ->
      still_reading MAX_OUTPUT_CHARS MAX_OUTPUT_LINES
        (cwd_marker_of uid) (done_marker_of uid) timeout_sec start (clock st0)
        (S (clock_reads st0)) pre vars0 = Some (n, v) ->
      PyFloat.exceeds (clock st0 n) start timeout_sec = false ->
      Py.startswith line (done_marker_of uid) = true ->
      exists r st',
        _execute MAX_OUTPUT_CHARS MAX_OUTPUT_LINES cmd timeout_sec st0
          = (Returned r, st') /\
        r !! "ok" = Some (VBool true) /\
        r !! "stdout" = Some (VStr (Py.join (lines v))) /\
        _session st' = Some {| proc := new_handle st0 |}).
Proof.
  split; [|split].
  - intros s Hs Hrc. exact (ensure_shell_running _ _ Hs Hrc).
  - intros Hcase Hspawn.
    destruct (ensure_shell_spawns st Hcase Hspawn)
      as (p & st' & E & Hpid & Hin & Hout & Hs & _).
    exists p, st'. repeat split; try assumption; lia.
  - intros r0 st0 cmd timeout_sec pre line rest n v Hterm k uid start
      Hspawn Hrc Hfeed Hread Hok Hdone.
    assert (Hnone : _session st0 = None).
    { destruct (stop_shell_returns st) as (st1 & E & _ & _).
      unfold terminate_terminal, bind in Hterm. rewrite E in Hterm.
      injection Hterm as _ <-. reflexivity. }
    destruct (ensure_shell_spawns st0 (or_introl Hnone) Hspawn)
      as (p & st1 & E & _ & Hin & Hout & _ & Hnew).
    destruct (Hnew Hnone Hrc) as [-> ->].
    assert (Hw : write_raises (procs st0 k) = false) by (apply Hspawn; lia).
    assert (Hx : procs (started st0) k
                 = with_received (received (procs st0 k)
                                  ++ ["export PS1=''" +:+ Py.nl]) (procs st0 k)).
    { unfold started. cbn [procs set_proc set_procs]. fold k.
      apply fn_lookup_insert. }
    destruct (execute_finds_done MAX_OUTPUT_CHARS MAX_OUTPUT_LINES cmd
                timeout_sec _ _ _ pre rest line n v E Hin Hout)
      as (st' & E' & Hs' & _).
    + cbn [procs set_session pid new_handle]. fold k. rewrite Hx. exact Hw.
    + cbn [procs set_session pid new_handle]. fold k. rewrite Hx. exact Hfeed.
    + exact Hread.
    + exact Hok.
    + exact Hdone.
    + eexists _, st'. split; [exact E'|].
      split; [reflexivity|]. split; [reflexivity|]. exact Hs'.
Qed.

(** ** What [_execute] can return *)

Lemma read_loop_result_of mc ml cm dm t start clk obs : forall n v r n' rest,
  read_loop mc ml cm dm t start clk n obs v = (Returned r, n', rest) ->
  exists v', result_of t r v'.
Proof.
  induction obs as [|ob obs IH]; intros n v r n' rest; simpl.
  - destruct (PyFloat.exceeds (clk n) start t); [|discriminate].
    intros [= <- _ _]. exists v. now left.
  - destruct (PyFloat.exceeds (clk n) start t).
    { intros [= <- _ _]. exists v. now left. }
    destruct ob as [|line| |]; [apply IH| |discriminate..].
    destruct (on_line mc ml cm dm v line) as [v'|v'|r0|e] eqn:Hstep.
    + apply IH.
    + intros [= <- _ _]. exists v'. right. now right.
    + intros [= <- _ _]. apply on_line_Return in Hstep as [_ ->].
      exists v. right. now left.
    + discriminate.
Qed.

Lemma read_until_done_result_of mc ml p cm dm t st r st' :
  _read_until_done mc ml p cm dm t st = (Returned r, st') ->
  exists v, result_of t r v.
Proof.
  intros H. pose proof (read_until_done_stdout _ _ _ _ _ _ _ _ _ H) as Hout.
  rewrite read_until_done_unfold in H by exact Hout. cbv zeta in H.
  destruct (read_loop _ _ _ _ _ _ _ _ _ _) as [[o n] rest] eqn:Hloop.
  injection H as -> _. exact (read_loop_result_of _ _ _ _ _ _ _ _ _ _ _ _ _ Hloop).
Qed.

Lemma execute_result_of mc ml cmd t st r st' :
  _execute mc ml cmd t st = (Returned r, st') -> exists v, result_of t r v.
Proof.
  unfold _execute, bind.
  destruct (_ensure_shell st) as [[p|e| |] st1]; try discriminate.
  unfold assert. destruct (stdin p); [|discriminate].
  unfold ret, uuid4_hex, stdin_write_flush.
  match goal with |- context [if ?b then _ else _] => destruct b end;
    [discriminate|].
  apply read_until_done_result_of.
Qed.

Lemma start_shell_fails st :
  spawn_fails st ->
  exists e,
    _start_shell st = (Raised e, set_spawned (S (spawned st)) st) /\
    (e = OSError \/ e = RuntimeError "Failed to start shell with pipes").
Proof.
  intros [H|(i & o & H & Hio)].
  - exists OSError. split; [exact (start_shell_raises _ H) | now left].
  - eexists. split; [exact (start_shell_no_pipes _ _ _ H Hio) | now right].
Qed.

Lemma spawn_fails_polled p st : spawn_fails st -> spawn_fails (polled p st).
Proof.
  destruct (polled_fields p st) as (_ & Hsp & Hpo & _).
  unfold spawn_fails. rewrite Hsp, Hpo. auto.
Qed.

(** A failed spawn goes through [_ensure_shell]. *)
Lemma ensure_shell_spawn_fails st :
  (_session st = None \/
   exists s rc, _session st = Some s /\
                returncode (procs st (pid (proc s))) = Some rc) ->
  spawn_fails st ->
  exists e st1,
    _ensure_shell st = (Raised e, st1) /\
    (e = OSError \/ e = RuntimeError "Failed to start shell with pipes").
Proof.
  intros Hcase Hfail. unfold _ensure_shell, bind, get_session, ret.
  destruct Hcase as [Hs|(s & rc & Hs & Hrc)]; rewrite Hs; cbn beta iota.
  - destruct (start_shell_fails st Hfail) as (e & E & He).
    rewrite E. eexists _, _. split; [reflexivity | exact He].
  - rewrite Hs. cbn beta iota. rewrite poll_spec, Hrc. cbn beta iota.
    destruct (start_shell_fails _ (spawn_fails_polled (proc s) st Hfail))
      as (e & E & He).
    rewrite E. eexists _, _. split; [reflexivity | exact He].
Qed.

Lemma placeholder_cases res st r st' :
  placeholder res st = (Returned r, st') ->
  r = res \/ r = <["stdout" := VStr ("(ok)" +:+ Py.nl)]> res.
Proof.
  unfold placeholder.
  destruct (truthy (get res "ok") && eq_zero (get res "exit_code")).
  - unfold bind, str_strip.
    destruct (py_or (get res "stdout") (VStr "")); try discriminate.
    unfold ret. destruct (String.eqb (Py.strip s) "").
    + intros [= <- _]. now right.
    + intros [= <- _]. now left.
  - intros [= <- _]. now left.
Qed.

Lemma result_of_common t r v : result_of t r v -> common_fields r.
Proof.
  intros [->|[->| ->]]; (split; [|split; [|split]]).
  all: try (eexists; reflexivity).
  - exists false. split; [reflexivity|]. split; [reflexivity|]. intros _. eexists. reflexivity.
  - exists false. split; [reflexivity|]. split; [reflexivity|]. intros _. eexists. reflexivity.
  - exists true. split; [reflexivity|]. split; [|discriminate].
    intros [x Hx]. discriminate Hx.
Qed.

Lemma common_fields_insert k x r :
  k <> "ok"%string -> k <> "error"%string -> k <> "stdout"%string ->
  k <> "exit_code"%string -> k <> "cwd_after"%string ->
  common_fields r -> common_fields (<[k := x]> r).
Proof.
  intros H1 H2 H3 H4 H5 ((b & Hok & Herr) & (s & Hs) & (o1 & Ho1) & (o2 & Ho2)).
  unfold common_fields. rewrite !lookup_insert_ne by congruence. eauto 10.
Qed.

Lemma common_fields_stdout s r :
  common_fields r -> common_fields (<["stdout" := VStr s]> r).
Proof.
  intros ((b & Hok & Herr) & _ & (o1 & Ho1) & (o2 & Ho2)).
  unfold common_fields. rewrite lookup_insert_eq.
  rewrite !lookup_insert_ne by discriminate. eauto 10.
Qed.

Lemma execution_fields_stdout c x r :
  execution_fields c r -> execution_fields c (<["stdout" := x]> r).
Proof.
  intros ((b & H1) & H2 & (ms & H3)). split; [|split].
  - exists b. rewrite lookup_insert_ne by discriminate. exact H1.
  - rewrite lookup_insert_ne by discriminate. exact H2.
  - exists ms. rewrite lookup_insert_ne by discriminate. exact H3.
Qed.

(** C8, as amended. Every dictionary [execute_command] returns has [ok],
    [stdout], [exit_code] (an integer or [None]) and [cwd_after] (a string
    or [None]), and has [error] exactly when [ok] is false. When the
    command is not blank it also has [truncated], [cmd] (the command as
    given) and [duration_ms] (an integer). *)
Theorem C8_result_fields
    (MAX_OUTPUT_CHARS MAX_OUTPUT_LINES : Z) (cmd : option string)
    (timeout_sec : float) (st st' : State) (r : gmap string value) :
  execute_command MAX_OUTPUT_CHARS MAX_OUTPUT_LINES cmd timeout_sec st
    = (Returned r, st') ->
  common_fields r /\
  (forall c, cmd = Some c -> all_space c = false -> execution_fields c r).
Proof.
  assert (Hempty : common_fields empty_command).
  { split; [|split; [|split]].
    - exists false. split; [reflexivity|]. split; [reflexivity|].
      intros _. eexists. reflexivity.
    - eexists. reflexivity.
    - exists None. reflexivity.
    - exists None. reflexivity. }
  destruct cmd as [c|]; unfold execute_command.
  2:{ intros [= <- _]. split; [exact Hempty | discriminate]. }
  destruct (is_blank (Some c)) eqn:Hb.
  { intros [= <- _]. split; [exact Hempty|]. intros c' [= <-] Hsp.
    unfold is_blank in Hb. apply String.eqb_eq, strip_empty in Hb. congruence. }
  unfold bind, time_time, int_of_float.
  destruct (_execute _ _ _ _ _) as [[res|e| |] st2] eqn:Hex; try discriminate.
  destruct (PyFloat.to_int _) as [ms|]; [|discriminate].
  unfold ret. intros H. apply placeholder_cases in H.
  destruct (execute_result_of _ _ _ _ _ _ _ Hex) as [v Hv].
  pose proof (result_of_common _ _ _ Hv) as Hcommon.
  pose proof (result_of_truncated _ _ _ Hv) as Htr.
  assert (Hbase : common_fields (<["duration_ms" := VInt ms]> (<["cmd" := VStr c]> res))).
  { do 2 (apply common_fields_insert; try discriminate). exact Hcommon. }
  assert (Hexec : execution_fields c
                    (<["duration_ms" := VInt ms]> (<["cmd" := VStr c]> res))).
  { split; [|split].
    - rewrite !lookup_insert_ne by discriminate. eauto.
    - rewrite lookup_insert_ne by discriminate. apply lookup_insert_eq.
    - exists ms. apply lookup_insert_eq. }
  destruct H as [-> | ->].
  - split; [exact Hbase|]. intros c' [= <-] _. exact Hexec.
  - split; [apply common_fields_stdout; exact Hbase|].
    intros c' [= <-] _. apply execution_fields_stdout. exact Hexec.
Qed.

Lemma get_lookup (r : gmap string value) k x : r !! k = Some x -> get r k = x.
Proof. intros H. unfold get. rewrite H. reflexivity. Qed.

(** [(s or "")] is [s] for a string. *)
Lemma py_or_str_empty s : py_or (VStr s) (VStr "") = VStr s.
Proof.
  unfold py_or. cbn [truthy]. destruct (String.eqb_spec s "") as [->|_]; reflexivity.
Qed.

(** C10. Whenever [initiate_terminal] returns, its dictionary has [ok] true,
    the message and a [cwd] field. It returns so for every dictionary the
    diagnostic [pwd] execution returns, the failed ones included: [cwd] is
    then the stripped text captured, or [cwd_after] when that text is empty.
    With a diagnostic that times out before any output the [cwd] is [None]
    while [ok] is true. *)
Theorem C10_initiate_reports_ok
    (MAX_OUTPUT_CHARS MAX_OUTPUT_LINES : Z) (st : State) :
  (forall r st',
      initiate_terminal MAX_OUTPUT_CHARS MAX_OUTPUT_LINES st = (Returned r, st') ->
      r !! "ok" = Some (VBool true) /\
      r !! "message" = Some (VStr "terminal session initiated") /\
      is_Some (r !! "cwd"))
  /\
  (forall p st1 res st2,
      bind _stop_shell (fun _ => _ensure_shell) st = (Returned p, st1) ->
      _execute MAX_OUTPUT_CHARS MAX_OUTPUT_LINES "pwd" 8%float st1
        = (Returned res, st2) ->
      exists s,
        res !! "stdout" = Some (VStr s) /\
        initiate_terminal MAX_OUTPUT_CHARS MAX_OUTPUT_LINES st
        = (Returned
             (list_to_map
                [("ok", VBool true);
                 ("message", VStr "terminal session initiated");
                 ("cwd", py_or (VStr (Py.strip s)) (get res "cwd_after"))]),
           st2))
  /\
  (exists st0 p st1 res r st2,
      bind _stop_shell (fun _ => _ensure_shell) st0 = (Returned p, st1) /\
      _execute MAX_OUTPUT_CHARS MAX_OUTPUT_LINES "pwd" 8%float st1
        = (Returned res, st2) /\
      res !! "ok" = Some (VBool false) /\
      initiate_terminal MAX_OUTPUT_CHARS MAX_OUTPUT_LINES st0 = (Returned r, st2) /\
      r !! "ok" = Some (VBool true) /\
      r !! "cwd" = Some VNone).
Proof.
  split; [|split].
  - intros r st'. unfold initiate_terminal, bind.
    destruct (_stop_shell st) as [[[]|e| |] st1]; try discriminate.
    destruct (_ensure_shell st1) as [[p|e| |] st2]; try discriminate.
    destruct (_execute _ _ _ _ st2) as [[res|e| |] st3]; try discriminate.
    unfold str_strip.
    destruct (py_or (get res "stdout") (VStr "")); try discriminate.
    unfold ret. intros [= <- _].
    split; [reflexivity|]. split; [reflexivity|]. eexists. reflexivity.
  - intros p st1 res st2 Hpre Hex.
    destruct (execute_result_of _ _ _ _ _ _ _ Hex) as [v Hv].
    pose proof (result_of_stdout _ _ _ Hv) as Hout.
    exists (Py.join (lines v)). split; [exact Hout|].
    unfold initiate_terminal. unfold bind in Hpre |- *.
    destruct (_stop_shell st) as [[[]|e| |] st0]; try discriminate.
    rewrite Hpre, Hex. rewrite (get_lookup _ _ _ Hout), py_or_str_empty.
    reflexivity.
  - set (st0 := world (PopenGives true true) (jump_after 0) []).
    set (st1 := snd (bind _stop_shell (fun _ => _ensure_shell) st0)).
    exists st0, (new_handle st0), st1, (timeout_result 8%float vars0),
      (list_to_map
         [("ok", VBool true);
          ("message", VStr "terminal session initiated");
          ("cwd", VNone)]),
      (snd (_execute MAX_OUTPUT_CHARS MAX_OUTPUT_LINES "pwd" 8%float st1)).
    repeat split; vm_compute; reflexivity.
Qed.

(** ** What the calls leave alone *)

Lemma io_frame_refl st : io_frame st st.
Proof. unfold io_frame. repeat split; reflexivity. Qed.

Lemma io_frame_trans st1 st2 st3 :
  io_frame st1 st2 -> io_frame st2 st3 -> io_frame st1 st3.
Proof.
  intros (A1 & A2 & A3 & A4) (B1 & B2 & B3 & B4). unfold io_frame.
  split; [congruence|]. split; [congruence|]. split; [congruence|].
  intros q. destruct (A4 q) as (? & ? & ? & ? & ? & ?).
  destruct (B4 q) as (? & ? & ? & ? & ? & ?). repeat split; congruence.
Qed.

Lemma io_frame_set_proc st k y :
  signals y = signals (procs st k) ->
  exits y = exits (procs st k) ->
  write_raises y = write_raises (procs st k) ->
  terminate_raises y = terminate_raises (procs st k) ->
  wait_raises y = wait_raises (procs st k) ->
  kill_raises y = kill_raises (procs st k) ->
  io_frame st (set_proc k y st).
Proof.
  intros. unfold io_frame. cbn. split; [reflexivity|]. split; [reflexivity|].
  split; [reflexivity|]. intros q. destruct (decide (k = q)) as [<-|Hne].
  - rewrite fn_lookup_insert. repeat split; assumption.
  - rewrite fn_lookup_insert_ne by exact Hne. repeat split; reflexivity.
Qed.

Lemma io_frame_fields st st' :
  popen st' = popen st -> clock st' = clock st -> uuids st' = uuids st ->
  procs st' = procs st -> io_frame st st'.
Proof.
  intros H1 H2 H3 H4. unfold io_frame. rewrite H1, H2, H3, H4.
  repeat split; reflexivity.
Qed.

Lemma io_frame_polled p st : io_frame st (polled p st).
Proof.
  destruct (polled_cases p st) as [->|(rc & _ & ->)]; [apply io_frame_refl|].
  apply io_frame_set_proc; reflexivity.
Qed.

Lemma start_shell_post st o st' :
  _start_shell st = (o, st') ->
  io_frame st st' /\ _session st' = _session st /\
  spawned st' = S (spawned st) /\
  match o with
  | Returned s => s = {| proc := new_handle st |}
  | Raised e => spawn_error e
  | Blocked | Reading => False
  end.
Proof.
  unfold _start_shell, bind, subprocess_Popen.
  destruct (popen st (spawned st)) as [|i o'].
  { intros [= <- <-]. split; [now apply io_frame_fields|].
    split; [reflexivity|]. split; [reflexivity|]. now left. }
  cbn [stdin stdout].
  destruct (negb i || negb o') eqn:Hio.
  { intros [= <- <-]. split; [now apply io_frame_fields|].
    split; [reflexivity|]. split; [reflexivity|]. right. now left. }
  apply orb_false_elim in Hio as [Hi Ho].
  apply negb_false_iff in Hi, Ho. subst i o'.
  unfold stdin_write_flush. cbn [procs set_spawned pid].
  destruct (write_raises (procs st (spawned st))).
  { intros [= <- <-]. split; [now apply io_frame_fields|].
    split; [reflexivity|]. split; [reflexivity|]. right. now right. }
  intros [= <- <-].
  split.
  { eapply io_frame_trans; [|apply io_frame_set_proc; reflexivity].
    now apply io_frame_fields. }
  split; [reflexivity|]. split; reflexivity.
Qed.

Lemma io_frame_set_session o st : io_frame st (set_session o st).
Proof. now apply io_frame_fields. Qed.

Lemma session_eta (s : ShellSession) : s = {| proc := proc s |}.
Proof. destruct s. reflexivity. Qed.

Lemma ensure_shell_post st o st' :
  _ensure_shell st = (o, st') ->
  io_frame st st' /\
  (spawned st <= spawned st' <= spawned st + 2)%nat /\
  (session_ok st -> session_ok st') /\
  (is_Some (_session st) -> is_Some (_session st')) /\
  match o with
  | Returned p =>
      _session st' = Some {| proc := p |} /\
      ((_session st = Some {| proc := p |} /\ st' = st) \/
       (stdin p = true /\ stdout p = true /\
        (spawned st <= pid p < spawned st')%nat))
  | Raised e => spawn_error e
  | Blocked | Reading => False
  end.
Proof.
  assert (Hok : forall (s0 : State) (h : State),
             spawned h = S (spawned s0) ->
             session_ok (set_session (Some {| proc := new_handle s0 |}) h)).
  { intros s0 h Hsp s [= <-]. cbn. rewrite Hsp. repeat split; lia. }
  unfold _ensure_shell, bind, get_session, put_session, ret.
  destruct (_session st) as [s|] eqn:Hs; cbn beta iota.
  - rewrite Hs. cbn beta iota. rewrite poll_spec.
    destruct (returncode (procs st (pid (proc s)))) as [rc|] eqn:Hrc;
      cbn beta iota.
    + pose proof (io_frame_polled (proc s) st) as F0.
      destruct (polled_fields (proc s) st) as (Hsess0 & Hsp0 & _).
      destruct (_start_shell (polled (proc s) st)) as [[s1|e| |] st1] eqn:E;
        destruct (start_shell_post _ _ _ E) as (F & Hsess & Hsp & Ho).
      * cbn [_session set_session]. intros [= <- <-]. subst s1.
        split.
        { eapply io_frame_trans; [exact F0|].
          eapply io_frame_trans; [exact F | apply io_frame_set_session]. }
        cbn [spawned set_session]. split; [lia|].
        split; [intros _; now apply Hok|].
        split; [intros _; eexists; reflexivity|].
        split; [reflexivity|]. right. cbn. repeat split; lia.
      * intros [= <- <-]. split; [exact (io_frame_trans _ _ _ F0 F)|].
        split; [lia|]. split; [|split; [|exact Ho]].
        -- intros Hst s' Hs'. rewrite Hsess, Hsess0 in Hs'.
           destruct (Hst s' Hs') as (? & ? & ?). repeat split; try assumption. lia.
        -- rewrite Hsess, Hsess0. auto.
      * destruct Ho.
      * destruct Ho.
    + rewrite (polled_running _ _ Hrc), Hs. cbn beta iota. intros [= <- <-].
      split; [apply io_frame_refl|].
      split; [lia|]. split; [auto|]. split; [rewrite Hs; auto|].
      split; [rewrite Hs; f_equal; apply session_eta|].
      left. split; [f_equal; apply session_eta | reflexivity].
  - destruct (_start_shell st) as [[s1|e| |] st1] eqn:E;
      destruct (start_shell_post _ _ _ E) as (F & Hsess & Hsp & Ho).
    + subst s1. cbn [_session set_session proc].
      set (sA := set_session (Some {| proc := new_handle st |}) st1).
      assert (FA : io_frame st sA).
      { eapply io_frame_trans; [exact F | apply io_frame_set_session]. }
      rewrite poll_spec.
      destruct (returncode (procs sA (pid (new_handle st)))) as [rc|] eqn:Hrc;
        cbn beta iota.
      * pose proof (io_frame_polled (new_handle st) sA) as F0.
        destruct (polled_fields (new_handle st) sA) as (Hsess0 & Hsp0 & _).
        change (spawned sA) with (spawned st1) in Hsp0.
        change (_session sA) with (Some {| proc := new_handle st |}) in Hsess0.
        destruct (_start_shell (polled (new_handle st) sA))
          as [[s2|e| |] st2] eqn:E2;
          destruct (start_shell_post _ _ _ E2) as (F2 & Hsess2 & Hsp2 & Ho2).
        -- cbn [_session set_session]. intros [= <- <-]. subst s2.
           split.
           { eapply io_frame_trans; [exact FA|].
             eapply io_frame_trans; [exact F0|].
             eapply io_frame_trans; [exact F2 | apply io_frame_set_session]. }
           cbn [spawned set_session]. split; [lia|].
           split; [intros _; now apply Hok|].
           split; [intros _; eexists; reflexivity|].
           split; [reflexivity|]. right. cbn [stdin stdout pid proc new_handle].
           repeat split; lia.
        -- intros [= <- <-].
           split.
           { eapply io_frame_trans; [exact FA|].
             exact (io_frame_trans _ _ _ F0 F2). }
           split; [lia|]. split; [|split; [|exact Ho2]].
           ++ intros _ s' Hs'. rewrite Hsess2, Hsess0 in Hs'. injection Hs' as <-.
              cbn. repeat split; lia.
           ++ intros [x Hx]. discriminate Hx.
        -- destruct Ho2.
        -- destruct Ho2.
      * rewrite (polled_running _ _ Hrc). unfold sA. cbn [_session set_session].
        intros [= <- <-].
        split; [exact FA|].
        cbn [spawned set_session]. split; [lia|].
        split; [intros _; now apply Hok|].
        split; [intros _; eexists; reflexivity|].
        split; [reflexivity|]. right. cbn. repeat split; lia.
    + intros [= <- <-]. split; [exact F|]. split; [lia|].
      split; [|split; [|exact Ho]].
      * intros _ s' Hs'. rewrite Hsess, Hs in Hs'. discriminate.
      * intros [x Hx]. discriminate Hx.
    + destruct Ho.
    + destruct Ho.
Qed.

(** ** The wrapper around [_execute] *)

Lemma placeholder_post res st o st' :
  placeholder res st = (o, st') ->
  st' = st /\
  match o with
  | Returned r =>
      (truthy (get res "ok") && eq_zero (get res "exit_code") = true /\
       (exists s, py_or (get res "stdout") (VStr "") = VStr s /\
                  ((Py.strip s = ""%string /\
                    r = <["stdout" := VStr ("(ok)" +:+ Py.nl)]> res) \/
                   (Py.strip s <> ""%string /\ r = res))))
      \/ (truthy (get res "ok") && eq_zero (get res "exit_code") = false /\
          r = res)
  | Raised e =>
      e = AttributeError /\
      forall s, py_or (get res "stdout") (VStr "") <> VStr s
  | Blocked | Reading => False
  end.
Proof.
  unfold placeholder.
  destruct (truthy (get res "ok") && eq_zero (get res "exit_code")).
  - unfold bind, str_strip, ret, raise.
    destruct (py_or (get res "stdout") (VStr "")) as [|b|z|s];
      try (intros [= <- <-]; split; [reflexivity|]; split; [reflexivity|];
           intros s; discriminate).
    destruct (String.eqb_spec (Py.strip s) "") as [He|Hne];
      intros [= <- <-]; (split; [reflexivity|]); left;
      (split; [reflexivity|]); exists s; (split; [reflexivity|]).
    + left. now split.
    + right. now split.
  - intros [= <- <-]. split; [reflexivity|]. right. now split.
Qed.

Lemma execute_command_unfold mc ml c t st :
  is_blank (Some c) = false ->
  execute_command mc ml (Some c) t st =
    match _execute mc ml c t (set_clock_reads (S (clock_reads st)) st) with
    | (Returned res, st1) =>
        match PyFloat.to_int
                (PrimFloat.mul
                   (PrimFloat.sub (clock st1 (clock_reads st1))
                      (clock st (clock_reads st))) 1000%float) with
        | Some ms =>
            placeholder (<["duration_ms" := VInt ms]> (<["cmd" := VStr c]> res))
              (set_clock_reads (S (clock_reads st1)) st1)
        | None =>
            (Raised (if PrimFloat.is_nan
                          (PrimFloat.mul
                             (PrimFloat.sub (clock st1 (clock_reads st1))
                                (clock st (clock_reads st))) 1000%float)
                     then ValueError else OverflowError),
             set_clock_reads (S (clock_reads st1)) st1)
        end
    | (Raised e, st1) => (Raised e, st1)
    | (Blocked, st1) => (Blocked, st1)
    | (Reading, st1) => (Reading, st1)
    end.
Proof.
  intros Hb. unfold execute_command. rewrite Hb.
  unfold bind at 1, time_time. unfold bind at 1.
  destruct (_execute mc ml c t _) as [[res|e| |] st1]; try reflexivity.
  unfold bind, int_of_float.
  destruct (PyFloat.to_int _); reflexivity.
Qed.

(** A dictionary with [ok] false goes through the wrapper as it is, with
    [cmd] and [duration_ms] added. *)
Lemma execute_command_reports_failure mc ml c t st res st1 :
  is_blank (Some c) = false ->
  _execute mc ml c t (set_clock_reads (S (clock_reads st)) st)
    = (Returned res, st1) ->
  res !! "ok" = Some (VBool false) ->
  clock_finite st -> clock st1 = clock st ->
  exists ms,
    execute_command mc ml (Some c) t st
    = (Returned (<["duration_ms" := VInt ms]> (<["cmd" := VStr c]> res)),
       set_clock_reads (S (clock_reads st1)) st1).
Proof.
  intros Hb E Hok Hfin Hclk. rewrite (execute_command_unfold _ _ _ _ _ Hb), E.
  rewrite Hclk. destruct (PyFloat.to_int _) as [ms|] eqn:Hms.
  - exists ms. unfold placeholder.
    assert (Hget : get (<["duration_ms" := VInt ms]> (<["cmd" := VStr c]> res)) "ok"
                   = VBool false).
    { apply get_lookup. rewrite !lookup_insert_ne by discriminate. exact Hok. }
    rewrite Hget. reflexivity.
  - exfalso. exact (Hfin _ _ Hms).
Qed.

Lemma ensure_shell_clock st o st' :
  _ensure_shell st = (o, st') -> clock st' = clock st.
Proof.
  intros E. destruct (ensure_shell_post _ _ _ E) as ((_ & H & _) & _). exact H.
Qed.

(** C3, as amended. [terminate_terminal] never raises, and
    [execute_command] returns a dictionary with [ok] false for a blank
    command, for a timeout found at a clock check of the read loop and for
    the end of the stream (the clock showing finite times). A failed spawn
    ([Popen] raising, or giving a process that lacks a pipe) is not turned
    into a dictionary: when a shell has to be started, the exception leaves
    [execute_command], and it always leaves [initiate_terminal]. In the
    third and fourth part [st1] is the state [_ensure_shell] leaves after
    the wrapper has read the clock, [pre] what the loop reads before the
    check or the end of the stream. *)
Theorem C3_failures_at_the_boundary
    (MAX_OUTPUT_CHARS MAX_OUTPUT_LINES : Z) (st : State) :
  (exists r st', terminate_terminal st = (Returned r, st'))
  /\
  (forall cmd timeout_sec,
      is_blank cmd = true ->
      exists r,
        execute_command MAX_OUTPUT_CHARS MAX_OUTPUT_LINES cmd timeout_sec st
          = (Returned r, st) /\
        r !! "ok" = Some (VBool false))
  /\
  (forall c timeout_sec p st1 pre rest n v,
      let uid := uuids st1 (uuid_reads st1) in
      let start := clock st1 (clock_reads st1) in
      is_blank (Some c) = false -> clock_finite st ->
      _ensure_shell (set_clock_reads (S (clock_reads st)) st) = (Returned p, st1) ->
      stdin p = true -> stdout p = true ->
      write_raises (procs st1 (pid p)) = false ->
      feed (procs st1 (pid p)) = pre ++ rest ->
      still_reading MAX_OUTPUT_CHARS MAX_OUTPUT_LINES
        (cwd_marker_of uid) (done_marker_of uid) timeout_sec start (clock st1)
        (S (clock_reads st1)) pre vars0 = Some (n, v) ->
      PyFloat.exceeds (clock st1 n) start timeout_sec = true ->
      exists r st',
        execute_command MAX_OUTPUT_CHARS MAX_OUTPUT_LINES (Some c) timeout_sec st
          = (Returned r, st') /\
        r !! "ok" = Some (VBool false) /\
        r !! "error"
          = Some (VStr ("timeout after " +:+ PyFloat.format_1f timeout_sec
                        +:+ "s")))
  /\
  (forall c timeout_sec p st1 pre rest n v,
      let uid := uuids st1 (uuid_reads st1) in
      let start := clock st1 (clock_reads st1) in
      is_blank (Some c) = false -> clock_finite st ->
      _ensure_shell (set_clock_reads (S (clock_reads st)) st) = (Returned p, st1) ->
      stdin p = true -> stdout p = true ->
      write_raises (procs st1 (pid p)) = false ->
      feed (procs st1 (pid p)) = pre ++ Line "" :: rest ->
      still_reading MAX_OUTPUT_CHARS MAX_OUTPUT_LINES
        (cwd_marker_of uid) (done_marker_of uid) timeout_sec start (clock st1)
        (S (clock_reads st1)) pre vars0 = Some (n, v) ->
      PyFloat.exceeds (clock st1 n) start timeout_sec = false ->
      exists r st',
        execute_command MAX_OUTPUT_CHARS MAX_OUTPUT_LINES (Some c) timeout_sec st
          = (Returned r, st') /\
        r !! "ok" = Some (VBool false) /\
        r !! "error" = Some (VStr "shell session ended unexpectedly"))
  /\
  (forall c timeout_sec,
      is_blank (Some c) = false ->
      (_session st = None \/
       exists s rc, _session st = Some s /\
                    returncode (procs st (pid (proc s))) = Some rc) ->
      spawn_fails st ->
      exists e st',
        execute_command MAX_OUTPUT_CHARS MAX_OUTPUT_LINES (Some c) timeout_sec st
          = (Raised e, st') /\
        (e = OSError \/ e = RuntimeError "Failed to start shell with pipes"))
  /\
  (spawn_fails st ->
   exists e st',
     initiate_terminal MAX_OUTPUT_CHARS MAX_OUTPUT_LINES st = (Raised e, st') /\
     (e = OSError \/ e = RuntimeError "Failed to start shell with pipes")).
Proof.
  split; [|split; [|split; [|split; [|split]]]].
  - destruct (stop_shell_returns st) as (st1 & E & _).
    unfold terminate_terminal, bind. rewrite E. eexists _, _. reflexivity.
  - intros cmd timeout_sec Hb. exists empty_command. split; [|reflexivity].
    unfold execute_command. destruct cmd as [c|]; [|reflexivity].
    rewrite Hb. reflexivity.
  - intros c timeout_sec p st1 pre rest n v uid start
      Hb Hfin Hens Hin Hout Hwr Hfeed Hread Hlate.
    destruct (execute_times_out MAX_OUTPUT_CHARS MAX_OUTPUT_LINES c timeout_sec
                _ _ _ _ _ _ _ Hens Hin Hout Hwr Hfeed Hread Hlate)
      as (st2 & E & _ & _ & _ & Hclk & _).
    rewrite (ensure_shell_clock _ _ _ Hens) in Hclk.
    destruct (execute_command_reports_failure _ _ _ _ _ _ _ Hb E eq_refl Hfin Hclk)
      as (ms & Eq).
    eexists _, _. split; [exact Eq|].
    rewrite !lookup_insert_ne by discriminate. split; reflexivity.
  - intros c timeout_sec p st1 pre rest n v uid start
      Hb Hfin Hens Hin Hout Hwr Hfeed Hread Hok.
    destruct (execute_stream_closed MAX_OUTPUT_CHARS MAX_OUTPUT_LINES c
                timeout_sec _ _ _ _ _ _ _ Hens Hin Hout Hwr Hfeed Hread Hok)
      as (st2 & E & Hclk & _).
    rewrite (ensure_shell_clock _ _ _ Hens) in Hclk.
    destruct (execute_command_reports_failure _ _ _ _ _ _ _ Hb E eq_refl Hfin Hclk)
      as (ms & Eq).
    eexists _, _. split; [exact Eq|].
    rewrite !lookup_insert_ne by discriminate. split; reflexivity.
  - intros c timeout_sec Hb Hcase Hfail.
    unfold execute_command. rewrite Hb. unfold bind at 1, time_time.
    destruct (ensure_shell_spawn_fails
                (set_clock_reads (S (clock_reads st)) st) Hcase Hfail)
      as (e & st1 & Hens & He).
    exists e, st1. split; [|exact He].
    unfold bind at 1. unfold _execute, bind at 1. rewrite Hens. reflexivity.
  - intros Hfail.
    destruct (stop_shell_returns st)
      as (st1 & E & (_ & Hsp & Hpo & _) & _).
    assert (Hfail1 : spawn_fails (set_session None st1)).
    { unfold spawn_fails in *. cbn [popen spawned set_session].
      rewrite Hsp, Hpo. exact Hfail. }
    destruct (ensure_shell_spawn_fails (set_session None st1)
                (or_introl eq_refl) Hfail1) as (e & st2 & Hens & He).
    exists e, st2. split; [|exact He].
    unfold initiate_terminal, bind. rewrite E, Hens. reflexivity.
Qed.

(** * The claims at concrete inputs *)

(** C1 on an output that overruns caps of five characters and two lines. *)
Lemma C1_output_within_caps_witness :
  let st := world_with_session still_clock long_output in
  let run := _read_until_done 5 2 handle0 (cwd_marker_of uid0)
               (done_marker_of uid0) 20%float st in
  let r := done_result
             {| lines := ["ab" +:+ Py.nl]; exit_code := Some 0;
                cwd_after := Some "/root"%string; stored_chars := 3;
                stored_lines := 1; truncated := true |} in
  0 <= 5 /\ 0 <= 2 /\ run = (Returned r, snd run) /\
  exists consumed kept dropped,
    feed (procs st 0%nat) = consumed ++ feed (procs (snd run) 0%nat) /\
    ordinary (cwd_marker_of uid0) (done_marker_of uid0) consumed
      = kept ++ dropped /\
    r !! "stdout" = Some (VStr (Py.join kept)) /\
    r !! "truncated" = Some (VBool (bool_decide (dropped <> []))) /\
    Py.len (Py.join kept) <= 5 /\
    Z.of_nat (length kept) <= 2 /\
    (Forall obs_shape consumed ->
     Z.of_nat (line_count (Py.join kept)) <= 2) /\
    (5 < Py.len (Py.join (ordinary (cwd_marker_of uid0)
                            (done_marker_of uid0) consumed))
     \/ 2 < Z.of_nat (length (ordinary (cwd_marker_of uid0)
                                (done_marker_of uid0) consumed)) ->
     r !! "truncated" = Some (VBool true)).
Proof.
  intros st run r.
  assert (Hrun : run = (Returned r, snd run)) by (vm_compute; reflexivity).
  split; [lia|]. split; [lia|]. split; [exact Hrun|].
  exact (C1_output_within_caps 5 2 handle0 (cwd_marker_of uid0)
           (done_marker_of uid0) 20%float st (snd run) r
           ltac:(lia) ltac:(lia) Hrun).
Defined.

(** C6 on a shell that prints one line and closes its output. *)
Lemma C6_stream_closed_witness :
  let st := world_with_session still_clock
              [Line ("some output" +:+ Py.nl); Line ""; Line done_line] in
  let v := store_line ("some output" +:+ Py.nl) vars0 in
  exists r st',
    _read_until_done 20000 800 handle0 (cwd_marker_of uid0)
      (done_marker_of uid0) 20%float st = (Returned r, st') /\
    r !! "ok" = Some (VBool false) /\
    r !! "error" = Some (VStr "shell session ended unexpectedly") /\
    r !! "stdout" = Some (VStr (Py.join (lines v))) /\
    r !! "exit_code" = Some VNone /\
    feed (procs st' (pid handle0)) = [Line done_line].
Proof.
  intros st v.
  exact (C6_stream_closed 20000 800 handle0 (cwd_marker_of uid0)
           (done_marker_of uid0) 20%float st
           [Line ("some output" +:+ Py.nl)] [Line done_line] 2 v
           eq_refl eq_refl eq_refl eq_refl).
Defined.

(** C7 on a command of three blanks and a newline. *)
Lemma C7_blank_command_rejected_witness :
  let st := world_with_session still_clock [Line done_line] in
  all_space ("   " +:+ Py.nl) = true /\
  exists r,
    execute_command 20000 800 (Some ("   " +:+ Py.nl)) 20%float st
      = (Returned r, st) /\
    r !! "ok" = Some (VBool false).
Proof.
  intros st. split; [reflexivity|].
  exact (C7_blank_command_rejected 20000 800 (Some ("   " +:+ Py.nl)) 20%float st
           (or_intror (ex_intro _ ("   " +:+ Py.nl) (conj eq_refl eq_refl)))).
Defined.

(** C9 on a session whose process resists [terminate], [wait] and [kill]. *)
Lemma C9_terminate_always_ok_witness :
  exists st',
    terminate_terminal stubborn_world
      = (Returned (list_to_map
                     [("ok", VBool true);
                      ("message", VStr "terminal session terminated")]), st') /\
    _session st' = None /\
    (_session stubborn_world = None -> st' = stubborn_world).
Proof. exact (C9_terminate_always_ok stubborn_world). Defined.

(** C4 on a running session, on a state without session, and on the state
    [terminate_terminal] leaves. *)
Lemma C4_ensure_shell_witness :
  let out := [Line ("/root" +:+ Py.nl); Line cwd_line; Line done_line] in
  let running := world_with_session still_clock out in
  let fresh := world (PopenGives true true) still_clock out in
  let stopped := snd (terminate_terminal running) in
  _ensure_shell running = (Returned handle0, running)
  /\
  (exists p st',
      _ensure_shell fresh = (Returned p, st') /\
      (spawned fresh <= pid p < spawned st')%nat /\
      stdin p = true /\ stdout p = true /\
      _session st' = Some {| proc := p |})
  /\
  (exists r st',
      _execute 20000 800 "pwd" 20%float stopped = (Returned r, st') /\
      r !! "ok" = Some (VBool true) /\
      r !! "stdout"
        = Some (VStr (Py.join (lines (with_cwd_after (Some "/root"%string)
                                        (store_line ("/root" +:+ Py.nl) vars0))))) /\
      _session st' = Some {| proc := new_handle stopped |}).
Proof.
  intros out running fresh stopped.
  assert (Hspawn : forall k, (spawned stopped <= k)%nat -> spawn_ok stopped k).
  { intros k _. split; [reflexivity|]. destruct k; reflexivity. }
  split; [|split].
  - exact (proj1 (C4_ensure_shell 20000 800 running)
             {| proc := handle0 |} eq_refl eq_refl).
  - exact (proj1 (proj2 (C4_ensure_shell 20000 800 fresh))
             (or_introl eq_refl) (fun k _ => conj eq_refl eq_refl)).
  - exact (proj2 (proj2 (C4_ensure_shell 20000 800 running))
             (fst (match fst (terminate_terminal running) with
                   | Returned r0 => (r0, tt)
                   | _ => (empty_command, tt)
                   end))
             stopped "pwd"%string 20%float
             [Line ("/root" +:+ Py.nl); Line cwd_line] done_line [] 3%nat
             (with_cwd_after (Some "/root"%string)
                (store_line ("/root" +:+ Py.nl) vars0))
             eq_refl Hspawn eq_refl eq_refl eq_refl eq_refl eq_refl).
Defined.

(** C3, the claim as stated fails: when [Popen] raises (no shell at the
    path the server is configured with, say), [execute_command] raises the
    [OSError] instead of returning a dictionary. *)
Lemma C3_spawn_failure_propagates :
  fst (execute_command 20000 800 (Some "ls"%string) 20%float
         (world PopenRaises still_clock []))
  = Raised OSError.
Proof. vm_compute. reflexivity. Qed.

Lemma still_clock_finite out : clock_finite (world_with_session still_clock out).
Proof. intros a b. vm_compute. discriminate. Qed.

Lemma jump_after_finite k out :
  clock_finite (world_with_session (jump_after k) out).
Proof.
  intros a b. cbn [clock world_with_session]. unfold jump_after.
  destruct (a <=? k)%nat, (b <=? k)%nat; vm_compute; discriminate.
Qed.

(** C3 as amended: with a [Popen] that raises; on a command that prints one
    line and then nothing for a hundred seconds; on a shell that prints one
    line and closes its output. *)
Lemma C3_failures_at_the_boundary_witness :
  let down := world PopenRaises still_clock [] in
  let slow := world_with_session (jump_after 3)
                [Line ("partial" +:+ Py.nl); NotReady; NotReady] in
  let closed := world_with_session still_clock
                  [Line ("bye" +:+ Py.nl); Line ""; Line done_line] in
  (exists e st',
      execute_command 20000 800 (Some "ls"%string) 20%float down
        = (Raised e, st') /\
      (e = OSError \/ e = RuntimeError "Failed to start shell with pipes"))
  /\
  (exists e st',
      initiate_terminal 20000 800 down = (Raised e, st') /\
      (e = OSError \/ e = RuntimeError "Failed to start shell with pipes"))
  /\
  (exists r,
      execute_command 20000 800 None 20%float down = (Returned r, down) /\
      r !! "ok" = Some (VBool false))
  /\
  (exists r st',
      execute_command 20000 800 (Some "sleep 60"%string) 20%float slow
        = (Returned r, st') /\
      r !! "ok" = Some (VBool false) /\
      r !! "error" = Some (VStr "timeout after 20.0s"))
  /\
  (exists r st',
      execute_command 20000 800 (Some "exit 3"%string) 20%float closed
        = (Returned r, st') /\
      r !! "ok" = Some (VBool false) /\
      r !! "error" = Some (VStr "shell session ended unexpectedly")).
Proof.
  intros down slow closed.
  pose proof (C3_failures_at_the_boundary 20000 800 down)
    as (_ & Hblank & _ & _ & Hexec & Hinit).
  pose proof (C3_failures_at_the_boundary 20000 800 slow)
    as (_ & _ & Hslow & _).
  pose proof (C3_failures_at_the_boundary 20000 800 closed)
    as (_ & _ & _ & Hclosed & _).
  split; [|split; [|split; [|split]]].
  - exact (Hexec "ls"%string 20%float eq_refl (or_introl eq_refl)
             (or_introl eq_refl)).
  - exact (Hinit (or_introl eq_refl)).
  - exact (Hblank None 20%float eq_refl).
  - exact (Hslow "sleep 60"%string 20%float handle0
             (set_clock_reads 1 slow)
             [Line ("partial" +:+ Py.nl); NotReady] [NotReady] 4%nat
             (store_line ("partial" +:+ Py.nl) vars0)
             eq_refl (jump_after_finite 3 _) eq_refl eq_refl eq_refl eq_refl
             eq_refl eq_refl eq_refl).
  - exact (Hclosed "exit 3"%string 20%float handle0
             (set_clock_reads 1 closed)
             [Line ("bye" +:+ Py.nl)] [Line done_line] 3%nat
             (store_line ("bye" +:+ Py.nl) vars0)
             eq_refl (still_clock_finite _) eq_refl eq_refl eq_refl eq_refl
             eq_refl eq_refl eq_refl).
Defined.

(** C8, the claim as stated fails: the dictionary returned for a blank
    command has no [truncated], no [cmd] and no [duration_ms]. *)
Lemma C8_blank_result_lacks_fields :
  exists r st',
    execute_command 20000 800 (Some "   "%string) 20%float
      (world_with_session still_clock []) = (Returned r, st') /\
    r !! "ok" = Some (VBool false) /\
    r !! "truncated" = None /\
    r !! "cmd" = None /\
    r !! "duration_ms" = None.
Proof.
  exists empty_command, (world_with_session still_clock []).
  repeat split; reflexivity.
Qed.

(** C8 as amended, on a [cd] that prints nothing. *)
Lemma C8_result_fields_witness :
  let st := world_with_session still_clock [Line cwd_line; Line done_line] in
  let run := execute_command 20000 800 (Some "cd /root"%string) 20%float st in
  let r : gmap string value :=
    list_to_map
      [("ok", VBool true); ("stdout", VStr ("(ok)" +:+ Py.nl));
       ("exit_code", VInt 0); ("cwd_after", VStr "/root");
       ("truncated", VBool false); ("cmd", VStr "cd /root");
       ("duration_ms", VInt 0)] in
  run = (Returned r, snd run) /\
  common_fields r /\
  (forall c, Some "cd /root"%string = Some c -> all_space c = false ->
             execution_fields c r).
Proof.
  intros st run r.
  assert (Hrun : run = (Returned r, snd run)) by (vm_compute; reflexivity).
  split; [exact Hrun|].
  exact (C8_result_fields 20000 800 (Some "cd /root"%string) 20%float st
           (snd run) r Hrun).
Defined.

(** C10 on a shell that prints nothing before the diagnostic times out. *)
Lemma C10_initiate_reports_ok_witness :
  let st := world (PopenGives true true) (jump_after 0) [] in
  let run := initiate_terminal 20000 800 st in
  let r : gmap string value :=
    list_to_map
      [("ok", VBool true);
       ("message", VStr "terminal session initiated");
       ("cwd", VNone)] in
  run = (Returned r, snd run) /\
  r !! "ok" = Some (VBool true) /\
  r !! "message" = Some (VStr "terminal session initiated") /\
  is_Some (r !! "cwd").
Proof.
  intros st run r.
  assert (Hrun : run = (Returned r, snd run)) by (vm_compute; reflexivity).
  split; [exact Hrun|].
  exact (proj1 (C10_initiate_reports_ok 20000 800 st) r (snd run) Hrun).
Defined.

(** C5, the cwd marker half fails: a line that starts with the cwd marker
    and has no colon makes [line.split(":", 1)[1]] raise [IndexError], which
    nothing catches, so [execute_command] raises instead of storing a
    working directory. The done marker half holds: see [done_line_breaks]. *)
Theorem C5_cwd_line_without_colon_raises :
  fst (execute_command 20000 800 (Some "read a; read b; echo ${b:8:44}"%string)
         20%float (world_with_session still_clock [Line bare_cwd_line]))
  = Raised IndexError.
Proof. vm_compute. reflexivity. Qed.

(** * Further properties *)

(** ** More on strings *)

Lemma rstrip_with_snoc drop s c :
  drop c = true ->
  Py.rstrip_with drop (s +:+ String c "") = Py.rstrip_with drop s.
Proof.
  intros Hc. induction s as [|a s IH].
  - rewrite append_empty_l. simpl. now rewrite Hc.
  - rewrite append_cons. simpl. now rewrite IH.
Qed.

Lemma all_space_append a b : all_space (a +:+ b) = all_space a && all_space b.
Proof.
  induction a as [|c a IH]; [reflexivity|].
  rewrite append_cons. simpl. rewrite IH. now rewrite andb_assoc.
Qed.

Lemma lstrip_append s t :
  all_space s = false -> Py.lstrip (s +:+ t) = Py.lstrip s +:+ t.
Proof.
  induction s as [|c s IH]; [discriminate|].
  rewrite append_cons. simpl. destruct (Py.isspace c); [exact IH | reflexivity].
Qed.

(** A final newline does not change what [strip] gives. *)
Lemma strip_append_nl s : Py.strip (s +:+ Py.nl) = Py.strip s.
Proof.
  destruct (all_space s) eqn:Hs.
  - assert (H1 : all_space (s +:+ Py.nl) = true)
      by (rewrite all_space_append, Hs; reflexivity).
    apply strip_empty in H1. apply strip_empty in Hs. congruence.
  - unfold Py.strip, Py.rstrip. rewrite (lstrip_append _ _ Hs).
    apply rstrip_with_snoc. reflexivity.
Qed.

Lemma rstrip_no_space s : no_space s = true -> Py.rstrip s = s.
Proof.
  unfold Py.rstrip. induction s as [|c s IH]; [reflexivity|].
  simpl. intros H. apply andb_prop in H as [Hc Hs]. rewrite (IH Hs).
  destruct s; [|reflexivity]. apply negb_true_iff in Hc. now rewrite Hc.
Qed.

Lemma strip_no_space s : no_space s = true -> Py.strip s = s.
Proof.
  intros H. unfold Py.strip.
  assert (Hl : Py.lstrip s = s).
  { destruct s as [|c s]; [reflexivity|]. simpl in *.
    apply andb_prop in H as [Hc _]. apply negb_true_iff in Hc. now rewrite Hc. }
  rewrite Hl. now apply rstrip_no_space.
Qed.

Lemma startswith_append p t : Py.startswith (p +:+ t) p = true.
Proof.
  unfold Py.startswith. induction p as [|c p IH].
  { rewrite append_empty_l. destruct t; reflexivity. }
  rewrite append_cons. cbn [String.prefix].
  destruct (ascii_dec c c) as [_|Hne]; [exact IH | congruence].
Qed.

Lemma no_colon_append a b : no_colon (a +:+ b) = no_colon a && no_colon b.
Proof.
  induction a as [|c a IH]; [reflexivity|].
  rewrite append_cons. simpl. rewrite IH. now rewrite andb_assoc.
Qed.

(** [(m + ":" + t).split(":", 1)[1]] is [t] when [m] has no colon. *)
Lemma split_colon_after m t :
  no_colon m = true -> Py.split_colon (m +:+ ":" +:+ t) !! 1%nat = Some t.
Proof.
  induction m as [|c m IH]; intros H.
  - reflexivity.
  - rewrite append_cons. simpl in *. apply andb_prop in H as [Hc Hm].
    apply negb_true_iff in Hc. rewrite Hc. specialize (IH Hm).
    destruct (Py.split_colon (m +:+ ":" +:+ t)) as [|h tl]; [discriminate|].
    exact IH.
Qed.

Lemma no_colon_markers uid :
  no_colon uid = true ->
  no_colon (cwd_marker_of uid) = true /\ no_colon (done_marker_of uid) = true.
Proof.
  intros H. unfold cwd_marker_of, done_marker_of.
  rewrite !no_colon_append, H. split; reflexivity.
Qed.

(** ** Decimal digits and [int] *)

Lemma int_digits_of_uint_acc d : forall acc,
  Py.int_digits Py.AfterDigit (Z.pos acc) (NilEmpty.string_of_uint d)
  = Some (Z.pos (Pos.of_uint_acc d acc)).
Proof.
  induction d as [|d IH|d IH|d IH|d IH|d IH|d IH|d IH|d IH|d IH|d IH];
    intros acc; [reflexivity|..];
    cbn [NilEmpty.string_of_uint Py.int_digits Pos.of_uint_acc];
    match goal with
    | |- context [Py.digit_of ?c] =>
        let v := eval vm_compute in (Py.digit_of c) in
        change (Py.digit_of c) with v
    end;
    cbv iota beta; rewrite <- IH; f_equal.
    all: lia.
Qed.

Lemma int_digits_of_uint d st :
  d <> Decimal.Nil \/ st = Py.AfterDigit ->
  Py.int_digits st 0 (NilEmpty.string_of_uint d) = Some (Z.of_N (Pos.of_uint d)).
Proof.
  revert st.
  induction d as [|d IH|d IH|d IH|d IH|d IH|d IH|d IH|d IH|d IH|d IH];
    intros st H.
  - destruct H as [H| ->]; [congruence | reflexivity].
  - cbn [NilEmpty.string_of_uint Py.int_digits Pos.of_uint].
    change (Py.digit_of "0") with (Some 0). cbv iota beta.
    apply IH. now right.
  - apply (int_digits_of_uint_acc d 1).
  - apply (int_digits_of_uint_acc d 2).
  - apply (int_digits_of_uint_acc d 3).
  - apply (int_digits_of_uint_acc d 4).
  - apply (int_digits_of_uint_acc d 5).
  - apply (int_digits_of_uint_acc d 6).
  - apply (int_digits_of_uint_acc d 7).
  - apply (int_digits_of_uint_acc d 8).
  - apply (int_digits_of_uint_acc d 9).
Qed.

Lemma no_space_digits d : no_space (NilEmpty.string_of_uint d) = true.
Proof. induction d; simpl; auto. Qed.

Lemma N_to_uint_nonnil n : N.to_uint n <> Decimal.Nil.
Proof.
  destruct n as [|p]; [discriminate|]. apply DecimalPos.Unsigned.to_uint_nonnil.
Qed.

Lemma Zdigits_unfold z :
  PyFloat.Zdigits z = NilEmpty.string_of_uint (N.to_uint (Z.to_N z)).
Proof.
  unfold PyFloat.Zdigits, NilZero.string_of_uint.
  pose proof (N_to_uint_nonnil (Z.to_N z)) as H.
  destruct (N.to_uint (Z.to_N z)); [congruence|reflexivity..].
Qed.

Lemma digit_count_digits d :
  Py.digit_count (NilEmpty.string_of_uint d)
  = String.length (NilEmpty.string_of_uint d).
Proof.
  induction d; [reflexivity|..];
    cbn [NilEmpty.string_of_uint Py.digit_count String.length];
    match goal with
    | |- context [Py.digit_of ?c] =>
        let v := eval vm_compute in (Py.digit_of c) in
        change (Py.digit_of c) with v
    end;
    cbv iota beta; now f_equal.
Qed.

(** [int] reads back the decimal digits of a number that is not negative,
    with or without a newline after them, unless there are more of them
    than the interpreter accepts. *)
Lemma int_of_str_Zdigits z :
  0 <= z ->
  Py.int_of_str (Py.strip (PyFloat.Zdigits z +:+ Py.nl))
  = if Py.len (PyFloat.Zdigits z) <=? Py.int_max_str_digits
    then Some z else None.
Proof.
  intros Hz. rewrite strip_append_nl, Zdigits_unfold.
  set (d := N.to_uint (Z.to_N z)).
  assert (Hd : d <> Decimal.Nil) by apply N_to_uint_nonnil.
  rewrite (strip_no_space _ (no_space_digits d)).
  unfold Py.int_of_str. rewrite (strip_no_space _ (no_space_digits d)).
  assert (Hval : Py.int_digits Py.AtStart 0 (NilEmpty.string_of_uint d) = Some z).
  { rewrite (int_digits_of_uint d Py.AtStart (or_introl Hd)).
    change (Pos.of_uint d) with (N.of_uint d). unfold d.
    rewrite DecimalN.Unsigned.of_to. f_equal. lia. }
  assert (Hlit : Py.int_literal (NilEmpty.string_of_uint d)
                 = if Py.len (NilEmpty.string_of_uint d) <=? Py.int_max_str_digits
                   then Some z else None).
  { unfold Py.int_literal, Py.len. rewrite digit_count_digits, Hval. reflexivity. }
  destruct d; [congruence|exact Hlit..].
Qed.

(** ** Reading what the shell prints *)

Lemma on_line_ordinary mc ml cm dm v l :
  is_ordinary cm dm l = true ->
  on_line mc ml cm dm v l
  = Continue (if fits mc ml v l then store_line l v else set_truncated v).
Proof.
  unfold is_ordinary, on_line, fits. intros H.
  apply andb_prop in H as [H Hdone]. apply andb_prop in H as [Hne Hcwd].
  apply negb_true_iff in Hne, Hcwd, Hdone. rewrite Hne, Hcwd, Hdone.
  destruct (negb (truncated v) && (stored_lines v <? ml)
            && (stored_chars v + Py.len l <=? mc)); reflexivity.
Qed.

Lemma still_reading_app mc ml cm dm t start clk a : forall b k v,
  still_reading mc ml cm dm t start clk k (a ++ b) v
  = match still_reading mc ml cm dm t start clk k a v with
    | Some (k', v') => still_reading mc ml cm dm t start clk k' b v'
    | None => None
    end.
Proof.
  induction a as [|o a IH]; intros b k v; [reflexivity|].
  rewrite <- app_comm_cons. simpl.
  destruct (PyFloat.exceeds (clk k) start t); [reflexivity|].
  destruct o as [|l| |]; [apply IH| |reflexivity..].
  destruct (on_line mc ml cm dm v l); try reflexivity. apply IH.
Qed.

Lemma store_all_fields out : forall v,
  lines (store_all out v) = lines v ++ out /\
  exit_code (store_all out v) = exit_code v /\
  cwd_after (store_all out v) = cwd_after v /\
  stored_chars (store_all out v) = stored_chars v + Py.len (Py.join out) /\
  stored_lines (store_all out v) = stored_lines v + Z.of_nat (length out) /\
  truncated (store_all out v) = truncated v.
Proof.
  induction out as [|l out IH]; intros v.
  - change (store_all [] v) with v. change (Py.len (Py.join [])) with 0.
    rewrite app_nil_r. simpl. repeat split; try reflexivity; lia.
  - change (store_all (l :: out) v) with (store_all out (store_line l v)).
    destruct (IH (store_line l v)) as (H1 & H2 & H3 & H4 & H5 & H6).
    rewrite H1, H2, H3, H4, H5, H6. cbn [store_line lines exit_code cwd_after
      stored_chars stored_lines truncated].
    rewrite <- app_assoc, join_cons, len_append, length_cons, Nat2Z.inj_succ.
    repeat split; try reflexivity; lia.
Qed.

(** Ordinary lines that fit under the caps are all stored. *)
Lemma still_reading_ordinary mc ml cm dm t start clk pre : forall k v,
  Forall (ordinary_obs cm dm) pre ->
  truncated v = false ->
  stored_lines v + Z.of_nat (length (ordinary cm dm pre)) <= ml ->
  stored_chars v + Py.len (Py.join (ordinary cm dm pre)) <= mc ->
  (forall j, (j < length pre)%nat ->
             PyFloat.exceeds (clk (k + j)%nat) start t = false) ->
  still_reading mc ml cm dm t start clk k pre v
  = Some ((k + length pre)%nat, store_all (ordinary cm dm pre) v).
Proof.
  induction pre as [|o pre IH]; intros k v Hall Htr Hl Hc Hclk.
  - simpl. rewrite Nat.add_0_r. reflexivity.
  - inversion_clear Hall as [|? ? Ho Hall'].
    assert (H0 : PyFloat.exceeds (clk k) start t = false).
    { rewrite <- (Nat.add_0_r k). apply Hclk. simpl. lia. }
    assert (Hnext : forall j, (j < length pre)%nat ->
                      PyFloat.exceeds (clk (S k + j)%nat) start t = false).
    { intros j Hj. replace (S k + j)%nat with (k + S j)%nat by lia.
      apply Hclk. simpl. lia. }
    cbn [still_reading]. rewrite H0.
    replace (k + length (o :: pre))%nat with (S k + length pre)%nat
      by (simpl; lia).
    destruct o as [|l| |]; [| |destruct Ho..].
    + apply IH; assumption.
    + simpl in Ho. rewrite (on_line_ordinary _ _ _ _ _ _ Ho).
      cbn [ordinary] in Hl, Hc |- *. rewrite Ho in Hl, Hc |- *.
      rewrite join_cons, len_append in Hc. cbn [length] in Hl.
      pose proof (len_nonneg (Py.join (ordinary cm dm pre))) as Hpos.
      pose proof (len_nonneg l) as Hposl.
      assert (Hfit : fits mc ml v l = true).
      { unfold fits. rewrite Htr. cbn [negb andb].
        apply andb_true_intro. split; [apply Z.ltb_lt | apply Z.leb_le]; lia. }
      rewrite Hfit.
      change (store_all (l :: ordinary cm dm pre) v)
        with (store_all (ordinary cm dm pre) (store_line l v)).
      apply IH; try assumption; simpl; lia.
Qed.

Lemma execute_reads_to_done mc ml cmd t st st1 p pre rest line n v :
  let uid := uuids st1 (uuid_reads st1) in
  let start := clock st1 (clock_reads st1) in
  _ensure_shell st = (Returned p, st1) ->
  stdin p = true -> stdout p = true ->
  write_raises (procs st1 (pid p)) = false ->
  feed (procs st1 (pid p)) = pre ++ Line line :: rest ->
  still_reading mc ml (cwd_marker_of uid) (done_marker_of uid) t start
    (clock st1) (S (clock_reads st1)) pre vars0 = Some (n, v) ->
  PyFloat.exceeds (clock st1 n) start t = false ->
  Py.startswith line (done_marker_of uid) = true ->
  exists st',
    _execute mc ml cmd t st
    = (Returned
         (done_result
            (with_exit_code
               (match Py.split_colon line !! 1%nat with
                | Some c => Py.int_of_str (Py.strip c)
                | None => None
                end) v)), st') /\
    feed (procs st' (pid p)) = rest.
Proof.
  intros uid start Hens Hin Hout Hwr Hfeed Hread Hok Hdone.
  destruct (markers_apart _ _ Hdone) as [Hne Hcwd].
  rewrite (execute_after_ensure _ _ _ _ _ _ _ Hens Hin Hwr).
  erewrite read_until_done_split; [|exact Hout| |].
  2:{ cbn [procs set_proc set_procs set_uuid_reads]. rewrite fn_lookup_insert.
      cbn [feed with_received]. exact Hfeed. }
  2:{ exact Hread. }
  cbn [clock clock_reads set_proc set_procs set_uuid_reads].
  fold uid start. rewrite read_loop_line by exact Hok.
  rewrite (done_line_breaks _ _ _ _ _ _ Hne Hcwd Hdone).
  eexists. split; [reflexivity|]. apply feed_after_read.
Qed.

(** X1. The protocol gives back what the shell printed. When the shell
    answers with ordinary lines that fit under both caps, then the cwd
    report for [dir] and the done report for the exit status [status], and
    no clock check fires meanwhile, [_execute] returns [ok] true with the
    ordinary lines joined, that exit status, that directory and [truncated]
    false, and leaves what follows the done report unread. The exit status
    comes back as long as it is written with no more digits than [int]
    accepts (4300); beyond, the exit code is [None]. The directory comes
    back without the white space at its ends, so unchanged when it has
    none; a colon in it does no harm. The identifier has no colon (it is
    made of hexadecimal digits). *)
Theorem X1_protocol_round_trip
    (MAX_OUTPUT_CHARS MAX_OUTPUT_LINES : Z) (cmd : string) (timeout_sec : float)
    (st st1 : State) (p : Popen) (pre rest : list Obs)
    (dir : string) (status : Z) :
  let uid := uuids st1 (uuid_reads st1) in
  let start := clock st1 (clock_reads st1) in
  let out := ordinary (cwd_marker_of uid) (done_marker_of uid) pre in
  _ensure_shell st = (Returned p, st1) ->
  stdin p = true -> stdout p = true ->
  write_raises (procs st1 (pid p)) = false ->
  no_colon uid = true ->
  feed (procs st1 (pid p))
    = pre ++ Line (cwd_report uid dir) :: Line (done_report uid status) :: rest ->
  Forall (ordinary_obs (cwd_marker_of uid) (done_marker_of uid)) pre ->
  Py.len (Py.join out) <= MAX_OUTPUT_CHARS ->
  Z.of_nat (length out) <= MAX_OUTPUT_LINES ->
  (forall j, (j < length pre + 2)%nat ->
     PyFloat.exceeds (clock st1 (S (clock_reads st1) + j)%nat) start timeout_sec
     = false) ->
  0 <= status ->
  exists r st',
    _execute MAX_OUTPUT_CHARS MAX_OUTPUT_LINES cmd timeout_sec st
      = (Returned r, st') /\
    r !! "ok" = Some (VBool true) /\
    r !! "error" = None /\
    r !! "stdout" = Some (VStr (Py.join out)) /\
    r !! "exit_code"
      = Some (if Py.len (PyFloat.Zdigits status) <=? Py.int_max_str_digits
              then VInt status else VNone) /\
    r !! "cwd_after" = Some (VStr (Py.strip dir)) /\
    r !! "truncated" = Some (VBool false) /\
    feed (procs st' (pid p)) = rest.
Proof.
  intros uid start out Hens Hin Hout Hwr Huid Hfeed Hord Hc Hl Hclk Hst.
  destruct (no_colon_markers uid Huid) as [Hcm Hdm].
  set (cm := cwd_marker_of uid) in *. set (dm := done_marker_of uid) in *.
  set (k0 := S (clock_reads st1)).
  change (stored_lines vars0 + Z.of_nat (length out) <= MAX_OUTPUT_LINES) in Hl.
  change (stored_chars vars0 + Py.len (Py.join out) <= MAX_OUTPUT_CHARS) in Hc.
  assert (H1 : still_reading MAX_OUTPUT_CHARS MAX_OUTPUT_LINES cm dm timeout_sec
                 start (clock st1) k0 pre vars0
               = Some ((k0 + length pre)%nat, store_all out vars0)).
  { apply still_reading_ordinary; try assumption; try reflexivity.
    intros j Hj. apply Hclk. lia. }
  assert (Hcwd : on_line MAX_OUTPUT_CHARS MAX_OUTPUT_LINES cm dm
                   (store_all out vars0) (cwd_report uid dir)
                 = Continue (with_cwd_after (Some (Py.strip dir))
                               (store_all out vars0))).
  { unfold cwd_report. fold cm.
    rewrite (cwd_line_with_colon _ _ _ _ _ _ (dir +:+ Py.nl)).
    - rewrite strip_append_nl. reflexivity.
    - unfold cm, cwd_marker_of. rewrite !append_cons. discriminate.
    - apply startswith_append.
    - apply split_colon_after. exact Hcm. }
  assert (H2 : still_reading MAX_OUTPUT_CHARS MAX_OUTPUT_LINES cm dm timeout_sec
                 start (clock st1) k0 (pre ++ [Line (cwd_report uid dir)]) vars0
               = Some (S (k0 + length pre),
                       with_cwd_after (Some (Py.strip dir))
                         (store_all out vars0))).
  { assert (Hk : PyFloat.exceeds (clock st1 (k0 + length pre)%nat) start
                     timeout_sec = false) by (apply Hclk; lia).
    rewrite still_reading_app, H1. cbn [still_reading].
    rewrite Hk, Hcwd. reflexivity. }
  assert (Hfeed' : feed (procs st1 (pid p))
                   = (pre ++ [Line (cwd_report uid dir)])
                     ++ Line (done_report uid status) :: rest).
  { rewrite Hfeed, <- app_assoc. reflexivity. }
  destruct (execute_reads_to_done MAX_OUTPUT_CHARS MAX_OUTPUT_LINES cmd
              timeout_sec st st1 p _ rest _ _ _
              Hens Hin Hout Hwr Hfeed' H2) as (st' & E & Hrest).
  - replace (S (k0 + length pre)) with (k0 + S (length pre))%nat by lia.
    apply Hclk. lia.
  - unfold done_report. apply startswith_append.
  - destruct (store_all_fields out vars0) as (F1 & F2 & F3 & F4 & F5 & F6).
    unfold done_report in E. fold dm in E.
    rewrite (split_colon_after dm _ Hdm) in E.
    rewrite (int_of_str_Zdigits status Hst) in E.
    eexists _, st'. split; [exact E|].
    split; [reflexivity|]. split; [reflexivity|].
    split; [cbn; rewrite F1; reflexivity|].
    split; [|split; [reflexivity|]].
    { destruct (Py.len (PyFloat.Zdigits status) <=? Py.int_max_str_digits);
        reflexivity. }
    split; [cbn; rewrite F6; reflexivity | exact Hrest].
Qed.

(** ** Markers of another execution *)

Lemma prefix_same_length a : forall b x y,
  String.length a = String.length b ->
  String.prefix (a +:+ x) (b +:+ y) = true -> a = b.
Proof.
  induction a as [|c a IH]; intros [|d b] x y Hlen; try discriminate.
  - reflexivity.
  - rewrite !append_cons. cbn [String.prefix].
    destruct (ascii_dec c d) as [->|]; [|discriminate].
    intros H. f_equal. apply (IH b x y); [|exact H]. simpl in Hlen. lia.
Qed.

Lemma other_uid_not_marker uid uid' rest :
  String.length uid = String.length uid' -> uid <> uid' ->
  is_ordinary (cwd_marker_of uid) (done_marker_of uid)
    (done_marker_of uid' +:+ rest) = true /\
  is_ordinary (cwd_marker_of uid) (done_marker_of uid)
    (cwd_marker_of uid' +:+ rest) = true.
Proof.
  intros Hlen Hne.
  assert (Hsame : forall x y, String.prefix (uid +:+ x) (uid' +:+ y) = false).
  { intros x y. destruct (String.prefix (uid +:+ x) (uid' +:+ y)) eqn:E;
      [|reflexivity]. apply prefix_same_length in E; [congruence | exact Hlen]. }
  unfold is_ordinary, Py.startswith, cwd_marker_of, done_marker_of.
  rewrite !append_assoc, !append_cons, !append_empty_l.
  cbn [String.eqb String.prefix negb andb].
  repeat match goal with
         | |- context [ascii_dec ?a ?b] =>
             let r := eval vm_compute in (ascii_dec a b) in
             change (ascii_dec a b) with r; cbv iota
         end.
  rewrite !Hsame. split; reflexivity.
Qed.

(** X2. A line that starts with a marker of another execution (another
    identifier of the same length) is ordinary output for this one: it does
    not end the loop and does not set the working directory; it is stored
    when it fits under the caps and dropped otherwise. *)
Theorem X2_stale_marker_is_output
    (MAX_OUTPUT_CHARS MAX_OUTPUT_LINES : Z) (uid uid' rest : string) (v : Vars) :
  String.length uid = String.length uid' -> uid <> uid' ->
  forall line,
    line = done_marker_of uid' +:+ rest \/ line = cwd_marker_of uid' +:+ rest ->
    on_line MAX_OUTPUT_CHARS MAX_OUTPUT_LINES
      (cwd_marker_of uid) (done_marker_of uid) v line
    = Continue (if fits MAX_OUTPUT_CHARS MAX_OUTPUT_LINES v line
                then store_line line v else set_truncated v).
Proof.
  intros Hlen Hne line Hline.
  destruct (other_uid_not_marker uid uid' rest Hlen Hne) as [Hd Hc].
  apply on_line_ordinary. destruct Hline as [-> | ->]; assumption.
Qed.

(** ** What the calls leave alone, continued *)

Lemma read_loop_raises mc ml cm dm t start clk obs : forall n v e n' rest,
  read_loop mc ml cm dm t start clk n obs v = (Raised e, n', rest) ->
  e = IndexError \/ e = UnicodeDecodeError.
Proof.
  induction obs as [|ob obs IH]; intros n v e n' rest; simpl.
  - destruct (PyFloat.exceeds (clk n) start t); discriminate.
  - destruct (PyFloat.exceeds (clk n) start t); [discriminate|].
    destruct ob as [|line| |]; [apply IH| | |discriminate].
    + destruct (on_line mc ml cm dm v line) as [v'|v'|r0|e0] eqn:Hstep;
        try discriminate.
      * apply IH.
      * intros [= <- _ _]. left.
        now apply on_line_Raise in Hstep as (_ & _ & _ & ->).
    + intros [= <- _ _]. now right.
Qed.

Lemma read_until_done_post mc ml p cm dm t st o st' :
  _read_until_done mc ml p cm dm t st = (o, st') ->
  io_frame st st' /\ _session st' = _session st /\
  spawned st' = spawned st /\
  match o with
  | Raised e =>
      e = IndexError \/ e = UnicodeDecodeError \/
      (e = AssertionError /\ stdout p = false)
  | _ => True
  end.
Proof.
  destruct (stdout p) eqn:Hout.
  - rewrite read_until_done_unfold by exact Hout. cbv zeta.
    destruct (read_loop _ _ _ _ _ _ _ _ _ _) as [[o1 n] rest] eqn:Hloop.
    intros [= <- <-].
    split.
    { apply io_frame_trans with (set_clock_reads (S (clock_reads st)) st);
        [now apply io_frame_fields|].
      apply io_frame_trans
        with (set_proc (pid p) (with_feed rest (procs st (pid p)))
                (set_clock_reads (S (clock_reads st)) st));
        [apply io_frame_set_proc; reflexivity|].
      now apply io_frame_fields. }
    split; [reflexivity|]. split; [reflexivity|].
    destruct o1 as [r|e| |]; [exact I| |exact I..].
    destruct (read_loop_raises _ _ _ _ _ _ _ _ _ _ _ _ _ Hloop) as [->| ->];
      [now left | right; now left].
  - unfold _read_until_done, bind, assert. rewrite Hout.
    intros [= <- <-].
    split; [apply io_frame_refl|]. split; [reflexivity|].
    split; [reflexivity|]. right. right. split; reflexivity.
Qed.

Lemma session_ok_frame st st' :
  _session st' = _session st -> (spawned st <= spawned st')%nat ->
  session_ok st -> session_ok st'.
Proof.
  intros Hs Hsp Hok s Hs'. rewrite Hs in Hs'.
  destruct (Hok s Hs') as (? & ? & ?). repeat split; try assumption. lia.
Qed.

Lemma execute_post mc ml cmd t st o st' :
  _execute mc ml cmd t st = (o, st') ->
  io_frame st st' /\
  (spawned st <= spawned st' <= spawned st + 2)%nat /\
  (session_ok st -> session_ok st') /\
  (is_Some (_session st) -> is_Some (_session st')) /\
  (session_ok st ->
   match o with Raised e => execute_error e | _ => True end) /\
  match o with
  | Returned _ =>
      exists p st1, _ensure_shell st = (Returned p, st1) /\
                    _session st' = Some {| proc := p |} /\
                    spawned st' = spawned st1
  | _ => True
  end.
Proof.
  unfold _execute, bind.
  destruct (_ensure_shell st) as [[p|e| |] st1] eqn:E;
    destruct (ensure_shell_post _ _ _ E) as (F & Hsp & Hok & Hsome & Ho).
  2:{ intros [= <- <-]. split; [exact F|]. split; [lia|].
      split; [exact Hok|]. split; [exact Hsome|].
      split; [intros _; now left | exact I]. }
  2:{ destruct Ho. }
  2:{ destruct Ho. }
  destruct Ho as [Hsess Hcase].
  assert (Hpipes : session_ok st -> stdin p = true /\ stdout p = true).
  { intros Hst. destruct Hcase as [[Hold _]|(Hi & Ho & _)]; [|now split].
    destruct (Hst _ Hold) as (Hi & Ho & _). now split. }
  unfold assert. destruct (stdin p) eqn:Hin.
  2:{ intros [= <- <-]. split; [exact F|]. split; [lia|].
      split; [exact Hok|]. split; [exact Hsome|].
      split; [|exact I]. intros Hst. destruct (Hpipes Hst). discriminate. }
  unfold ret, uuid4_hex, stdin_write_flush. cbn [procs set_uuid_reads].
  destruct (write_raises (procs st1 (pid p))) eqn:Hwr.
  { intros [= <- <-].
    split; [eapply io_frame_trans; [exact F | now apply io_frame_fields]|].
    cbn [spawned set_uuid_reads _session]. split; [lia|].
    split; [intros Hst; apply (session_ok_frame st1); [reflexivity|cbn; lia|auto]|].
    split; [exact Hsome|]. split; [|exact I].
    intros _. left. right. now right. }
  intros H. destruct (read_until_done_post _ _ _ _ _ _ _ _ _ H)
    as (F2 & Hsess2 & Hsp2 & Ho2).
  cbn [_session spawned set_proc set_procs set_uuid_reads] in Hsess2, Hsp2.
  assert (F1 : io_frame st1
                 (set_proc (pid p)
                    (with_received
                       (received (procs st1 (pid p)) ++
                        [payload_of cmd
                           (cwd_marker_of (uuids st1 (uuid_reads st1)))
                           (done_marker_of (uuids st1 (uuid_reads st1)))])
                       (procs st1 (pid p)))
                    (set_uuid_reads (S (uuid_reads st1)) st1))).
  { apply io_frame_trans with (set_uuid_reads (S (uuid_reads st1)) st1);
      [now apply io_frame_fields|].
    apply io_frame_set_proc; reflexivity. }
  split; [eapply io_frame_trans; [exact F|];
          eapply io_frame_trans; [exact F1 | exact F2]|].
  split; [lia|].
  split; [intros Hst; apply (session_ok_frame st1); [congruence|lia|auto]|].
  split; [intros Hst; rewrite Hsess2; auto|].
  split.
  - intros Hst. destruct o as [r|e| |]; [exact I| |exact I..].
    destruct Ho2 as [->|[->|[-> Hno]]];
      [right; now left | right; now right|].
    destruct (Hpipes Hst). congruence.
  - destruct o as [r|e| |]; [|exact I..].
    exists p, st1. split; [reflexivity|]. split; [congruence | exact Hsp2].
Qed.

Lemma placeholder_never_raises t res v ms c st o st' :
  result_of t res v ->
  placeholder (<["duration_ms" := VInt ms]> (<["cmd" := VStr c]> res)) st
    = (o, st') ->
  st' = st /\ exists r, o = Returned r.
Proof.
  intros Hv H. apply placeholder_post in H as [-> Ho]. split; [reflexivity|].
  destruct o as [r|e| |]; [eauto| |destruct Ho..].
  destruct Ho as [_ Hno]. exfalso.
  apply (Hno (Py.join (lines v))).
  assert (Hout : (<["duration_ms" := VInt ms]> (<["cmd" := VStr c]> res))
                   !! "stdout" = Some (VStr (Py.join (lines v)))).
  { rewrite !lookup_insert_ne by discriminate.
    exact (result_of_stdout _ _ _ Hv). }
  rewrite (get_lookup _ _ _ Hout). apply py_or_str_empty.
Qed.

Lemma execute_command_post mc ml cmd t st o st' :
  execute_command mc ml cmd t st = (o, st') ->
  io_frame st st' /\
  (spawned st <= spawned st' <= spawned st + 2)%nat /\
  (session_ok st -> session_ok st') /\
  (is_Some (_session st) -> is_Some (_session st')) /\
  (session_ok st ->
   match o with Raised e => execute_command_error e | _ => True end).
Proof.
  assert (Hsame : forall r, (Returned r, st) = (o, st') ->
            io_frame st st' /\
            (spawned st <= spawned st' <= spawned st + 2)%nat /\
            (session_ok st -> session_ok st') /\
            (is_Some (_session st) -> is_Some (_session st')) /\
            (session_ok st ->
             match o with Raised e => execute_command_error e | _ => True end)).
  { intros r [= <- <-]. split; [apply io_frame_refl|]. split; [lia|].
    split; [auto|]. split; [auto|]. intros _. exact I. }
  destruct cmd as [c|]; [|apply Hsame].
  destruct (is_blank (Some c)) eqn:Hb.
  { unfold execute_command. rewrite Hb. apply Hsame. }
  clear Hsame. rewrite (execute_command_unfold _ _ _ _ _ Hb).
  set (st0 := set_clock_reads (S (clock_reads st)) st).
  assert (F0 : io_frame st st0) by now apply io_frame_fields.
  destruct (_execute mc ml c t st0) as [[res|e| |] st1] eqn:E;
    destruct (execute_post _ _ _ _ _ _ _ E) as (F & Hsp & Hok & Hsome & Herr & _);
    unfold st0 in Hsp; cbn [spawned set_clock_reads] in Hsp.
  - assert (F2 : io_frame st (set_clock_reads (S (clock_reads st1)) st1)).
    { eapply io_frame_trans; [exact F0|].
      eapply io_frame_trans; [exact F | now apply io_frame_fields]. }
    assert (Hok2 : session_ok st ->
                   session_ok (set_clock_reads (S (clock_reads st1)) st1)).
    { intros Hst. apply (session_ok_frame st1); [reflexivity|cbn; lia|].
      apply Hok. exact Hst. }
    destruct (PyFloat.to_int _) as [ms|].
    + intros H. destruct (execute_result_of _ _ _ _ _ _ _ E) as [v Hv].
      destruct (placeholder_never_raises _ _ _ _ _ _ _ _ Hv H) as [-> [r ->]].
      split; [exact F2|]. split; [cbn; lia|]. split; [exact Hok2|].
      split; [exact Hsome|]. intros _. exact I.
    + intros [= <- <-]. split; [exact F2|]. split; [cbn; lia|].
      split; [exact Hok2|]. split; [exact Hsome|]. intros _. right.
      destruct (PrimFloat.is_nan _); [now left | now right].
  - intros [= <- <-]. split; [exact (io_frame_trans _ _ _ F0 F)|].
    split; [lia|]. split; [exact Hok|]. split; [exact Hsome|].
    intros Hst. left. apply Herr. exact Hst.
  - intros [= <- <-]. split; [exact (io_frame_trans _ _ _ F0 F)|].
    split; [lia|]. split; [exact Hok|]. split; [exact Hsome|].
    intros _. exact I.
  - intros [= <- <-]. split; [exact (io_frame_trans _ _ _ F0 F)|].
    split; [lia|]. split; [exact Hok|]. split; [exact Hsome|].
    intros _. exact I.
Qed.

(** X3. Whatever its outcome, [execute_command] sends no signal to any
    process, does not drop a stored session, and creates at most two
    processes. *)
Theorem X3_execute_command_spares_processes
    (MAX_OUTPUT_CHARS MAX_OUTPUT_LINES : Z) (cmd : option string)
    (timeout_sec : float) (st : State) :
  let st' := snd (execute_command MAX_OUTPUT_CHARS MAX_OUTPUT_LINES cmd
                    timeout_sec st) in
  (forall q, signals (procs st' q) = signals (procs st q)) /\
  (is_Some (_session st) -> is_Some (_session st')) /\
  (spawned st <= spawned st' <= spawned st + 2)%nat.
Proof.
  intros st'.
  destruct (execute_command MAX_OUTPUT_CHARS MAX_OUTPUT_LINES cmd timeout_sec st)
    as [o st2] eqn:E.
  destruct (execute_command_post _ _ _ _ _ _ _ E)
    as ((_ & _ & _ & Hq) & Hsp & _ & Hsome & _).
  subst st'. cbn [snd]. split; [|split; assumption].
  intros q. destruct (Hq q) as (H1 & _). exact H1.
Qed.

Lemma initiate_post mc ml st o st' :
  initiate_terminal mc ml st = (o, st') ->
  session_ok st' /\
  (spawned st <= spawned st' <= spawned st + 4)%nat /\
  match o with
  | Returned _ =>
      exists s, _session st' = Some s /\
                stdin (proc s) = true /\ stdout (proc s) = true /\
                (spawned st <= pid (proc s) < spawned st')%nat
  | Raised e => execute_error e
  | Blocked | Reading => True
  end.
Proof.
  unfold initiate_terminal, bind.
  destruct (stop_shell_returns st) as (st1 & E & (_ & Hsp1 & _) & _).
  rewrite E. set (sA := set_session None st1).
  assert (HokA : session_ok sA) by (intros s Hs; discriminate Hs).
  assert (HspA : spawned sA = spawned st) by exact Hsp1.
  destruct (_ensure_shell sA) as [[p1|e| |] st2] eqn:E1;
    destruct (ensure_shell_post _ _ _ E1) as (_ & Hsp2 & Hok2 & _ & Ho2).
  2:{ intros [= <- <-]. split; [auto|]. split; [lia|]. now left. }
  2:{ destruct Ho2. }
  2:{ destruct Ho2. }
  destruct Ho2 as [Hs2 Hcase2].
  assert (Hp1 : stdin p1 = true /\ stdout p1 = true /\
                (spawned st <= pid p1 < spawned st2)%nat).
  { destruct Hcase2 as [[Hold _]|(Hi & Ho & Hpid)]; [discriminate Hold|].
    repeat split; try assumption; lia. }
  destruct (_execute mc ml "pwd" 8%float st2) as [[res|e| |] st3] eqn:E2;
    destruct (execute_post _ _ _ _ _ _ _ E2) as (_ & Hsp3 & Hok3 & _ & Herr & Hret).
  2:{ intros [= <- <-]. split; [auto|]. split; [lia|]. apply Herr. auto. }
  2:{ intros [= <- <-]. split; [auto|]. split; [lia|]. exact I. }
  2:{ intros [= <- <-]. split; [auto|]. split; [lia|]. exact I. }
  destruct (execute_result_of _ _ _ _ _ _ _ E2) as [v Hv].
  rewrite (get_lookup _ _ _ (result_of_stdout _ _ _ Hv)), py_or_str_empty.
  unfold str_strip, ret. intros [= <- <-].
  split; [auto|]. split; [lia|].
  destruct Hret as (p & st1' & E3 & Hs3 & Hsp3').
  destruct (ensure_shell_post _ _ _ E3) as (_ & Hsp4 & _ & _ & Hs4 & Hcase4).
  exists {| proc := p |}. split; [exact Hs3|]. cbn [proc].
  destruct Hcase4 as [[Hold ->]|(Hi & Ho & Hpid)].
  - rewrite Hs2 in Hold. injection Hold as <-.
    destruct Hp1 as (? & ? & ?). repeat split; try assumption; lia.
  - repeat split; try assumption; lia.
Qed.


(** X5. When [initiate_terminal] returns, the stored session is a process
    created during the call, with both pipes: never the process of the
    session that was there before. The call creates at most four
    processes. *)
Theorem X5_initiate_starts_a_new_shell
    (MAX_OUTPUT_CHARS MAX_OUTPUT_LINES : Z) (st st' : State)
    (r : gmap string value) :
  initiate_terminal MAX_OUTPUT_CHARS MAX_OUTPUT_LINES st = (Returned r, st') ->
  (spawned st' <= spawned st + 4)%nat /\
  exists s, _session st' = Some s /\
            stdin (proc s) = true /\ stdout (proc s) = true /\
            (spawned st <= pid (proc s) < spawned st')%nat /\
            (session_ok st ->
             forall old, _session st = Some old -> pid (proc s) <> pid (proc old)).
Proof.
  intros E. destruct (initiate_post _ _ _ _ _ E) as (_ & Hsp & s & Hs & Hi & Ho & Hpid).
  split; [lia|]. exists s. repeat split; try assumption; try lia.
  intros Hst old Hold. destruct (Hst old Hold) as (_ & _ & Hlt). lia.
Qed.

(** ** The wrapper's output *)

Lemma read_until_done_within mc ml p cm dm t st r st' :
  0 <= mc -> 0 <= ml ->
  _read_until_done mc ml p cm dm t st = (Returned r, st') ->
  exists v, result_of t r v /\ Py.len (Py.join (lines v)) <= mc.
Proof.
  intros Hc Hl H. pose proof (read_until_done_stdout _ _ _ _ _ _ _ _ _ H) as Hout.
  rewrite read_until_done_unfold in H by exact Hout. cbv zeta in H.
  destruct (read_loop _ _ _ _ _ _ _ _ _ _) as [[o n] rest] eqn:Hloop.
  injection H as -> _.
  destruct (read_loop_sound _ _ _ _ _ _ _ _ _ _ [] _ _ _
              (loop_inv_start _ _ Hc Hl) Hloop) as (consumed & _ & Hres).
  destruct (Hres r eq_refl) as (v & Hr & _ & _ & _ & Hchars & _).
  exists v. split; assumption.
Qed.

Lemma execute_within mc ml cmd t st r st' :
  0 <= mc -> 0 <= ml ->
  _execute mc ml cmd t st = (Returned r, st') ->
  exists v, result_of t r v /\ Py.len (Py.join (lines v)) <= mc.
Proof.
  intros Hc Hl. unfold _execute, bind.
  destruct (_ensure_shell st) as [[p|e| |] st1]; try discriminate.
  unfold assert. destruct (stdin p); [|discriminate].
  unfold ret, uuid4_hex, stdin_write_flush.
  match goal with |- context [if ?b then _ else _] => destruct b end;
    [discriminate|].
  apply read_until_done_within; assumption.
Qed.

(** What [execute_command] returns for a command that is not blank. *)
Lemma execute_command_returns mc ml c t st r st' :
  is_blank (Some c) = false ->
  execute_command mc ml (Some c) t st = (Returned r, st') ->
  exists res st1 v ms,
    _execute mc ml c t (set_clock_reads (S (clock_reads st)) st)
      = (Returned res, st1) /\
    result_of t res v /\
    let res' := <["duration_ms" := VInt ms]> (<["cmd" := VStr c]> res) in
    (truthy (get res' "ok") && eq_zero (get res' "exit_code") = true /\
     Py.strip (Py.join (lines v)) = ""%string /\
     r = <["stdout" := VStr ("(ok)" +:+ Py.nl)]> res')
    \/ ((truthy (get res' "ok") && eq_zero (get res' "exit_code") = false \/
         Py.strip (Py.join (lines v)) <> ""%string) /\
        r = res').
Proof.
  intros Hb. rewrite (execute_command_unfold _ _ _ _ _ Hb).
  destruct (_execute mc ml c t _) as [[res|e| |] st1] eqn:E; try discriminate.
  destruct (PyFloat.to_int _) as [ms|]; [|discriminate].
  intros H. destruct (execute_result_of _ _ _ _ _ _ _ E) as [v Hv].
  exists res, st1, v, ms. split; [reflexivity|]. split; [exact Hv|].
  cbv zeta.
  assert (Hout : (<["duration_ms" := VInt ms]> (<["cmd" := VStr c]> res))
                   !! "stdout" = Some (VStr (Py.join (lines v)))).
  { rewrite !lookup_insert_ne by discriminate.
    exact (result_of_stdout _ _ _ Hv). }
  apply placeholder_post in H as [_ [(Hcond & s & Hs & Hcase)|[Hcond ->]]].
  - rewrite (get_lookup _ _ _ Hout), py_or_str_empty in Hs.
    injection Hs as <-. destruct Hcase as [[He ->]|[Hne ->]].
    + left. repeat split; assumption.
    + right. split; [now right | reflexivity].
  - right. split; [now left | reflexivity].
Qed.

(** X6. A result of [execute_command] with [ok] true and exit code 0 never
    has a blank [stdout]: when the command printed nothing but white space,
    the text is replaced by ["(ok)\n"]. *)
Theorem X6_success_output_is_never_blank
    (MAX_OUTPUT_CHARS MAX_OUTPUT_LINES : Z) (cmd : option string)
    (timeout_sec : float) (st st' : State) (r : gmap string value) :
  execute_command MAX_OUTPUT_CHARS MAX_OUTPUT_LINES cmd timeout_sec st
    = (Returned r, st') ->
  r !! "ok" = Some (VBool true) ->
  r !! "exit_code" = Some (VInt 0) ->
  exists s, r !! "stdout" = Some (VStr s) /\ all_space s = false.
Proof.
  intros E Hok Hec.
  assert (Hblank : forall st0, (Returned empty_command, st0) = (Returned r, st')
                               -> False).
  { intros st0 [= <- _]. discriminate Hok. }
  destruct cmd as [c|]; [|exfalso; exact (Hblank _ E)].
  destruct (is_blank (Some c)) eqn:Hb.
  { exfalso. unfold execute_command in E. rewrite Hb in E. exact (Hblank _ E). }
  destruct (execute_command_returns _ _ _ _ _ _ _ Hb E)
    as (res & st1 & v & ms & _ & Hv & Hcase).
  cbv zeta in Hcase.
  destruct Hcase as [(_ & _ & ->)|[[Hcond|Hne] ->]].
  - exists ("(ok)" +:+ Py.nl)%string. split; [apply lookup_insert_eq | reflexivity].
  - rewrite (get_lookup _ _ _ Hok), (get_lookup _ _ _ Hec) in Hcond.
    discriminate Hcond.
  - exists (Py.join (lines v)). split.
    + rewrite !lookup_insert_ne by discriminate.
      exact (result_of_stdout _ _ _ Hv).
    + destruct (all_space (Py.join (lines v))) eqn:Hs; [|reflexivity].
      apply strip_empty in Hs. congruence.
Qed.

(** X7. Through [execute_command] the captured text keeps the character cap
    of the read loop, except that the substituted ["(ok)\n"] is five
    characters long whatever the cap: the returned [stdout] is within
    [MAX_OUTPUT_CHARS] or is that text. *)
Theorem X7_wrapper_output_bound
    (MAX_OUTPUT_CHARS MAX_OUTPUT_LINES : Z) (cmd : option string)
    (timeout_sec : float) (st st' : State) (r : gmap string value) :
  0 <= MAX_OUTPUT_CHARS -> 0 <= MAX_OUTPUT_LINES ->
  execute_command MAX_OUTPUT_CHARS MAX_OUTPUT_LINES cmd timeout_sec st
    = (Returned r, st') ->
  exists s,
    r !! "stdout" = Some (VStr s) /\
    (Py.len s <= MAX_OUTPUT_CHARS \/ s = ("(ok)" +:+ Py.nl)%string) /\
    Py.len s <= Z.max MAX_OUTPUT_CHARS 5.
Proof.
  intros Hc Hl E.
  assert (Hblank : forall st0, (Returned empty_command, st0) = (Returned r, st')
            -> exists s, r !! "stdout" = Some (VStr s) /\
                 (Py.len s <= MAX_OUTPUT_CHARS \/ s = ("(ok)" +:+ Py.nl)%string) /\
                 Py.len s <= Z.max MAX_OUTPUT_CHARS 5).
  { intros st0 [= <- _]. exists ""%string. split; [reflexivity|].
    change (Py.len "") with 0. split; [left|]; lia. }
  destruct cmd as [c|]; [|exact (Hblank _ E)].
  destruct (is_blank (Some c)) eqn:Hb.
  { unfold execute_command in E. rewrite Hb in E. exact (Hblank _ E). }
  destruct (execute_command_returns _ _ _ _ _ _ _ Hb E)
    as (res & st1 & v & ms & Hex & _ & Hcase).
  destruct (execute_within _ _ _ _ _ _ _ Hc Hl Hex) as (v' & Hv' & Hlen).
  cbv zeta in Hcase. destruct Hcase as [(_ & _ & ->)|[_ ->]].
  - exists ("(ok)" +:+ Py.nl)%string. split; [apply lookup_insert_eq|].
    split; [now right|]. change (Py.len ("(ok)" +:+ Py.nl)) with 5. lia.
  - exists (Py.join (lines v')). split.
    + rewrite !lookup_insert_ne by discriminate.
      exact (result_of_stdout _ _ _ Hv').
    + split; [now left | lia].
Qed.

(** ** One shell for successive commands *)

Lemma execute_running mc ml cmd t st s o st' :
  _session st = Some s ->
  returncode (procs st (pid (proc s))) = None ->
  _execute mc ml cmd t st = (o, st') ->
  _session st' = Some s /\ spawned st' = spawned st.
Proof.
  intros Hs Hrc. unfold _execute, bind.
  rewrite (ensure_shell_running _ _ Hs Hrc).
  unfold assert. destruct (stdin (proc s)).
  2:{ intros [= <- <-]. now split. }
  unfold ret, uuid4_hex, stdin_write_flush. cbn [procs set_uuid_reads].
  destruct (write_raises (procs st (pid (proc s)))).
  { intros [= <- <-]. now split. }
  intros H. destruct (read_until_done_post _ _ _ _ _ _ _ _ _ H)
    as (_ & Hsess & Hsp & _).
  cbn [_session spawned set_proc set_procs set_uuid_reads] in Hsess, Hsp.
  split; congruence.
Qed.

Lemma execute_command_running mc ml cmd t st s o st' :
  _session st = Some s ->
  returncode (procs st (pid (proc s))) = None ->
  execute_command mc ml cmd t st = (o, st') ->
  _session st' = Some s /\ spawned st' = spawned st.
Proof.
  intros Hs Hrc.
  destruct cmd as [c|]; [|intros [= <- <-]; now split].
  destruct (is_blank (Some c)) eqn:Hb.
  { unfold execute_command. rewrite Hb. intros [= <- <-]. now split. }
  rewrite (execute_command_unfold _ _ _ _ _ Hb).
  destruct (_execute _ _ c t _) as [[res|e| |] st1] eqn:E;
    destruct (execute_running _ _ _ _
                (set_clock_reads (S (clock_reads st)) st) s _ _ Hs Hrc E)
      as [H1 H2]; cbn [spawned set_clock_reads] in H2.
  - destruct (PyFloat.to_int _).
    + intros Ep. apply placeholder_post in Ep as [-> _]. now split.
    + intros [= <- <-]. now split.
  - intros [= <- <-]. now split.
  - intros [= <- <-]. now split.
  - intros [= <- <-]. now split.
Qed.

(** X13. A session whose process [poll()] finds running is reused: whatever
    the outcome of [execute_command], the session reference is unchanged and
    no process is created. *)
Theorem X13_running_session_is_reused
    (MAX_OUTPUT_CHARS MAX_OUTPUT_LINES : Z) (cmd : option string)
    (timeout_sec : float) (st : State) (s : ShellSession) :
  _session st = Some s ->
  returncode (procs st (pid (proc s))) = None ->
  let st' := snd (execute_command MAX_OUTPUT_CHARS MAX_OUTPUT_LINES cmd
                    timeout_sec st) in
  _session st' = Some s /\ spawned st' = spawned st.
Proof.
  intros Hs Hrc st'.
  exact (execute_command_running MAX_OUTPUT_CHARS MAX_OUTPUT_LINES cmd
           timeout_sec st s _ _ Hs Hrc (surjective_pairing _)).
Qed.

(** ** Stopping the shell *)

Lemma terminate_running p st :
  returncode (procs st (pid p)) = None ->
  terminate p st
  = if terminate_raises (procs st (pid p)) then (Raised OSError, st)
    else (Returned tt,
          set_proc (pid p)
            (with_signals (signals (procs st (pid p)) ++ [SIGTERM])
               (procs st (pid p))) st).
Proof. intros H. unfold terminate. rewrite H. reflexivity. Qed.

Lemma wait_running p st :
  returncode (procs st (pid p)) = None ->
  wait p st
  = if wait_raises (procs st (pid p)) then (Raised TimeoutExpired, st)
    else (Returned tt,
          set_proc (pid p) (with_returncode (Some (-15)) (procs st (pid p))) st).
Proof. intros H. unfold wait. rewrite H. reflexivity. Qed.

Lemma kill_running p st :
  returncode (procs st (pid p)) = None ->
  kill p st
  = if kill_raises (procs st (pid p)) then (Raised OSError, st)
    else (Returned tt,
          set_proc (pid p)
            (with_signals (signals (procs st (pid p)) ++ [SIGKILL])
               (procs st (pid p))) st).
Proof. intros H. unfold kill. rewrite H. reflexivity. Qed.

(** X8. [_stop_shell] on a running process sends SIGKILL only as the
    fallback: SIGTERM alone when [terminate] and [wait] go through, SIGTERM
    then SIGKILL when the wait raises, SIGKILL alone when [terminate]
    itself raises. *)
Theorem X8_kill_is_the_fallback (st : State) (s : ShellSession) :
  let k := pid (proc s) in
  let x := procs st k in
  let x' := procs (snd (_stop_shell st)) k in
  _session st = Some s ->
  returncode x = None ->
  kill_raises x = false ->
  signals x' = signals x ++
               (if terminate_raises x then [SIGKILL]
                else if wait_raises x then [SIGTERM; SIGKILL]
                else [SIGTERM]).
Proof.
  intros k x x' Hs Hrc Hk. subst x'.
  unfold _stop_shell, bind, get_session. rewrite Hs. cbn beta iota.
  unfold try_finally, try_except, bind, put_session, ret.
  rewrite (terminate_running (proc s) st Hrc). fold k. fold x.
  destruct (terminate_raises x) eqn:Ht.
  - rewrite (kill_running (proc s) st Hrc). fold k. fold x. rewrite Hk.
    cbn [snd procs set_session set_proc set_procs].
    rewrite fn_lookup_insert. reflexivity.
  - set (x1 := with_signals (signals x ++ [SIGTERM]) x).
    set (st1 := set_proc k x1 st).
    assert (H1 : procs st1 (pid (proc s)) = x1).
    { unfold st1. cbn [procs set_proc set_procs]. apply fn_lookup_insert. }
    assert (Hrc1 : returncode (procs st1 (pid (proc s))) = None).
    { rewrite H1. exact Hrc. }
    rewrite (wait_running (proc s) st1 Hrc1), H1.
    change (wait_raises x1) with (wait_raises x).
    destruct (wait_raises x) eqn:Hw.
    + rewrite (kill_running (proc s) st1 Hrc1), H1.
      change (kill_raises x1) with (kill_raises x). rewrite Hk.
      cbn [snd procs set_session set_proc set_procs]. fold k.
      rewrite fn_lookup_insert. cbn [signals with_signals x1].
      unfold x1. cbn [signals with_signals].
      rewrite <- app_assoc. reflexivity.
    + cbn [snd procs set_session set_proc set_procs]. fold k.
      rewrite fn_lookup_insert. reflexivity.
Qed.

(** ** The payload *)

Lemma rstrip_nl_newlines cmd n :
  Py.rstrip_nl (cmd +:+ Py.join (repeat Py.nl n)) = Py.rstrip_nl cmd.
Proof.
  induction n as [|n IH].
  - change (Py.join (repeat Py.nl 0)) with ""%string.
    now rewrite append_empty_r.
  - replace (repeat Py.nl (S n)) with (repeat Py.nl n ++ [Py.nl])
      by (rewrite <- repeat_cons; reflexivity).
    rewrite join_snoc, <- append_assoc.
    unfold Py.rstrip_nl in *. unfold Py.nl at 2.
    rewrite rstrip_with_snoc by reflexivity. exact IH.
Qed.

(** X9. Newlines at the end of the command do not change what is written
    to the shell: the command is sent without them, followed by one newline
    and the trailer. *)
Theorem X9_payload_ignores_trailing_newlines
    (cmd cwd_marker done_marker : string) (n : nat) :
  payload_of (cmd +:+ Py.join (repeat Py.nl n)) cwd_marker done_marker
  = payload_of cmd cwd_marker done_marker.
Proof. unfold payload_of. rewrite rstrip_nl_newlines. reflexivity. Qed.

(** * The pointer tools *)

Lemma p4_lookup_In d k v : P4.lookup d k = Some v -> In (k, v) d.
Proof.
  induction d as [|[k' v'] d IH]; simpl; [discriminate|].
  destruct (String.eqb_spec k' k) as [->|_].
  - intros [= ->]. now left.
  - intros H. right. now apply IH.
Qed.

Lemma p4_check_entries_In items :
  P4.check_entries items = P4.Ok tt ->
  forall name xy, In (name, xy) items ->
    exists m jx jy,
      xy = P4.JDict m /\ P4.lookup m "x" = Some jx /\ P4.lookup m "y" = Some jy /\
      P4.is_number jx = true /\ P4.is_number jy = true.
Proof.
  induction items as [|[n e] items IH]; intros Hcheck name xy Hin;
    [destruct Hin|].
  cbn [P4.check_entries] in Hcheck.
  destruct e as [| | | | | |m]; try discriminate.
  destruct (P4.lookup m "x") as [jx|] eqn:Hx; [|discriminate].
  destruct (P4.lookup m "y") as [jy|] eqn:Hy; [|discriminate].
  destruct (P4.is_number jx && P4.is_number jy) eqn:Hn; [|discriminate].
  apply andb_prop in Hn as [Hnx Hny].
  destruct Hin as [[= <- <-]|Hin].
  - exists m, jx, jy. repeat split; assumption.
  - exact (IH Hcheck name xy Hin).
Qed.

Lemma p4_int_number j :
  P4.is_number j = true ->
  (P4.finite j = true /\ P4.int j = P4.Ok (P4.trunc j)) \/
  (P4.finite j = false /\
   exists x, j = P4.JFloat x /\
     (P4.int j = P4.Err (P4.ValueError "cannot convert float NaN to integer") \/
      P4.int j = P4.Err (P4.OverflowError "cannot convert float infinity to integer"))).
Proof.
  destruct j as [|b|z|x| | |]; try discriminate; intros _.
  - left. split; reflexivity.
  - left. split; reflexivity.
  - cbn [P4.finite P4.int P4.trunc].
    destruct (PyFloat.to_int x) as [z|].
    + left. split; reflexivity.
    + right. split; [reflexivity|]. exists x. split; [reflexivity|].
      destruct (PrimFloat.is_nan x); [now left | now right].
Qed.

(** X10. Every element of a coordinate map that [_load_coords] accepted can
    be looked up: its entry is a dictionary whose [x] and [y] are numbers,
    and [_get_xy] gives them truncated towards zero. The only way for
    [_get_xy] to fail on such an element is a NaN or an infinity among the
    two, which [json.load] accepts and [int] refuses. *)
Theorem X10_loaded_elements_resolve
    (DEFAULT_COORDS_FILE path : string) (f : P4.file)
    (coords : list (string * P4.json)) (element_name : string) (entry : P4.json) :
  P4._load_coords f path = P4.Ok coords ->
  P4.lookup coords element_name = Some entry ->
  exists m jx jy,
    entry = P4.JDict m /\
    P4.lookup m "x" = Some jx /\ P4.lookup m "y" = Some jy /\
    P4.is_number jx = true /\ P4.is_number jy = true /\
    (P4.finite jx && P4.finite jy = true ->
     P4._get_xy DEFAULT_COORDS_FILE coords element_name
     = P4.Ok (P4.trunc jx, P4.trunc jy)) /\
    (P4.finite jx && P4.finite jy = false ->
     exists e, P4._get_xy DEFAULT_COORDS_FILE coords element_name = P4.Err e /\
               (e = P4.ValueError "cannot convert float NaN to integer" \/
                e = P4.OverflowError "cannot convert float infinity to integer")).
Proof.
  intros Hload Hlook.
  assert (Hcheck : P4.check_entries coords = P4.Ok tt).
  { unfold P4._load_coords in Hload.
    destruct f as [| |data]; try discriminate.
    destruct data as [| | | | | |items]; try discriminate.
    destruct (P4.check_entries items) as [[]|] eqn:E; [|discriminate].
    injection Hload as <-. exact E. }
  destruct (p4_check_entries_In _ Hcheck _ _ (p4_lookup_In _ _ _ Hlook))
    as (m & jx & jy & -> & Hx & Hy & Hnx & Hny).
  exists m, jx, jy.
  split; [reflexivity|]. split; [exact Hx|]. split; [exact Hy|].
  split; [exact Hnx|]. split; [exact Hny|].
  unfold P4._get_xy. rewrite Hlook. cbn [P4.item]. rewrite Hx, Hy.
  destruct (p4_int_number jx Hnx) as [[Hfx ->]|(Hfx & x & -> & Hex)];
    rewrite Hfx.
  - destruct (p4_int_number jy Hny) as [[Hfy ->]|(Hfy & y & -> & Hey)];
      rewrite Hfy.
    + split; [reflexivity | discriminate].
    + split; [discriminate|]. intros _.
      destruct Hey as [-> | ->]; eexists; (split; [reflexivity|]); auto.
  - split; [discriminate|]. intros _.
    destruct Hex as [-> | ->]; eexists; (split; [reflexivity|]); auto.
Qed.

Lemma p4_act a g :
  (P4.act a g = (P4.Ok tt, P4.perform a g)) \/
  (exists msg, P4.act a g = (P4.Err (P4.LibraryError msg), P4.after_call g)).
Proof.
  unfold P4.act. destruct (P4.fails g (P4.calls g)) as [msg|]; [right|left]; eauto.
Qed.

(** X11. [ui_click] reports [ok] only after it moved the pointer to the
    coordinates [_get_xy] gave and clicked there once, and those are the
    coordinates it returns. When it reports a failure it has not clicked:
    with a name [_get_xy] refuses (an unknown element, for one) the desktop
    is untouched, otherwise at most the pointer was moved. [success] always
    equals [ok] and [element] is the name given. *)
Theorem X11_click_reports_what_it_did
    (DEFAULT_COORDS_FILE : string) (str : P4.exn -> string)
    (coords : list (string * P4.json)) (element_name : string) (g : P4.Gui) :
  let r := fst (P4.ui_click DEFAULT_COORDS_FILE str coords element_name g) in
  let g' := snd (P4.ui_click DEFAULT_COORDS_FILE str coords element_name g) in
  r !! "success" = r !! "ok" /\
  r !! "element" = Some (VStr element_name) /\
  ((r !! "ok" = Some (VBool true) /\ r !! "error" = None /\
    exists x y,
      P4._get_xy DEFAULT_COORDS_FILE coords element_name = P4.Ok (x, y) /\
      r !! "x" = Some (VInt x) /\ r !! "y" = Some (VInt y) /\
      P4.done g' = P4.done g ++ [P4.MoveTo x y; P4.Click] /\
      P4.pointer g' = (x, y))
   \/
   (r !! "ok" = Some (VBool false) /\
    ((exists e,
         P4._get_xy DEFAULT_COORDS_FILE coords element_name = P4.Err e /\
         r !! "error" = Some (VStr (str e)) /\ g' = g)
     \/
     (exists x y msg,
         P4._get_xy DEFAULT_COORDS_FILE coords element_name = P4.Ok (x, y) /\
         r !! "error" = Some (VStr (str (P4.LibraryError msg))) /\
         (P4.done g' = P4.done g \/
          P4.done g' = P4.done g ++ [P4.MoveTo x y]))))).
Proof.
  cbv zeta. unfold P4.ui_click.
  destruct (P4._get_xy DEFAULT_COORDS_FILE coords element_name) as [[x y]|e].
  2:{ split; [reflexivity|]. split; [reflexivity|]. right.
      split; [reflexivity|]. left. exists e. repeat split; reflexivity. }
  destruct (p4_act (P4.MoveTo x y) g) as [E1|[msg E1]]; rewrite E1.
  2:{ split; [reflexivity|]. split; [reflexivity|]. right.
      split; [reflexivity|]. right. exists x, y, msg.
      split; [reflexivity|]. split; [reflexivity|]. now left. }
  destruct (p4_act P4.Click (P4.perform (P4.MoveTo x y) g)) as [E2|[msg E2]];
    rewrite E2.
  - split; [reflexivity|]. split; [reflexivity|]. left.
    split; [reflexivity|]. split; [reflexivity|]. exists x, y.
    split; [reflexivity|]. split; [reflexivity|]. split; [reflexivity|].
    cbn. rewrite <- app_assoc. split; reflexivity.
  - split; [reflexivity|]. split; [reflexivity|]. right.
    split; [reflexivity|]. right. exists x, y, msg.
    split; [reflexivity|]. split; [reflexivity|]. now right.
Qed.

(** X12. [ui_type] reports [ok] only after it moved to the element's
    coordinates, clicked and wrote the whole text, and [typed_chars] is then
    the length of the text. When it reports a failure nothing was written,
    and with a name [_get_xy] refuses the desktop is untouched. *)
Theorem X12_type_reports_what_it_did
    (DEFAULT_COORDS_FILE : string) (str : P4.exn -> string)
    (coords : list (string * P4.json)) (element_name text : string)
    (g : P4.Gui) :
  let r := fst (P4.ui_type DEFAULT_COORDS_FILE str coords element_name text g) in
  let g' := snd (P4.ui_type DEFAULT_COORDS_FILE str coords element_name text g) in
  (r !! "ok" = Some (VBool true) /\
   r !! "typed_chars" = Some (VInt (Py.len text)) /\
   exists x y,
     P4._get_xy DEFAULT_COORDS_FILE coords element_name = P4.Ok (x, y) /\
     r !! "x" = Some (VInt x) /\ r !! "y" = Some (VInt y) /\
     P4.done g' = P4.done g ++ [P4.MoveTo x y; P4.Click; P4.Write text])
  \/
  (r !! "ok" = Some (VBool false) /\ r !! "typed_chars" = None /\
   is_Some (r !! "error") /\
   (forall t, ~ In (P4.Write t) (P4.done g) -> ~ In (P4.Write t) (P4.done g')) /\
   (forall e, P4._get_xy DEFAULT_COORDS_FILE coords element_name = P4.Err e ->
              g' = g)).
Proof.
  cbv zeta. unfold P4.ui_type.
  destruct (P4._get_xy DEFAULT_COORDS_FILE coords element_name) as [[x y]|e].
  2:{ right. split; [reflexivity|]. split; [reflexivity|].
      split; [eexists; reflexivity|]. split; [auto|]. reflexivity. }
  assert (Hno : forall (l : list P4.action) t,
             ~ In (P4.Write t) (P4.done g) ->
             (forall a, In a l -> a = P4.MoveTo x y \/ a = P4.Click) ->
             ~ In (P4.Write t) (P4.done g ++ l)).
  { intros l t Hg Hl Hin. apply in_app_or in Hin as [Hin|Hin]; [auto|].
    destruct (Hl _ Hin) as [H|H]; discriminate H. }
  destruct (p4_act (P4.MoveTo x y) g) as [E1|[msg E1]]; rewrite E1.
  2:{ right. split; [reflexivity|]. split; [reflexivity|].
      split; [eexists; reflexivity|]. split; [auto|]. discriminate. }
  destruct (p4_act P4.Click (P4.perform (P4.MoveTo x y) g)) as [E2|[msg E2]];
    rewrite E2.
  2:{ right. split; [reflexivity|]. split; [reflexivity|].
      split; [eexists; reflexivity|]. split; [|discriminate].
      intros t Ht. cbn. apply Hno; [exact Ht|].
      intros a [<-|[]]. now left. }
  destruct (p4_act (P4.Write text)
              (P4.perform P4.Click (P4.perform (P4.MoveTo x y) g)))
    as [E3|[msg E3]]; rewrite E3.
  - left. split; [reflexivity|]. split; [reflexivity|]. exists x, y.
    split; [reflexivity|]. split; [reflexivity|]. split; [reflexivity|].
    cbn. rewrite <- !app_assoc. reflexivity.
  - right. split; [reflexivity|]. split; [reflexivity|].
    split; [eexists; reflexivity|]. split; [|discriminate].
    intros t Ht. cbn. rewrite <- app_assoc. apply Hno; [exact Ht|].
    intros a [<-|[<-|[]]]; [now left | now right].
Qed.

Lemma p4_check_entries_ok items :
  P4.check_entries items = P4.Ok tt <->
  forallb (fun kv => P4.entry_ok (snd kv)) items = true.
Proof.
  induction items as [|[n e] items IH]; [split; reflexivity|].
  cbn [P4.check_entries forallb snd]. cbv zeta. unfold P4.entry_ok at 1.
  destruct e as [| | | | | |m]; try (cbn [andb]; split; discriminate).
  destruct (P4.lookup m "x") as [jx|]; [|cbn [andb]; split; discriminate].
  destruct (P4.lookup m "y") as [jy|]; [|cbn [andb]; split; discriminate].
  destruct (P4.is_number jx && P4.is_number jy); cbn [andb];
    [exact IH | split; discriminate].
Qed.

(** X14. [_load_coords] accepts exactly the files that parse to a
    dictionary all of whose entries are dictionaries with a number under
    [x] and under [y], and returns that dictionary as it is; a missing
    file, a parse failure, any other JSON value and any other entry make it
    raise. *)
Theorem X14_load_coords_accepts_exactly
    (f : P4.file) (path : string) (coords : list (string * P4.json)) :
  P4._load_coords f path = P4.Ok coords <->
  f = P4.Parsed (P4.JDict coords) /\
  forallb (fun kv => P4.entry_ok (snd kv)) coords = true.
Proof.
  unfold P4._load_coords. split.
  - destruct f as [| |data]; try discriminate.
    destruct data as [| | | | | |items]; try discriminate.
    destruct (P4.check_entries items) as [[]|] eqn:E; [|discriminate].
    intros [= <-]. split; [reflexivity|]. now apply p4_check_entries_ok.
  - intros [-> H]. apply p4_check_entries_ok in H. rewrite H. reflexivity.
Qed.

(** ** Timeouts and shells that have gone *)

(** X15. When a clock check of the read loop finds the timeout exceeded
    while the loop is still reading (after the observations [pre], with
    local variables [v]), [_execute] returns the timeout dictionary: [ok]
    false, the error text naming the bound, the text captured so far, no
    exit code. The session is the one [_ensure_shell] gave, no process was
    created and none was signalled. *)
Theorem X15_timeout_at_a_clock_check
    (MAX_OUTPUT_CHARS MAX_OUTPUT_LINES : Z) (cmd : string) (timeout_sec : float)
    (st st1 : State) (p : Popen) (pre rest : list Obs) (n : nat) (v : Vars) :
  let uid := uuids st1 (uuid_reads st1) in
  let start := clock st1 (clock_reads st1) in
  _ensure_shell st = (Returned p, st1) ->
  stdin p = true -> stdout p = true ->
  write_raises (procs st1 (pid p)) = false ->
  feed (procs st1 (pid p)) = pre ++ rest ->
  still_reading MAX_OUTPUT_CHARS MAX_OUTPUT_LINES
    (cwd_marker_of uid) (done_marker_of uid) timeout_sec start (clock st1)
    (S (clock_reads st1)) pre vars0 = Some (n, v) ->
  PyFloat.exceeds (clock st1 n) start timeout_sec = true ->
  exists r st',
    _execute MAX_OUTPUT_CHARS MAX_OUTPUT_LINES cmd timeout_sec st
      = (Returned r, st') /\
    r !! "ok" = Some (VBool false) /\
    r !! "error"
      = Some (VStr ("timeout after " +:+ PyFloat.format_1f timeout_sec +:+ "s")) /\
    r !! "stdout" = Some (VStr (Py.join (lines v))) /\
    r !! "exit_code" = Some VNone /\
    _session st' = _session st1 /\
    spawned st' = spawned st1 /\
    forall q, signals (procs st' q) = signals (procs st1 q).
Proof.
  intros uid start Hens Hin Hout Hwr Hfeed Hread Hlate.
  destruct (execute_times_out MAX_OUTPUT_CHARS MAX_OUTPUT_LINES cmd timeout_sec
              _ _ _ _ _ _ _ Hens Hin Hout Hwr Hfeed Hread Hlate)
    as (st' & E & Hec & Hs & Hsp & _ & _ & Hsig).
  exists (timeout_result timeout_sec v), st'. split; [exact E|].
  split; [reflexivity|]. split; [reflexivity|]. split; [reflexivity|].
  split.
  { rewrite (result_of_exit_code timeout_sec _ v) by (now left).
    rewrite Hec. reflexivity. }
  split; [exact Hs|]. split; [exact Hsp | exact Hsig].
Qed.

(** [_ensure_shell] on a session whose process has ended. *)
Lemma ensure_shell_ended st s rc p st1 :
  _session st = Some s ->
  returncode (procs st (pid (proc s))) = Some rc ->
  _ensure_shell st = (Returned p, st1) ->
  stdin p = true /\ stdout p = true /\
  pid p = spawned st /\ spawned st1 = S (spawned st).
Proof.
  intros Hs Hrc. unfold _ensure_shell, bind, get_session, put_session, ret.
  rewrite Hs. cbn beta iota. rewrite Hs. cbn beta iota.
  rewrite poll_spec, Hrc. cbn beta iota.
  destruct (polled_fields (proc s) st) as (_ & Hsp0 & _).
  destruct (_start_shell (polled (proc s) st)) as [[s1|e| |] st2] eqn:E;
    destruct (start_shell_post _ _ _ E) as (_ & _ & Hsp & Ho);
    try discriminate.
  subst s1. cbn [_session set_session proc]. intros [= <- <-].
  cbn [stdin stdout pid new_handle spawned set_session].
  repeat split; congruence.
Qed.

(** X16. A session whose process [poll()] finds ended (the shell was told
    to exit, or died) is replaced: when [execute_command] returns for a
    command that is not blank, the stored session is the one process created
    during the call, with both pipes. *)
Theorem X16_ended_session_is_replaced
    (MAX_OUTPUT_CHARS MAX_OUTPUT_LINES : Z) (c : string) (timeout_sec : float)
    (st st' : State) (s : ShellSession) (rc : Z) (r : gmap string value) :
  _session st = Some s ->
  returncode (procs st (pid (proc s))) = Some rc ->
  is_blank (Some c) = false ->
  execute_command MAX_OUTPUT_CHARS MAX_OUTPUT_LINES (Some c) timeout_sec st
    = (Returned r, st') ->
  spawned st' = S (spawned st) /\
  _session st'
  = Some {| proc := {| pid := spawned st; stdin := true; stdout := true |} |}.
Proof.
  intros Hs Hrc Hb. rewrite (execute_command_unfold _ _ _ _ _ Hb).
  destruct (_execute _ _ c timeout_sec _) as [[res|e| |] st2] eqn:E;
    try discriminate.
  destruct (execute_post _ _ _ _ _ _ _ E)
    as (_ & _ & _ & _ & _ & p & st1 & Hens & Hsess & Hsp).
  destruct (ensure_shell_ended (set_clock_reads (S (clock_reads st)) st)
              s rc _ _ Hs Hrc Hens) as (Hi & Ho & Hpid & Hsp1).
  cbn [spawned set_clock_reads] in Hpid, Hsp1.
  destruct (PyFloat.to_int _); [|discriminate].
  intros H. apply placeholder_post in H as [-> _].
  cbn [spawned _session set_clock_reads]. split; [congruence|].
  rewrite Hsess. destruct p as [k i o]. cbn in Hi, Ho, Hpid. subst. reflexivity.
Qed.

(** * The further properties at concrete inputs *)

(** X1 on a shell that answers with two lines and both reports. *)
Lemma X1_protocol_round_trip_witness :
  let st := world_with_session still_clock full_answer in
  exists r st',
    _execute 20000 800 "exit 127" 20%float st = (Returned r, st') /\
    r !! "ok" = Some (VBool true) /\
    r !! "error" = None /\
    r !! "stdout" = Some (VStr (Py.join ["a" +:+ Py.nl; "b" +:+ Py.nl])) /\
    r !! "exit_code" = Some (VInt 127) /\
    r !! "cwd_after" = Some (VStr (Py.strip "/tmp")) /\
    r !! "truncated" = Some (VBool false) /\
    feed (procs st' (pid handle0)) = [Line ("later" +:+ Py.nl)].
Proof.
  intros st.
  assert (Hord : Forall (ordinary_obs (cwd_marker_of uid0) (done_marker_of uid0))
                   [Line ("a" +:+ Py.nl); NotReady; Line ("b" +:+ Py.nl)]).
  { repeat constructor. }
  exact (X1_protocol_round_trip 20000 800 "exit 127" 20%float st st handle0
           [Line ("a" +:+ Py.nl); NotReady; Line ("b" +:+ Py.nl)]
           [Line ("later" +:+ Py.nl)] "/tmp" 127
           eq_refl eq_refl eq_refl eq_refl eq_refl eq_refl Hord
           ltac:(vm_compute; discriminate) ltac:(vm_compute; discriminate)
           (fun j _ => eq_refl) ltac:(lia)).
Defined.

(** X2 on the done marker of another execution. *)
Lemma X2_stale_marker_is_output_witness :
  let line := done_marker_of uid1 +:+ ":0" +:+ Py.nl in
  String.length uid0 = String.length uid1 /\ uid0 <> uid1 /\
  on_line 20000 800 (cwd_marker_of uid0) (done_marker_of uid0) vars0 line
  = Continue (if fits 20000 800 vars0 line
              then store_line line vars0 else set_truncated vars0).
Proof.
  intros line.
  assert (Hne : uid0 <> uid1) by discriminate.
  split; [reflexivity|]. split; [exact Hne|].
  exact (X2_stale_marker_is_output 20000 800 uid0 uid1 (":0" +:+ Py.nl) vars0
           eq_refl Hne line (or_introl eq_refl)).
Defined.


(** X5 on a session whose new shell prints nothing in time. *)
Lemma X5_initiate_starts_a_new_shell_witness :
  let st := world_with_session (jump_after 0) [] in
  let run := initiate_terminal 20000 800 st in
  let r : gmap string value :=
    list_to_map
      [("ok", VBool true);
       ("message", VStr "terminal session initiated");
       ("cwd", VNone)] in
  run = (Returned r, snd run) /\
  (spawned (snd run) <= spawned st + 4)%nat /\
  exists s, _session (snd run) = Some s /\
            stdin (proc s) = true /\ stdout (proc s) = true /\
            (spawned st <= pid (proc s) < spawned (snd run))%nat /\
            (session_ok st ->
             forall old, _session st = Some old -> pid (proc s) <> pid (proc old)).
Proof.
  intros st run r.
  assert (Hrun : run = (Returned r, snd run)) by (vm_compute; reflexivity).
  split; [exact Hrun|].
  exact (X5_initiate_starts_a_new_shell 20000 800 st (snd run) r Hrun).
Defined.

(** X6 and X7 on a command whose long line is dropped under a cap of three
    characters. *)
Lemma X6_success_output_is_never_blank_witness :
  let st := world_with_session still_clock quiet_success in
  let run := execute_command 3 800 (Some "echo abcdef"%string) 20%float st in
  let r : gmap string value :=
    list_to_map
      [("ok", VBool true); ("stdout", VStr ("(ok)" +:+ Py.nl));
       ("exit_code", VInt 0); ("cwd_after", VStr "/root");
       ("truncated", VBool true); ("cmd", VStr "echo abcdef");
       ("duration_ms", VInt 0)] in
  run = (Returned r, snd run) /\
  exists s, r !! "stdout" = Some (VStr s) /\ all_space s = false.
Proof.
  intros st run r.
  assert (Hrun : run = (Returned r, snd run)) by (vm_compute; reflexivity).
  split; [exact Hrun|].
  exact (X6_success_output_is_never_blank 3 800 (Some "echo abcdef"%string)
           20%float st (snd run) r Hrun eq_refl eq_refl).
Defined.

Lemma X7_wrapper_output_bound_witness :
  let st := world_with_session still_clock quiet_success in
  let run := execute_command 3 800 (Some "echo abcdef"%string) 20%float st in
  let r : gmap string value :=
    list_to_map
      [("ok", VBool true); ("stdout", VStr ("(ok)" +:+ Py.nl));
       ("exit_code", VInt 0); ("cwd_after", VStr "/root");
       ("truncated", VBool true); ("cmd", VStr "echo abcdef");
       ("duration_ms", VInt 0)] in
  run = (Returned r, snd run) /\
  exists s,
    r !! "stdout" = Some (VStr s) /\
    (Py.len s <= 3 \/ s = ("(ok)" +:+ Py.nl)%string) /\
    Py.len s <= Z.max 3 5.
Proof.
  intros st run r.
  assert (Hrun : run = (Returned r, snd run)) by (vm_compute; reflexivity).
  split; [exact Hrun|].
  exact (X7_wrapper_output_bound 3 800 (Some "echo abcdef"%string)
           20%float st (snd run) r ltac:(lia) ltac:(lia) Hrun).
Defined.

(** X8 on a process that does not exit within the wait. *)
Lemma X8_kill_is_the_fallback_witness :
  signals (procs (snd (_stop_shell slow_world)) 0%nat) = [SIGTERM; SIGKILL].
Proof.
  exact (X8_kill_is_the_fallback slow_world {| proc := handle0 |}
           eq_refl eq_refl eq_refl).
Defined.

(** X10 on a map with one element at (10.5, 20). *)
Lemma X10_loaded_elements_resolve_witness :
  let entry := P4.JDict [("x"%string, P4.JFloat 10.5%float);
                         ("y"%string, P4.JInt 20)] in
  P4._load_coords (P4.Parsed (P4.JDict one_element)) "coordinate_map.json"
    = P4.Ok one_element /\
  exists m jx jy,
    entry = P4.JDict m /\
    P4.lookup m "x" = Some jx /\ P4.lookup m "y" = Some jy /\
    P4.is_number jx = true /\ P4.is_number jy = true /\
    (P4.finite jx && P4.finite jy = true ->
     P4._get_xy "coordinate_map.json" one_element "search_box"
     = P4.Ok (P4.trunc jx, P4.trunc jy)) /\
    (P4.finite jx && P4.finite jy = false ->
     exists e, P4._get_xy "coordinate_map.json" one_element "search_box"
               = P4.Err e /\
               (e = P4.ValueError "cannot convert float NaN to integer" \/
                e = P4.OverflowError "cannot convert float infinity to integer")).
Proof.
  intros entry. split; [reflexivity|].
  exact (X10_loaded_elements_resolve "coordinate_map.json" "coordinate_map.json"
           (P4.Parsed (P4.JDict one_element)) one_element "search_box" entry
           eq_refl eq_refl).
Defined.

(** X13 on a running session and a command that times out. *)
Lemma X13_running_session_is_reused_witness :
  let st := world_with_session (jump_after 1) [] in
  let st' := snd (execute_command 20000 800 (Some "sleep 60"%string) 20%float st) in
  _session st' = Some {| proc := handle0 |} /\ spawned st' = spawned st.
Proof.
  intros st.
  exact (X13_running_session_is_reused 20000 800 (Some "sleep 60"%string)
           20%float st {| proc := handle0 |} eq_refl eq_refl).
Defined.

(** X15 on a command that prints one line and then nothing for a hundred
    seconds. *)
Lemma X15_timeout_at_a_clock_check_witness :
  let st := world_with_session (jump_after 2)
              [Line ("partial" +:+ Py.nl); NotReady; NotReady] in
  let v := store_line ("partial" +:+ Py.nl) vars0 in
  _ensure_shell st = (Returned handle0, st) /\
  exists r st',
    _execute 20000 800 "sleep 60" 20%float st = (Returned r, st') /\
    r !! "ok" = Some (VBool false) /\
    r !! "error" = Some (VStr "timeout after 20.0s") /\
    r !! "stdout" = Some (VStr (Py.join (lines v))) /\
    r !! "exit_code" = Some VNone /\
    _session st' = _session st /\
    spawned st' = spawned st /\
    forall q, signals (procs st' q) = signals (procs st q).
Proof.
  intros st v.
  assert (Hens : _ensure_shell st = (Returned handle0, st)) by reflexivity.
  split; [exact Hens|].
  exact (X15_timeout_at_a_clock_check 20000 800 "sleep 60" 20%float st st handle0
           [Line ("partial" +:+ Py.nl); NotReady] [NotReady] 3 v
           Hens eq_refl eq_refl eq_refl eq_refl eq_refl eq_refl).
Defined.

(** X16 on a shell that is told to exit with status 3: the call returns the
    failure of an ended session and keeps the session; the next call finds
    the process ended and goes to a new shell. *)
Lemma X16_ended_session_is_replaced_witness :
  let first := execute_command 20000 800 (Some "exit 3"%string) 20%float
                 leaving_world in
  let st := snd first in
  let run := execute_command 20000 800 (Some "pwd"%string) 20%float st in
  let r : gmap string value :=
    list_to_map
      [("ok", VBool true); ("stdout", VStr ("/root" +:+ Py.nl));
       ("exit_code", VInt 0); ("cwd_after", VStr "/root");
       ("truncated", VBool false); ("cmd", VStr "pwd");
       ("duration_ms", VInt 0)] in
  get (default empty_command
         (match fst first with Returned r0 => Some r0 | _ => None end)) "error"
    = VStr "shell session ended unexpectedly" /\
  _session st = Some {| proc := handle0 |} /\
  returncode (procs st 0%nat) = Some 3 /\
  run = (Returned r, snd run) /\
  spawned (snd run) = S (spawned st) /\
  _session (snd run)
  = Some {| proc := {| pid := spawned st; stdin := true; stdout := true |} |}.
Proof.
  intros first st run r.
  assert (Hrun : run = (Returned r, snd run)) by (vm_compute; reflexivity).
  split; [vm_compute; reflexivity|]. split; [reflexivity|].
  split; [vm_compute; reflexivity|]. split; [exact Hrun|].
  exact (X16_ended_session_is_replaced 20000 800 "pwd" 20%float st (snd run)
           {| proc := handle0 |} 3 r eq_refl ltac:(vm_compute; reflexivity)
           eq_refl Hrun).
Defined.
